(** * Sentinel brain: a shallow embedding of the scoring pipeline

    The development follows the Python package [sentinel_brain]:
    the trace model, the four feature records and their serialisation,
    the flash-loan, state-variance and opcode extractors, the feature
    aggregator, the heuristic filter, the anomaly detector, the protocol
    filter and the two engines ([SignalEngine], [InferenceEngine]).

    Conventions.
    - Python [int] is [Z]; Python [float] is modelled by the rationals [Q]
      (exact arithmetic, no rounding); [len] is [Z.of_nat] of the length.
    - Python [str] is [string]; the inputs of interest (hex strings,
      addresses, selectors) are ASCII, where byte and code-point indices
      coincide.
    - A Python [set] of strings is a [gset string], a [dict] keyed by
      strings a [gmap string _].  The order in which a set is iterated,
      the parsing done by [int(s, 16)] and the float square root belong
      to the run time and are the fields of [PyRuntime].
    - The analysis of creation bytecode (SHA-256 digest, proxy patterns,
      Jaccard similarity) is a method of the [BytecodeExtractor] object
      held by the aggregator; the engines call the aggregator without a
      chain handle, so deployed code is never fetched.
    - Wall-clock readings (time stamp, latency) are inputs; logging is
      left out.
    - A raised exception is the [Raise] branch of [result]. *)

From Stdlib Require Import ZArith QArith Qminmax Qabs Lqa String Ascii Bool.
From stdpp Require Import base list strings gmap sorting.

Set Warnings "-register-all".

Local Open Scope string_scope.
Local Open Scope list_scope.
Local Open Scope Z_scope.

(** ** Python run-time support *)

Module Py.

Inductive exn := TypeError | ValueError | RuntimeError.

Inductive result (A : Type) :=
| Ok (a : A)
| Raise (e : exn).
Arguments Ok {A} a.
Arguments Raise {A} e.

Definition bind {A B} (r : result A) (k : A -> result B) : result B :=
  match r with
  | Ok a => k a
  | Raise e => Raise e
  end.

Definition len {A} (l : list A) : Z := Z.of_nat (List.length l).
Definition strlen (s : string) : Z := Z.of_nat (String.length s).

(** [s[:n]], [s[a:b]] for non-negative literal bounds. *)
Definition slice (a b : nat) (s : string) : string := substring a (b - a) s.

Definition startswith (p s : string) : bool :=
  String.eqb (substring 0 (String.length p) s) p.

Definition lower_ascii (c : ascii) : ascii :=
  let n := nat_of_ascii c in
  if (65 <=? n)%nat && (n <=? 90)%nat then ascii_of_nat (n + 32) else c.

Fixpoint lower (s : string) : string :=
  match s with
  | EmptyString => EmptyString
  | String c s' => String (lower_ascii c) (lower s')
  end.

Definition upper_ascii (c : ascii) : ascii :=
  let n := nat_of_ascii c in
  if (97 <=? n)%nat && (n <=? 122)%nat then ascii_of_nat (n - 32) else c.

Fixpoint upper (s : string) : string :=
  match s with
  | EmptyString => EmptyString
  | String c s' => String (upper_ascii c) (upper s')
  end.

(** Truth value of a string and of [str | None]. *)
Definition truthy (s : string) : bool := negb (String.eqb s "").
Definition truthy_opt (o : option string) : bool :=
  match o with
  | Some s => truthy s
  | None => false
  end.

Definition mem (x : string) (l : list string) : bool := bool_decide (x ∈ l).

Fixpoint assoc {V} (k : string) (d : list (string * V)) : option V :=
  match d with
  | [] => None
  | (k', v) :: d' => if String.eqb k k' then Some v else assoc k d'
  end.

Definition sumZ (l : list Z) : Z := fold_left Z.add l 0.

(** [max(l)] of a non-empty list of integers, first element as seed. *)
Definition maxZ (l : list Z) : Z :=
  match l with
  | [] => 0
  | x :: l' => fold_left Z.max l' x
  end.

(** Float comparisons and the two-argument [min] and [max]. *)
Definition gtb (x y : Q) : bool := negb (Qle_bool x y).
Definition geb (x y : Q) : bool := Qle_bool y x.
Definition ltb (x y : Q) : bool := negb (Qle_bool y x).

Definition fmin (x y : Q) : Q := if ltb y x then y else x.
Definition fmax (x y : Q) : Q := if gtb y x then y else x.
Definition fabs (x : Q) : Q := if ltb x 0 then Qopp x else x.

Definition float (z : Z) : Q := inject_Z z.

End Py.

Import Py.

#[global] Instance result_ret : MRet result := @Ok.
#[global] Instance result_bind : MBind result :=
  fun A B k r => Py.bind r k.

(** ** Trace model ([data/collectors/fork_replayer.py]) *)

Module Trace.

Record TraceLog := {
log_address : string;
log_topics : list string;
log_data : string
}.

Inductive TraceCall := mkTraceCall {
call_type : string;
call_from_address : string;
call_to_address : string;
call_value : Z;
call_gas : Z;
call_gas_used : Z;
call_input_data : string;
call_output_data : string;
call_depth_field : Z;
call_children : list TraceCall
}.

Record StorageChange := {
sc_address : string;
sc_slot : string;
sc_previous_value : string;
sc_new_value : string
}.

Record TransactionTrace := {
tx_hash : string;
block_number : Z;
from_address : string;
to_address : option string;
value : Z;
gas_used : Z;
gas_price : Z;
input_data : string;
status : bool;
logs : list TraceLog;
call_trace : option TraceCall;
storage_changes : list StorageChange;
opcodes : gmap string Z;
contracts_called : list string;
created_contracts : list string;
selfdestruct_contracts : list string
}.

End Trace.

Import Trace.

(** ** Pending transactions ([data/collectors/mempool_listener.py]) *)

Module Mempool.

Record PendingTransaction := {
  hash : string;
  from_address : string;
  to_address : option string;
  value : Z;
  gas : Z;
  gas_price : Z;
  max_fee_per_gas : option Z;
  max_priority_fee_per_gas : option Z;
  input_data : string;
  nonce : Z;
  chain_id : option Z
}.

Definition is_contract_interaction (tx : PendingTransaction) : bool :=
  bool_decide (is_Some (to_address tx)) && (2 <? strlen (input_data tx)).

Definition is_contract_creation (tx : PendingTransaction) : bool :=
  bool_decide (to_address tx = None) && (2 <? strlen (input_data tx)).

Definition is_simple_transfer (tx : PendingTransaction) : bool :=
  String.eqb (input_data tx) "0x" || String.eqb (input_data tx) "".

Definition selector (tx : PendingTransaction) : option string :=
  if 10 <=? strlen (input_data tx) then Some (slice 0 10 (input_data tx))
  else None.

End Mempool.

(** ** The run time *)

Class PyRuntime := {
  (** [int(s, 16)]; [None] stands for [ValueError]. *)
  int16 : string -> option Z;
  (** [x ** 0.5] on floats. *)
  fsqrt : Q -> Q;
  (** The order in which a set of strings is iterated. *)
  set_iter : gset string -> list string;
  set_iter_NoDup : forall X, NoDup (set_iter X);
  set_iter_elem_of : forall X x, x ∈ set_iter X <-> x ∈ X
}.

Definition b2f (b : bool) : Q := if b then 1%Q else 0%Q.

(** ** Flash-loan extractor ([features/extractors/flash_loan.py]) *)

Module FlashLoan.

Definition FLASH_LOAN_SIGNATURES : list (string * string) :=
  [ ("0x5cffe9de", "flashLoan(address,address,uint256,bytes)");
    ("0xab9c4b5d",
     "flashLoan(address,address[],uint256[],uint256[],address,bytes,uint16)");
    ("0xe0232b42", "flashLoan(address,uint256,bytes)");
    ("0xc1a8a1f5", "flash(address,uint256,uint256,bytes)");
    ("0x490e6cbc", "flash(address,address,uint256,uint256,bytes)");
    ("0x9c3f1e90", "flashLoan(uint256,bytes)");
    ("0xd9d98ce4", "flashBorrow(address,uint256)");
    ("0x35ea6a75", "flashLoan(address,address,uint256,bytes)") ].

Definition FLASH_LOAN_PROVIDERS : list (string * string) :=
  [ ("0x7d2768de32b0b80b7a3454c06bdac94a69ddc7a9", "aave_v2");
    ("0x87870bca3f3fd6335c3f4ce8392d69350b4fa4e2", "aave_v3");
    ("0x5c69bee701ef814a2b6a3edd4b1652cb9cc5aa6f", "uniswap_v2");
    ("0x1f98431c8ad98523631ae4a59f267346ea31f984", "uniswap_v3");
    ("0xba12222222228d8ba445958a75a0704d566bf2c8", "balancer");
    ("0x6bdC1FCB2F13d1bA9D26ccEc3983d5D4bf318f57", "dydx");
    ("0xc02aaa39b223fe8d0a0e5c4f27ead9083c756cc2", "weth") ].

Definition CALLBACK_SIGNATURES : list (string * string) :=
  [ ("0x23e30c8b", "onFlashLoan(address,address,uint256,uint256,bytes)");
    ("0xee872558",
     "executeOperation(address[],uint256[],uint256[],address,bytes)");
    ("0x920f5c84", "uniswapV3FlashCallback(uint256,uint256,bytes)");
    ("0xfa461e33", "uniswapV3SwapCallback(int256,int256,bytes)");
    ("0x10d1e85c", "pancakeV3SwapCallback(int256,int256,bytes)");
    ("0x84800812", "receiveFlashLoan(address[],uint256[],uint256[],bytes)") ].

Definition FLASH_LOAN_EVENT_TOPICS : list (string * string) :=
  [ ("0x631042c832b07452973831137f2d73e395028b44b250dedc5abb0ee766e168ac",
     "aave_v2_flashloan");
    ("0xefefaba5e921573100900a3ad9cf29f222d995fb3b6045797eaea7521f5de7a0",
     "aave_v3_flashloan");
    ("0x0d7d75e01ab95780d3cd1c8ec0dd6c2ce19f3a05cdb8d28c4c21e1e1d2b0c92a",
     "balancer_flashloan");
    ("0x76e3a82f8c87c7f3bd4c86ab5f5e2769efb99a8746b0a5c9b73d86db9d0af09e",
     "dydx_flashloan") ].

Record FlashLoanFeatures := {
  has_flash_loan : bool;
  flash_loan_count : Z;
  flash_loan_providers : list string;
  flash_loan_amounts : list Z;
  total_borrowed : Z;
  has_callback : bool;
  callback_selectors : list string;
  nested_flash_loans : bool;
  repayment_detected : bool
}.

Definition to_vector (f : FlashLoanFeatures) : list Q :=
  [ b2f (has_flash_loan f);
    float (flash_loan_count f);
    float (len (flash_loan_providers f));
    if 0 <? total_borrowed f then (float (total_borrowed f) / 1e18)%Q
    else 0%Q;
    b2f (has_callback f);
    float (len (callback_selectors f));
    b2f (nested_flash_loans f);
    b2f (repayment_detected f) ].

(** The attributes set by [FlashLoanExtractor.__init__]. *)
Definition flash_loan_sigs : list string := FLASH_LOAN_SIGNATURES.*1.
Definition callback_sigs : list string := CALLBACK_SIGNATURES.*1.
Definition provider_addresses : list (string * string) :=
  map (fun kv => (lower kv.1, kv.2)) FLASH_LOAN_PROVIDERS.
Definition flash_loan_event_topics := FLASH_LOAN_EVENT_TOPICS.

(** The dictionaries appended to [flash_loan_calls] and returned by
    [_detect_flash_loans_from_logs]. *)
Record FlashLoanCall := {
  flc_selector : string;
  flc_to : string;
  flc_value : Z;
  flc_depth : Z
}.

Record LogFlashLoan := {
  lfl_provider : string;
  lfl_amount : Z;
  lfl_address : string
}.

(** The four accumulators [_analyze_call_tree] appends to. *)
Record Acc := {
  flash_loan_calls : list FlashLoanCall;
  callback_calls : list string;
  providers : gset string;
  amounts : list Z
}.

Definition selector_of (input : string) : string :=
  if 10 <=? strlen input then slice 0 10 input else "".

Section WithRuntime.
Context `{RT : PyRuntime}.

Definition _extract_amount_from_input (input : string) : Z :=
  if strlen input <? 74 then 0
  else default 0 (int16 (slice 10 74 input)).

Definition _extract_amount_from_log_data (data : string) : Z :=
  if strlen data <? 66 then 0
  else
    let amount_hex :=
      if startswith "0x" data then slice 2 66 data else slice 0 64 data in
    default 0 (int16 amount_hex).

Definition visit (call : TraceCall) (depth : Z) (a : Acc) : Acc :=
  let selector := selector_of (call_input_data call) in
  let a1 :=
    if mem selector flash_loan_sigs then
      let calls := flash_loan_calls a ++
        [ {| flc_selector := selector; flc_to := call_to_address call;
             flc_value := call_value call; flc_depth := depth |} ] in
      let provs :=
        match assoc (lower (call_to_address call)) provider_addresses with
        | Some p => {[ p ]} ∪ providers a
        | None => providers a
        end in
      let amount := _extract_amount_from_input (call_input_data call) in
      let amts :=
        if 0 <? amount then amounts a ++ [amount] else amounts a in
      {| flash_loan_calls := calls; callback_calls := callback_calls a;
         providers := provs; amounts := amts |}
    else a in
  if mem selector callback_sigs then
    {| flash_loan_calls := flash_loan_calls a1;
       callback_calls := callback_calls a1 ++ [selector];
       providers := providers a1; amounts := amounts a1 |}
  else a1.

Fixpoint _analyze_call_tree (call : TraceCall) (depth : Z) (a : Acc) : Acc :=
  match call with
  | mkTraceCall _ _ _ _ _ _ _ _ _ children =>
      (fix each (cs : list TraceCall) (a : Acc) : Acc :=
         match cs with
         | [] => a
         | child :: cs' => each cs' (_analyze_call_tree child (depth + 1) a)
         end) children (visit call depth a)
  end.

Fixpoint _detect_flash_loans_from_logs (ls : list TraceLog)
  : list LogFlashLoan :=
  match ls with
  | [] => []
  | log :: ls' =>
      match log_topics log with
      | [] => _detect_flash_loans_from_logs ls'
      | topic0 :: _ =>
          match assoc topic0 flash_loan_event_topics with
          | Some provider =>
              {| lfl_provider := provider;
                 lfl_amount := _extract_amount_from_log_data (log_data log);
                 lfl_address := log_address log |}
              :: _detect_flash_loans_from_logs ls'
          | None => _detect_flash_loans_from_logs ls'
          end
      end
  end.

Definition transfer_topic : string :=
  "0xddf252ad1be2c89b69c2b068fc378daa952ba7f163c4a11628f55a4df523b3ef".

Fixpoint count_transfer_logs (ls : list TraceLog) : Z :=
  match ls with
  | [] => 0
  | log :: ls' =>
      match log_topics log with
      | [] => count_transfer_logs ls'
      | topic0 :: _ =>
          (if String.eqb topic0 transfer_topic then 1 else 0)
          + count_transfer_logs ls'
      end
  end.

Definition _detect_repayment_from_logs (ls : list TraceLog) : bool :=
  2 <=? count_transfer_logs ls.

Definition _detect_nested_flash_loans (calls : list FlashLoanCall) : bool :=
  if len calls <=? 1 then false
  else
    let depths : gset Z := list_to_set (map flc_depth calls) in
    (1 <? Z.of_nat (size depths)).

Fixpoint _has_transfer_call (call : TraceCall)
    (transfer_sig transfer_from_sig : string) : bool :=
  match call with
  | mkTraceCall _ _ _ _ _ _ input _ _ children =>
      let selector := selector_of input in
      if String.eqb selector transfer_sig
         || String.eqb selector transfer_from_sig
      then true
      else
        (fix any (cs : list TraceCall) : bool :=
           match cs with
           | [] => false
           | child :: cs' =>
               if _has_transfer_call child transfer_sig transfer_from_sig
               then true else any cs'
           end) children
  end.

Definition _detect_repayment (trace : TransactionTrace) : bool :=
  match call_trace trace with
  | None => false
  | Some root => _has_transfer_call root "0xa9059cbb" "0x23b872dd"
  end.

Definition add_log_flash_loan (a : Acc) (fl : LogFlashLoan) : Acc :=
  {| flash_loan_calls := flash_loan_calls a;
     callback_calls := callback_calls a;
     providers := {[ lfl_provider fl ]} ∪ providers a;
     amounts := if 0 <? lfl_amount fl then amounts a ++ [lfl_amount fl]
                else amounts a |}.

Definition extract (trace : TransactionTrace) : FlashLoanFeatures :=
  let a0 := {| flash_loan_calls := []; callback_calls := [];
               providers := ∅; amounts := [] |} in
  let a1 :=
    match call_trace trace with
    | Some root => _analyze_call_tree root 0 a0
    | None => a0
    end in
  let log_flash_loans := _detect_flash_loans_from_logs (logs trace) in
  let a2 := fold_left add_log_flash_loan log_flash_loans a1 in
  let input_selector := selector_of (input_data trace) in
  let has_flash_loan_input := mem input_selector flash_loan_sigs in
  let has_fl :=
    negb (bool_decide (flash_loan_calls a2 = [])) || has_flash_loan_input
    || negb (bool_decide (log_flash_loans = [])) in
  let count := Z.max (len (flash_loan_calls a2)) (len log_flash_loans) in
  let nested := _detect_nested_flash_loans (flash_loan_calls a2) in
  let repayment :=
    _detect_repayment trace || _detect_repayment_from_logs (logs trace) in
  {| has_flash_loan := has_fl;
     flash_loan_count := count;
     flash_loan_providers := set_iter (providers a2);
     flash_loan_amounts := amounts a2;
     total_borrowed := sumZ (amounts a2);
     has_callback :=
       negb (bool_decide (callback_calls a2 = [])) || has_fl;
     callback_selectors := callback_calls a2;
     nested_flash_loans := nested;
     repayment_detected := repayment |}.

Definition extract_from_input (input : string) (to : option string)
  : FlashLoanFeatures :=
  let selector := selector_of input in
  let has_fl := mem selector flash_loan_sigs in
  let provider :=
    match to with
    | Some addr =>
        if truthy addr then default "" (assoc (lower addr) provider_addresses)
        else ""
    | None => ""
    end in
  {| has_flash_loan := has_fl;
     flash_loan_count := if has_fl then 1 else 0;
     flash_loan_providers := if truthy provider then [provider] else [];
     flash_loan_amounts := [];
     total_borrowed := 0;
     has_callback := false;
     callback_selectors := [];
     nested_flash_loans := false;
     repayment_detected := false |}.

End WithRuntime.

End FlashLoan.

(** ** State-variance extractor ([features/extractors/state_variance.py]) *)

Module StateVariance.

Definition BALANCE_SLOTS : list string :=
  [ "0x0000000000000000000000000000000000000000000000000000000000000000";
    "0x0000000000000000000000000000000000000000000000000000000000000001";
    "0x0000000000000000000000000000000000000000000000000000000000000002";
    "0x0000000000000000000000000000000000000000000000000000000000000003";
    "0x0000000000000000000000000000000000000000000000000000000000000004";
    "0x0000000000000000000000000000000000000000000000000000000000000005" ].

Record StateVarianceFeatures := {
  total_storage_changes : Z;
  unique_contracts_modified : Z;
  unique_slots_modified : Z;
  balance_slot_changes : Z;
  large_value_changes : Z;
  max_value_delta : Z;
  avg_value_delta : Q;
  variance_ratio : Q;
  zero_to_nonzero : Z;
  nonzero_to_zero : Z
}.

Definition to_vector (f : StateVarianceFeatures) : list Q :=
  [ float (total_storage_changes f);
    float (unique_contracts_modified f);
    float (unique_slots_modified f);
    float (balance_slot_changes f);
    float (large_value_changes f);
    if 0 <? max_value_delta f then (float (max_value_delta f) / 1e18)%Q
    else 0%Q;
    if gtb (avg_value_delta f) 0 then (avg_value_delta f / 1e18)%Q else 0%Q;
    variance_ratio f;
    float (zero_to_nonzero f);
    float (nonzero_to_zero f) ].

Definition _empty_features : StateVarianceFeatures :=
  {| total_storage_changes := 0; unique_contracts_modified := 0;
     unique_slots_modified := 0; balance_slot_changes := 0;
     large_value_changes := 0; max_value_delta := 0;
     avg_value_delta := 0%Q; variance_ratio := 0%Q;
     zero_to_nonzero := 0; nonzero_to_zero := 0 |}.

(** The constructor default. *)
Definition large_change_threshold : Z := 10 ^ 18.

Definition count {A} (p : A -> bool) (l : list A) : Z :=
  len (List.filter p l).

Section WithRuntime.
Context `{RT : PyRuntime}.

Definition _hex_to_int (hex_str : string) : Z :=
  if negb (truthy hex_str) || String.eqb hex_str "0x" then 0
  else default 0 (int16 hex_str).

Definition _is_balance_slot (slot : string) : bool :=
  let normalized := lower slot in
  if mem normalized BALANCE_SLOTS then true
  else
    match int16 normalized with
    | Some slot_int => slot_int <? 10
    | None => false
    end.

Definition mean (values : list Z) : Q :=
  (float (sumZ values) / float (len values))%Q.

Definition sumQ (l : list Q) : Q := fold_left Qplus l 0%Q.

Definition _calculate_variance_ratio (values : list Z) : Q :=
  if len values <? 2 then 0%Q
  else
    let m := mean values in
    if Qeq_bool m 0 then 0%Q
    else
      let variance :=
        (sumQ (map (fun v => (float v - m) * (float v - m)) values)
         / float (len values))%Q in
      let std_dev := fsqrt variance in
      (std_dev / m)%Q.

Definition transfer_topic : string :=
  "0xddf252ad1be2c89b69c2b068fc378daa952ba7f163c4a11628f55a4df523b3ef".

Definition is_transfer_log (log : TraceLog) : bool :=
  match log_topics log with
  | [] => false
  | topic0 :: _ => String.eqb topic0 transfer_topic
  end.

(** The amount appended for one Transfer log, if any. *)
Definition log_amount (log : TraceLog) : option Z :=
  let data := log_data log in
  if 66 <=? strlen data then
    int16 (if startswith "0x" data then slice 2 66 data
           else slice 0 64 data)
  else None.

Definition _extract_from_trace_logs (ls : list TraceLog)
  : StateVarianceFeatures :=
  let contracts : gset string :=
    list_to_set (map (fun l => lower (log_address l)) ls) in
  let transfers := List.filter is_transfer_log ls in
  let transfer_count := len transfers in
  let amounts := omap log_amount transfers in
  let max_amount := match amounts with [] => 0 | _ => maxZ amounts end in
  let avg_amount := match amounts with [] => 0%Q | _ => mean amounts end in
  {| total_storage_changes := transfer_count;
     unique_contracts_modified := Z.of_nat (size contracts);
     unique_slots_modified := transfer_count;
     balance_slot_changes := transfer_count;
     large_value_changes :=
       count (fun a => large_change_threshold <=? a) amounts;
     max_value_delta := max_amount;
     avg_value_delta := avg_amount;
     variance_ratio := _calculate_variance_ratio amounts;
     zero_to_nonzero := 0;
     nonzero_to_zero := 0 |}.

Definition delta_of (c : StorageChange) : Z :=
  Z.abs (_hex_to_int (sc_new_value c) - _hex_to_int (sc_previous_value c)).

Definition extract (trace : TransactionTrace) : StateVarianceFeatures :=
  let changes := storage_changes trace in
  match changes with
  | [] =>
      match logs trace with
      | [] => _empty_features
      | _ => _extract_from_trace_logs (logs trace)
      end
  | _ =>
      let contracts : gset string :=
        list_to_set (map (fun c => lower (sc_address c)) changes) in
      let slots : gset string :=
        list_to_set
          (map (fun c => sc_address c +:+ ":" +:+ sc_slot c) changes) in
      let deltas := map delta_of changes in
      {| total_storage_changes := len changes;
         unique_contracts_modified := Z.of_nat (size contracts);
         unique_slots_modified := Z.of_nat (size slots);
         balance_slot_changes :=
           count (fun c => _is_balance_slot (sc_slot c)) changes;
         large_value_changes :=
           count (fun d => large_change_threshold <=? d) deltas;
         max_value_delta := maxZ deltas;
         avg_value_delta := mean deltas;
         variance_ratio := _calculate_variance_ratio deltas;
         zero_to_nonzero :=
           count (fun c => (_hex_to_int (sc_previous_value c) =? 0)
                           && negb (_hex_to_int (sc_new_value c) =? 0))
                 changes;
         nonzero_to_zero :=
           count (fun c => negb (_hex_to_int (sc_previous_value c) =? 0)
                           && (_hex_to_int (sc_new_value c) =? 0))
                 changes |}
  end.

End WithRuntime.

End StateVariance.

(** ** Bytecode features ([features/extractors/bytecode.py]) *)

Module Bytecode.

Record BytecodeFeatures := {
  bytecode_length : Z;
  bytecode_hash : string;
  is_contract : bool;
  is_proxy : bool;
  proxy_type : option string;
  contract_age_blocks : Z;
  is_verified : bool;
  matches_known_exploit : bool;
  matched_exploit_id : option string;
  jaccard_similarity : Q;
  has_selfdestruct : bool;
  has_delegatecall : bool;
  has_create2 : bool;
  unique_opcodes : Z
}.

Definition to_vector (f : BytecodeFeatures) : list Q :=
  [ float (bytecode_length f);
    b2f (is_contract f);
    b2f (is_proxy f);
    float (contract_age_blocks f);
    b2f (is_verified f);
    b2f (matches_known_exploit f);
    jaccard_similarity f;
    b2f (has_selfdestruct f);
    b2f (has_delegatecall f);
    b2f (has_create2 f);
    float (unique_opcodes f) ].

Definition _empty_features : BytecodeFeatures :=
  {| bytecode_length := 0; bytecode_hash := ""; is_contract := false;
     is_proxy := false; proxy_type := None; contract_age_blocks := 0;
     is_verified := false; matches_known_exploit := false;
     matched_exploit_id := None; jaccard_similarity := 0%Q;
     has_selfdestruct := false; has_delegatecall := false;
     has_create2 := false; unique_opcodes := 0 |}.

Definition _eoa_features : BytecodeFeatures := _empty_features.

(** A [BytecodeExtractor] object.  The analysis of a non-empty payload
    (SHA-256 prefix, proxy patterns, Jaccard similarity against the
    registry of known exploits, opcode decoding) is the object's method
    [analyse_payload]; it may raise on malformed hex. *)
Record BytecodeExtractor := {
  analyse_payload : string -> result BytecodeFeatures
}.

Definition extract_from_bytecode (X : BytecodeExtractor) (bytecode : string)
  : result BytecodeFeatures :=
  if negb (truthy bytecode) || String.eqb bytecode "0x"
  then Ok _eoa_features
  else analyse_payload X bytecode.

(** [bytecode[2:] if bytecode.startswith("0x") else bytecode] *)
Definition strip_prefix (bytecode : string) : string :=
  if startswith "0x" bytecode
  then substring 2 (String.length bytecode) bytecode else bytecode.

(** [range(0, stop, 2)] *)
Definition range_by_two (stop : Z) : list nat :=
  map (fun k => (2 * k)%nat) (seq 0 (Z.to_nat ((stop + 1) / 2))).

Definition _get_bytecode_chunks (bytecode : string) : gset string :=
  let chunk_size := 8%nat in
  let clean := strip_prefix bytecode in
  list_to_set
    (map (fun i => substring i chunk_size clean)
       (range_by_two (strlen clean - 8 + 1))).

Definition calculate_jaccard_similarity (bytecode1 bytecode2 : string) : Q :=
  if negb (truthy bytecode1) || negb (truthy bytecode2) then 0%Q
  else
    let chunks1 := _get_bytecode_chunks bytecode1 in
    let chunks2 := _get_bytecode_chunks bytecode2 in
    if bool_decide (chunks1 = ∅) || bool_decide (chunks2 = ∅) then 0%Q
    else
      let intersection := Z.of_nat (size (chunks1 ∩ chunks2)) in
      let union := Z.of_nat (size (chunks1 ∪ chunks2)) in
      if 0 <? union then (float intersection / float union)%Q else 0%Q.

(** [_calculate_max_jaccard] over the registry [exploit_bytecodes], an
    insertion-ordered dictionary from exploit ids to bytecode. *)
Definition _calculate_max_jaccard (exploit_bytecodes : list (string * string))
    (bytecode : string) : Q :=
  fold_left
    (fun max_sim kv =>
       fmax max_sim (calculate_jaccard_similarity bytecode kv.2))
    exploit_bytecodes 0%Q.

End Bytecode.

(** ** Opcode and call-graph extractor ([features/extractors/opcode.py]) *)

Module Opcode.

Definition CALL_TYPE_OPCODES : list string :=
  [ "CALL"; "STATICCALL"; "DELEGATECALL"; "CALLCODE"; "CREATE"; "CREATE2" ].

Record OpcodeFeatures := {
  total_calls : Z;
  call_depth : Z;
  delegatecall_count : Z;
  staticcall_count : Z;
  create_count : Z;
  create2_count : Z;
  selfdestruct_count : Z;
  call_count : Z;
  internal_calls : Z;
  external_calls : Z;
  unique_call_types : Z;
  call_value_transfers : Z;
  gas_forwarded_ratio : Q;
  revert_count : Z;
  opcode_frequency : gmap string Z
}.

Definition to_vector (f : OpcodeFeatures) : list Q :=
  [ float (total_calls f);
    float (call_depth f);
    float (delegatecall_count f);
    float (staticcall_count f);
    float (create_count f);
    float (create2_count f);
    float (selfdestruct_count f);
    float (call_count f);
    float (internal_calls f);
    float (external_calls f);
    float (unique_call_types f);
    float (call_value_transfers f);
    gas_forwarded_ratio f;
    float (revert_count f) ].

Definition _empty_features : OpcodeFeatures :=
  {| total_calls := 0; call_depth := 0; delegatecall_count := 0;
     staticcall_count := 0; create_count := 0; create2_count := 0;
     selfdestruct_count := 0; call_count := 0; internal_calls := 0;
     external_calls := 0; unique_call_types := 0;
     call_value_transfers := 0; gas_forwarded_ratio := 0%Q;
     revert_count := 0; opcode_frequency := ∅ |}.

(** [d.get(k, 0)] *)
Definition get0 (d : gmap string Z) (k : string) : Z := default 0 (d !! k).

(** [d[k] = d.get(k, 0) + n] for every [(k, n)] of [e]. *)
Definition add_counts (d e : gmap string Z) : gmap string Z :=
  union_with (fun a b => Some (a + b)) d e.

Definition sum_values (d : gmap string Z) : Z :=
  map_fold (fun _ v acc => v + acc) 0 d.

(** The dictionary built by [_analyze_call_tree]. *)
Record Stats := {
  st_total_calls : Z;
  st_max_depth : Z;
  st_call_types : gmap string Z;
  st_internal_calls : Z;
  st_external_calls : Z;
  st_value_transfers : Z;
  st_total_gas : Z;
  st_used_gas : Z;
  st_reverts : Z;
  st_gas_ratio : Q
}.

Definition node_stats (call : TraceCall) (depth : Z) : Stats :=
  let ct := upper (call_type call) in
  let external := mem ct ["CALL"; "STATICCALL"; "DELEGATECALL"; "CALLCODE"] in
  {| st_total_calls := 1;
     st_max_depth := depth;
     st_call_types := {[ ct := 1 ]};
     st_internal_calls := if external then 0 else 1;
     st_external_calls := if external then 1 else 0;
     st_value_transfers := if 0 <? call_value call then 1 else 0;
     st_total_gas := call_gas call;
     st_used_gas := call_gas_used call;
     st_reverts := 0;
     st_gas_ratio := 0%Q |}.

Definition merge_child (s c : Stats) : Stats :=
  {| st_total_calls := st_total_calls s + st_total_calls c;
     st_max_depth := Z.max (st_max_depth s) (st_max_depth c);
     st_call_types := add_counts (st_call_types s) (st_call_types c);
     st_internal_calls := st_internal_calls s + st_internal_calls c;
     st_external_calls := st_external_calls s + st_external_calls c;
     st_value_transfers := st_value_transfers s + st_value_transfers c;
     st_total_gas := st_total_gas s + st_total_gas c;
     st_used_gas := st_used_gas s + st_used_gas c;
     st_reverts := st_reverts s + st_reverts c;
     st_gas_ratio := st_gas_ratio s |}.

Definition set_gas_ratio (s : Stats) : Stats :=
  {| st_total_calls := st_total_calls s;
     st_max_depth := st_max_depth s;
     st_call_types := st_call_types s;
     st_internal_calls := st_internal_calls s;
     st_external_calls := st_external_calls s;
     st_value_transfers := st_value_transfers s;
     st_total_gas := st_total_gas s;
     st_used_gas := st_used_gas s;
     st_reverts := st_reverts s;
     st_gas_ratio :=
       if 0 <? st_total_gas s
       then (float (st_used_gas s) / float (st_total_gas s))%Q
       else 0%Q |}.

Fixpoint _analyze_call_tree (call : TraceCall) (depth : Z) : Stats :=
  match call with
  | mkTraceCall _ _ _ _ _ _ _ _ _ children =>
      set_gas_ratio
        ((fix each (cs : list TraceCall) (s : Stats) : Stats :=
            match cs with
            | [] => s
            | child :: cs' =>
                each cs' (merge_child s (_analyze_call_tree child (depth + 1)))
            end) children (node_stats call depth))
  end.

Definition _from_opcode_counts (opcodes : gmap string Z) : OpcodeFeatures :=
  {| total_calls := sum_values opcodes;
     call_depth := 0;
     delegatecall_count := get0 opcodes "DELEGATECALL";
     staticcall_count := get0 opcodes "STATICCALL";
     create_count := get0 opcodes "CREATE";
     create2_count := get0 opcodes "CREATE2";
     selfdestruct_count := get0 opcodes "SELFDESTRUCT";
     call_count := get0 opcodes "CALL";
     internal_calls := 0;
     external_calls := sumZ (map (get0 opcodes) CALL_TYPE_OPCODES);
     unique_call_types :=
       Z.of_nat (size (filter (fun kv => kv.1 ∈ CALL_TYPE_OPCODES) opcodes));
     call_value_transfers := 0;
     gas_forwarded_ratio := 0%Q;
     revert_count := get0 opcodes "REVERT";
     opcode_frequency := opcodes |}.

Definition transfer_topic : string :=
  "0xddf252ad1be2c89b69c2b068fc378daa952ba7f163c4a11628f55a4df523b3ef".

Definition is_transfer_log (log : TraceLog) : bool :=
  match log_topics log with
  | [] => false
  | topic0 :: _ => String.eqb topic0 transfer_topic
  end.

Definition _estimate_from_logs (ls : list TraceLog) (gas_used : Z)
  : OpcodeFeatures :=
  let unique_addresses : gset string :=
    list_to_set (map (fun l => lower (log_address l)) ls) in
  let transfer_count := len (List.filter is_transfer_log ls) in
  let estimated_calls := Z.of_nat (size unique_addresses) in
  let estimated_depth :=
    if 3 <? estimated_calls then Z.min (estimated_calls / 3) 10 else 1 in
  let gas_ratio := if 500000 <? gas_used then 0.8%Q else 0.5%Q in
  {| total_calls := estimated_calls;
     call_depth := estimated_depth;
     delegatecall_count := 0;
     staticcall_count := 0;
     create_count := 0;
     create2_count := 0;
     selfdestruct_count := 0;
     call_count := estimated_calls;
     internal_calls := 0;
     external_calls := estimated_calls;
     unique_call_types := if 0 <? estimated_calls then 1 else 0;
     call_value_transfers := transfer_count;
     gas_forwarded_ratio := gas_ratio;
     revert_count := 0;
     opcode_frequency := ∅ |}.

Definition extract (trace : TransactionTrace) : OpcodeFeatures :=
  match call_trace trace with
  | None =>
      if bool_decide (opcodes trace ≠ ∅)
      then _from_opcode_counts (opcodes trace)
      else
        match logs trace with
        | [] => _empty_features
        | _ => _estimate_from_logs (logs trace) (gas_used trace)
        end
  | Some root =>
      let stats := _analyze_call_tree root 0 in
      let call_types := st_call_types stats in
      {| total_calls := st_total_calls stats;
         call_depth := st_max_depth stats;
         delegatecall_count := get0 call_types "DELEGATECALL";
         staticcall_count := get0 call_types "STATICCALL";
         create_count := get0 call_types "CREATE";
         create2_count := get0 call_types "CREATE2";
         selfdestruct_count := get0 call_types "SELFDESTRUCT";
         call_count := get0 call_types "CALL";
         internal_calls := st_internal_calls stats;
         external_calls := st_external_calls stats;
         unique_call_types := Z.of_nat (size call_types);
         call_value_transfers := st_value_transfers stats;
         gas_forwarded_ratio := st_gas_ratio stats;
         revert_count := st_reverts stats;
         opcode_frequency := add_counts (opcodes trace) call_types |}
  end.

Definition _classify_pattern (stats : Stats) : string :=
  let call_types := st_call_types stats in
  if 0 <? get0 call_types "SELFDESTRUCT" then "destructive"
  else if (0 <? get0 call_types "CREATE2")
          && (0 <? get0 call_types "DELEGATECALL") then "metamorphic"
  else if 2 <? get0 call_types "DELEGATECALL" then "proxy_chain"
  else if 50 <? st_total_calls stats then "complex_multicall"
  else if 10 <? st_max_depth stats then "deep_recursion"
  else if 5 <? st_value_transfers stats then "multi_transfer"
  else if 10 <? get0 call_types "CALL" then "batch_calls"
  else "standard".

(** The dictionary returned by [analyze_call_pattern]; without a call
    tree it has no ["stats"] entry. *)
Record CallPattern := {
  pattern : string;
  risk_score : Q;
  pattern_stats : option Stats
}.

Definition analyze_call_pattern (trace : TransactionTrace) : CallPattern :=
  match call_trace trace with
  | None => {| pattern := "simple"; risk_score := 0%Q; pattern_stats := None |}
  | Some root =>
      let stats := _analyze_call_tree root 0 in
      let call_types := st_call_types stats in
      let risk_score := 0%Q in
      let risk_score :=
        if 0 <? get0 call_types "DELEGATECALL" then (risk_score + 0.3)%Q
        else risk_score in
      let risk_score :=
        if 0 <? get0 call_types "CREATE2" then (risk_score + 0.2)%Q
        else risk_score in
      let risk_score :=
        if 0 <? get0 call_types "SELFDESTRUCT" then (risk_score + 0.4)%Q
        else risk_score in
      let risk_score :=
        if 5 <? st_max_depth stats
        then (risk_score + 0.1 * float (st_max_depth stats - 5))%Q
        else risk_score in
      let risk_score :=
        if 20 <? st_total_calls stats then (risk_score + 0.1)%Q
        else risk_score in
      {| pattern := _classify_pattern stats;
         risk_score := fmin risk_score 1%Q;
         pattern_stats := Some stats |}
  end.

End Opcode.

(** ** Feature aggregator ([features/aggregator.py]) *)

Module Aggregator.

(** The metadata dictionary; [None] is an absent key. *)
Record Metadata := {
  md_tx_hash : option string;
  md_block_number : option Z;
  md_from : option string;
  md_to : option (option string);
  md_value : option Z;
  md_gas_used : option Z;
  md_status : option bool;
  md_contracts_called : option Z;
  md_created_contracts : option Z;
  md_gas : option Z;
  md_is_contract_interaction : option bool;
  md_is_contract_creation : option bool;
  md_selector : option (option string)
}.

Record AggregatedFeatures := {
  flash_loan : FlashLoan.FlashLoanFeatures;
  state_variance : StateVariance.StateVarianceFeatures;
  bytecode : Bytecode.BytecodeFeatures;
  opcode : Opcode.OpcodeFeatures;
  metadata : Metadata
}.

(** The concatenation handed to [np.array]; the conversion to 32-bit
    floats changes neither the length nor the order. *)
Definition to_vector (f : AggregatedFeatures) : list Q :=
  FlashLoan.to_vector (flash_loan f)
  ++ StateVariance.to_vector (state_variance f)
  ++ Bytecode.to_vector (bytecode f)
  ++ Opcode.to_vector (opcode f).

Definition feature_names : list string :=
  [ "fl_has_flash_loan"; "fl_count"; "fl_provider_count";
    "fl_total_borrowed"; "fl_has_callback"; "fl_callback_count";
    "fl_nested"; "fl_repayment";
    "sv_storage_changes"; "sv_contracts_modified"; "sv_slots_modified";
    "sv_balance_changes"; "sv_large_changes"; "sv_max_delta";
    "sv_avg_delta"; "sv_variance_ratio"; "sv_zero_to_nonzero";
    "sv_nonzero_to_zero";
    "bc_length"; "bc_is_contract"; "bc_is_proxy"; "bc_age_blocks";
    "bc_is_verified"; "bc_matches_exploit"; "bc_jaccard";
    "bc_has_selfdestruct"; "bc_has_delegatecall"; "bc_has_create2";
    "bc_unique_opcodes";
    "op_total_calls"; "op_call_depth"; "op_delegatecall"; "op_staticcall";
    "op_create"; "op_create2"; "op_selfdestruct"; "op_call";
    "op_internal_calls"; "op_external_calls"; "op_unique_types";
    "op_value_transfers"; "op_gas_ratio"; "op_revert_count" ].

(** The layout of the artifact contract: position by position, the
    feature name the scoring artifact expects and the quantity stored
    there (amounts in native units of [10 ** 18]). *)
Definition native_units (amount : Z) : Q :=
  if 0 <? amount then (float amount / 1e18)%Q else 0%Q.

Definition contract_layout (f : AggregatedFeatures) : list (string * Q) :=
  let fl := flash_loan f in
  let sv := state_variance f in
  let bc := bytecode f in
  let op := opcode f in
  [ ("fl_has_flash_loan", b2f (FlashLoan.has_flash_loan fl));
    ("fl_count", float (FlashLoan.flash_loan_count fl));
    ("fl_provider_count", float (len (FlashLoan.flash_loan_providers fl)));
    ("fl_total_borrowed", native_units (FlashLoan.total_borrowed fl));
    ("fl_has_callback", b2f (FlashLoan.has_callback fl));
    ("fl_callback_count", float (len (FlashLoan.callback_selectors fl)));
    ("fl_nested", b2f (FlashLoan.nested_flash_loans fl));
    ("fl_repayment", b2f (FlashLoan.repayment_detected fl));
    ("sv_storage_changes", float (StateVariance.total_storage_changes sv));
    ("sv_contracts_modified",
     float (StateVariance.unique_contracts_modified sv));
    ("sv_slots_modified", float (StateVariance.unique_slots_modified sv));
    ("sv_balance_changes", float (StateVariance.balance_slot_changes sv));
    ("sv_large_changes", float (StateVariance.large_value_changes sv));
    ("sv_max_delta", native_units (StateVariance.max_value_delta sv));
    ("sv_avg_delta",
     if gtb (StateVariance.avg_value_delta sv) 0
     then (StateVariance.avg_value_delta sv / 1e18)%Q else 0%Q);
    ("sv_variance_ratio", StateVariance.variance_ratio sv);
    ("sv_zero_to_nonzero", float (StateVariance.zero_to_nonzero sv));
    ("sv_nonzero_to_zero", float (StateVariance.nonzero_to_zero sv));
    ("bc_length", float (Bytecode.bytecode_length bc));
    ("bc_is_contract", b2f (Bytecode.is_contract bc));
    ("bc_is_proxy", b2f (Bytecode.is_proxy bc));
    ("bc_age_blocks", float (Bytecode.contract_age_blocks bc));
    ("bc_is_verified", b2f (Bytecode.is_verified bc));
    ("bc_matches_exploit", b2f (Bytecode.matches_known_exploit bc));
    ("bc_jaccard", Bytecode.jaccard_similarity bc);
    ("bc_has_selfdestruct", b2f (Bytecode.has_selfdestruct bc));
    ("bc_has_delegatecall", b2f (Bytecode.has_delegatecall bc));
    ("bc_has_create2", b2f (Bytecode.has_create2 bc));
    ("bc_unique_opcodes", float (Bytecode.unique_opcodes bc));
    ("op_total_calls", float (Opcode.total_calls op));
    ("op_call_depth", float (Opcode.call_depth op));
    ("op_delegatecall", float (Opcode.delegatecall_count op));
    ("op_staticcall", float (Opcode.staticcall_count op));
    ("op_create", float (Opcode.create_count op));
    ("op_create2", float (Opcode.create2_count op));
    ("op_selfdestruct", float (Opcode.selfdestruct_count op));
    ("op_call", float (Opcode.call_count op));
    ("op_internal_calls", float (Opcode.internal_calls op));
    ("op_external_calls", float (Opcode.external_calls op));
    ("op_unique_types", float (Opcode.unique_call_types op));
    ("op_value_transfers", float (Opcode.call_value_transfers op));
    ("op_gas_ratio", Opcode.gas_forwarded_ratio op);
    ("op_revert_count", float (Opcode.revert_count op)) ].

(** A [FeatureAggregator]: the flash-loan, state-variance and opcode
    extractors are the default ones, the bytecode extractor is held as
    an object. *)
Record FeatureAggregator := {
  bytecode_extractor : Bytecode.BytecodeExtractor
}.

Section WithRuntime.
Context `{RT : PyRuntime}.

(** [extract_from_trace(trace)] as the engines call it, without a chain
    handle ([w3] is [None]). *)
Definition extract_from_trace (A : FeatureAggregator)
    (trace : TransactionTrace) : result AggregatedFeatures :=
  let flash_loan_features := FlashLoan.extract trace in
  let state_features := StateVariance.extract trace in
  let opcode_features := Opcode.extract trace in
  bytecode_features ←
    match to_address trace with
    | None =>
        Bytecode.extract_from_bytecode (bytecode_extractor A)
          (input_data trace)
    | Some _ => Ok Bytecode._empty_features
    end;
  Ok {| flash_loan := flash_loan_features;
        state_variance := state_features;
        bytecode := bytecode_features;
        opcode := opcode_features;
        metadata :=
          {| md_tx_hash := Some (tx_hash trace);
             md_block_number := Some (block_number trace);
             md_from := Some (from_address trace);
             md_to := Some (to_address trace);
             md_value := Some (value trace);
             md_gas_used := Some (gas_used trace);
             md_status := Some (status trace);
             md_contracts_called := Some (len (contracts_called trace));
             md_created_contracts := Some (len (created_contracts trace));
             md_gas := None;
             md_is_contract_interaction := None;
             md_is_contract_creation := None;
             md_selector := None |} |}.

Definition extract_from_pending (A : FeatureAggregator)
    (tx : Mempool.PendingTransaction) : result AggregatedFeatures :=
  let flash_loan_features :=
    FlashLoan.extract_from_input (Mempool.input_data tx)
      (Mempool.to_address tx) in
  let state_features := StateVariance._empty_features in
  bytecode_features ←
    (if Mempool.is_contract_creation tx
     then Bytecode.extract_from_bytecode (bytecode_extractor A)
            (Mempool.input_data tx)
     else Ok Bytecode._empty_features);
  let opcode_features :=
    {| Opcode.total_calls := 0;
       Opcode.call_depth := 0;
       Opcode.delegatecall_count := 0;
       Opcode.staticcall_count := 0;
       Opcode.create_count :=
         if Mempool.is_contract_creation tx then 1 else 0;
       Opcode.create2_count := 0;
       Opcode.selfdestruct_count := 0;
       Opcode.call_count :=
         if Mempool.is_contract_interaction tx then 1 else 0;
       Opcode.internal_calls := 0;
       Opcode.external_calls :=
         if Mempool.is_contract_interaction tx then 1 else 0;
       Opcode.unique_call_types := 1;
       Opcode.call_value_transfers :=
         if 0 <? Mempool.value tx then 1 else 0;
       Opcode.gas_forwarded_ratio := 0%Q;
       Opcode.revert_count := 0;
       Opcode.opcode_frequency := ∅ |} in
  Ok {| flash_loan := flash_loan_features;
        state_variance := state_features;
        bytecode := bytecode_features;
        opcode := opcode_features;
        metadata :=
          {| md_tx_hash := Some (Mempool.hash tx);
             md_block_number := None;
             md_from := Some (Mempool.from_address tx);
             md_to := Some (Mempool.to_address tx);
             md_value := Some (Mempool.value tx);
             md_gas_used := None;
             md_status := None;
             md_contracts_called := None;
             md_created_contracts := None;
             md_gas := Some (Mempool.gas tx);
             md_is_contract_interaction :=
               Some (Mempool.is_contract_interaction tx);
             md_is_contract_creation :=
               Some (Mempool.is_contract_creation tx);
             md_selector := Some (Mempool.selector tx) |} |}.

End WithRuntime.

End Aggregator.

(** ** Heuristic filter ([models/heuristics.py]) *)

Module Heuristics.

Inductive FilterResult := SAFE | SUSPICIOUS | UNKNOWN.

Definition FilterResult_value (r : FilterResult) : string :=
  match r with
  | SAFE => "safe"
  | SUSPICIOUS => "suspicious"
  | UNKNOWN => "unknown"
  end.

Definition FilterResult_eqb (a b : FilterResult) : bool :=
  match a, b with
  | SAFE, SAFE | SUSPICIOUS, SUSPICIOUS | UNKNOWN, UNKNOWN => true
  | _, _ => false
  end.

Definition SAFE_SELECTORS : list string :=
  [ "0xa9059cbb"; "0x23b872dd"; "0x095ea7b3"; "0x70a08231"; "0x18160ddd";
    "0xdd62ed3e"; "0x313ce567"; "0x06fdde03"; "0x95d89b41"; "0x40c10f19";
    "0x42842e0e"; "0xb88d4fde"; "0x6352211e"; "0xe985e9c5"; "0xa22cb465" ].

Definition SUSPICIOUS_SELECTORS : list string :=
  [ "0x5cffe9de"; "0xab9c4b5d"; "0xc1a8a1f5"; "0x490e6cbc"; "0x9c3f1e90";
    "0x022c0d9f"; "0x128acb08"; "0x7c025200"; "0x12aa3caf"; "0xe449022e";
    "0x0502b1c5"; "0xb6f9de95"; "0x791ac947" ].

Definition WHITELISTED_CONTRACTS : list string :=
  [ "0xc02aaa39b223fe8d0a0e5c4f27ead9083c756cc2";
    "0xa0b86991c6218b36c1d19d4a2e9eb0ce3606eb48";
    "0xdac17f958d2ee523a2206206994597c13d831ec7";
    "0x6b175474e89094c44da98b954eedeac495271d0f";
    "0x7d2768de32b0b80b7a3454c06bdac94a69ddc7a9";
    "0x87870bca3f3fd6335c3f4ce8392d69350b4fa4e2";
    "0x7a250d5630b4cf539739df2c5dacb4c659f2488d";
    "0xe592427a0aece92de3edee1f18e0157c05861564";
    "0x68b3465833fb72a70ecdf485e0e4c7bd8665fc45";
    "0xba12222222228d8ba445958a75a0704d566bf2c8";
    "0xdef1c0ded9bec7f1a1670819833240f027b25eff";
    "0x1111111254eeb25477b68fb85ed929f73a960582" ].

Record HeuristicResult := {
  result : FilterResult;
  confidence : Q;
  reasons : list string;
  should_analyze : bool;
  risk_indicators : list string
}.

Record HeuristicFilter := {
  safe_selectors : gset string;
  suspicious_selectors : gset string;
  whitelisted_contracts : gset string;
  max_safe_gas : Z;
  min_suspicious_value : Z
}.

(** [HeuristicFilter()] *)
Definition default_filter : HeuristicFilter :=
  {| safe_selectors := list_to_set SAFE_SELECTORS;
     suspicious_selectors := list_to_set SUSPICIOUS_SELECTORS;
     whitelisted_contracts := list_to_set (map lower WHITELISTED_CONTRACTS);
     max_safe_gas := 100000;
     min_suspicious_value := 10 ^ 18 |}.

(** [if c: l.append(s)] *)
Definition flag (c : bool) (s : string) : list string :=
  if c then [s] else [].

Definition filter (H : HeuristicFilter) (tx : Mempool.PendingTransaction)
  : HeuristicResult :=
  if Mempool.is_simple_transfer tx then
    {| result := SAFE; confidence := 0.99%Q;
       reasons := ["simple_eth_transfer"]; should_analyze := false;
       risk_indicators := [] |}
  else
    let selector := Mempool.selector tx in
    let sel_safe :=
      match selector with
      | Some s => truthy s && bool_decide (s ∈ safe_selectors H)
      | None => false
      end in
    let sel_suspicious :=
      match selector with
      | Some s => truthy s && negb (bool_decide (s ∈ safe_selectors H))
                  && bool_decide (s ∈ suspicious_selectors H)
      | None => false
      end in
    let whitelisted :=
      match Mempool.to_address tx with
      | Some a => truthy a && bool_decide (lower a ∈ whitelisted_contracts H)
      | None => false
      end in
    let reasons :=
      flag ((Mempool.gas tx <? max_safe_gas H) && (Mempool.value tx =? 0))
        "low_gas_no_value"
      ++ flag whitelisted "whitelisted_contract"
      ++ flag sel_safe "safe_selector" in
    let risk_indicators :=
      flag sel_suspicious "suspicious_selector"
      ++ flag (Mempool.is_contract_creation tx) "contract_creation"
      ++ flag (min_suspicious_value H <=? Mempool.value tx)
           "large_value_transfer"
      ++ flag (1000000 <? Mempool.gas tx) "high_gas_limit" in
    if (2 <=? len reasons) && bool_decide (risk_indicators = []) then
      {| result := SAFE; confidence := 0.9%Q; reasons := reasons;
         should_analyze := false; risk_indicators := [] |}
    else if 2 <=? len risk_indicators then
      {| result := SUSPICIOUS; confidence := 0.7%Q; reasons := reasons;
         should_analyze := true; risk_indicators := risk_indicators |}
    else
      {| result := UNKNOWN; confidence := 0.5%Q; reasons := reasons;
         should_analyze := true; risk_indicators := risk_indicators |}.

(** The indicators appended before the known-exploit test. *)
Definition indicators_before_exploit (features : Aggregator.AggregatedFeatures)
  : list string :=
  let fl := Aggregator.flash_loan features in
  let sv := Aggregator.state_variance features in
  let has_flash_loan := FlashLoan.has_flash_loan fl in
  let has_large_changes := 3 <? StateVariance.large_value_changes sv in
  let has_many_transfers := 10 <? StateVariance.total_storage_changes sv in
  let has_high_value := 10 ^ 22 <? StateVariance.max_value_delta sv in
  (if has_flash_loan then
     ["flash_loan_detected"]
     ++ flag (FlashLoan.nested_flash_loans fl) "nested_flash_loans"
     ++ flag (10 ^ 24 <? FlashLoan.total_borrowed fl) "large_flash_loan"
     ++ flag (has_large_changes || has_many_transfers || has_high_value)
          "flash_loan_with_complex_activity"
   else [])
  ++ flag (gtb (StateVariance.variance_ratio sv) 0.5) "high_state_variance"
  ++ flag has_large_changes "multiple_large_changes"
  ++ flag has_high_value "extreme_value_movement".

(** The indicators appended after it. *)
Definition indicators_after_exploit (features : Aggregator.AggregatedFeatures)
  : list string :=
  let bc := Aggregator.bytecode features in
  let op := Aggregator.opcode features in
  flag (gtb (Bytecode.jaccard_similarity bc) 0.7) "high_bytecode_similarity"
  ++ flag (Bytecode.contract_age_blocks bc <? 100) "new_contract"
  ++ flag (Bytecode.has_selfdestruct bc) "selfdestruct_opcode"
  ++ flag (0 <? Opcode.delegatecall_count op) "uses_delegatecall"
  ++ flag (0 <? Opcode.create2_count op) "uses_create2"
  ++ flag (10 <? Opcode.call_depth op) "deep_call_stack"
  ++ flag (50 <? Opcode.total_calls op) "high_call_count".

Definition filter_with_features (features : Aggregator.AggregatedFeatures)
  : HeuristicResult :=
  let reasons : list string := [] in
  let before := indicators_before_exploit features in
  if Bytecode.matches_known_exploit (Aggregator.bytecode features) then
    {| result := SUSPICIOUS; confidence := 0.95%Q; reasons := reasons;
       should_analyze := true;
       risk_indicators := before ++ ["matches_known_exploit"] |}
  else
    let risk_indicators := before ++ indicators_after_exploit features in
    if len risk_indicators =? 0 then
      {| result := SAFE; confidence := 0.8%Q;
         reasons := ["no_risk_indicators"]; should_analyze := false;
         risk_indicators := [] |}
    else if 3 <=? len risk_indicators then
      {| result := SUSPICIOUS;
         confidence :=
           fmin (0.5 + float (len risk_indicators) * 0.1)%Q 0.95%Q;
         reasons := reasons; should_analyze := true;
         risk_indicators := risk_indicators |}
    else
      {| result := UNKNOWN; confidence := 0.5%Q; reasons := reasons;
         should_analyze := true; risk_indicators := risk_indicators |}.

Definition quick_filter (H : HeuristicFilter) (tx : Mempool.PendingTransaction)
  : bool :=
  if Mempool.is_simple_transfer tx then false
  else if Mempool.gas tx <? max_safe_gas H then false
  else
    let whitelisted :=
      match Mempool.to_address tx with
      | Some a => truthy a && bool_decide (lower a ∈ whitelisted_contracts H)
      | None => false
      end in
    let safe_selector :=
      match Mempool.selector tx with
      | Some s => truthy s && bool_decide (s ∈ safe_selectors H)
      | None => false
      end in
    if whitelisted && safe_selector then false else true.

(** The tags of [filter_with_features] and of [filter], in the order in
    which their checks run. *)
Definition feature_check_order : list string :=
  [ "flash_loan_detected"; "nested_flash_loans"; "large_flash_loan";
    "flash_loan_with_complex_activity"; "high_state_variance";
    "multiple_large_changes"; "extreme_value_movement";
    "matches_known_exploit"; "high_bytecode_similarity"; "new_contract";
    "selfdestruct_opcode"; "uses_delegatecall"; "uses_create2";
    "deep_call_stack"; "high_call_count" ].

Definition pending_check_order : list string :=
  [ "suspicious_selector"; "contract_creation"; "large_value_transfer";
    "high_gas_limit" ].

End Heuristics.

(** ** Anomaly detector ([models/isolation_forest.py]) *)

Module IsolationForest.

Record DetectionResult := {
  anomaly_score : Q;
  is_anomaly : bool;
  confidence : Q;
  feature_contributions : list (string * Q);
  threshold_used : Q
}.

(** The fitted scikit-learn objects: the scorer's native decision
    function and the per-feature standardisation. *)
Record IsolationForest := {
  decision_function : list Q -> Q
}.

Record StandardScaler := {
  transform : list Q -> list Q;
  mean_ : list Q;
  scale_ : list Q
}.

Record IsolationForestDetector := {
  contamination : Q;
  n_estimators : Z;
  threshold : Q;
  model : option IsolationForest;
  scaler : option StandardScaler;
  feature_names : list string;
  is_trained : bool
}.

(** [IsolationForestDetector()] *)
Definition new_detector : IsolationForestDetector :=
  {| contamination := 0.1%Q; n_estimators := 100; threshold := 0.65%Q;
     model := None; scaler := None; feature_names := [];
     is_trained := false |}.

Definition _normalize_score (raw_score : Q) : Q :=
  let normalized := (0.5 - raw_score / 2)%Q in
  fmax 0%Q (fmin 1%Q normalized).

Definition _calculate_confidence (D : IsolationForestDetector)
    (anomaly_score : Q) : Q :=
  let distance_from_threshold := fabs (anomaly_score - threshold D)%Q in
  fmin (0.5 + distance_from_threshold)%Q 1%Q.

(** [d[k] = v] on an insertion-ordered dictionary. *)
Fixpoint dict_set (d : list (string * Q)) (k : string) (v : Q)
  : list (string * Q) :=
  match d with
  | [] => [(k, v)]
  | (k', v') :: d' =>
      if String.eqb k k' then (k, v) :: d' else (k', v') :: dict_set d' k v
  end.

(** Stable sort by decreasing value: [sorted(..., reverse=True)]. *)
Fixpoint insert_desc (x : string * Q) (l : list (string * Q))
  : list (string * Q) :=
  match l with
  | [] => [x]
  | y :: l' => if ltb y.2 x.2 then x :: l else y :: insert_desc x l'
  end.

Definition sorted_desc (l : list (string * Q)) : list (string * Q) :=
  fold_left (fun acc x => insert_desc x acc) l [].

Fixpoint zip4_names (names : list string) (x m s : list Q)
  : list (string * Q) :=
  match names, x, m, s with
  | n :: names', v :: x', _ :: m', _ :: s' =>
      (n, v) :: zip4_names names' x' m' s'
  | _, _, _, _ => []
  end.

Definition _calculate_feature_contributions (D : IsolationForestDetector)
    (x : list Q) : list (string * Q) :=
  match model D, scaler D with
  | Some _, Some sc =>
      let contributions :=
        fold_left (fun d nv => dict_set d nv.1 (fabs nv.2))
          (zip4_names (feature_names D) x (mean_ sc) (scale_ sc)) [] in
      let total := fold_left Qplus (contributions.*2) 0%Q in
      let contributions :=
        if gtb total 0
        then map (fun kv => (kv.1, (kv.2 / total)%Q)) contributions
        else contributions in
      take 10 (sorted_desc contributions)
  | _, _ => []
  end.

Definition predict (D : IsolationForestDetector)
    (features : Aggregator.AggregatedFeatures) : result DetectionResult :=
  match is_trained D, model D, scaler D with
  | true, Some m, Some sc =>
      let X := Aggregator.to_vector features in
      let X_scaled := transform sc X in
      let raw_score := decision_function m X_scaled in
      let anomaly_score := _normalize_score raw_score in
      Ok {| anomaly_score := anomaly_score;
            is_anomaly := geb anomaly_score (threshold D);
            confidence := _calculate_confidence D anomaly_score;
            feature_contributions :=
              _calculate_feature_contributions D X_scaled;
            threshold_used := threshold D |}
  | _, _, _ => Raise RuntimeError
  end.

Definition predict_single (D : IsolationForestDetector)
    (feature_vector : list Q) : result DetectionResult :=
  match is_trained D, model D, scaler D with
  | true, Some m, Some sc =>
      let X_scaled := transform sc feature_vector in
      let raw_score := decision_function m X_scaled in
      let anomaly_score := _normalize_score raw_score in
      Ok {| anomaly_score := anomaly_score;
            is_anomaly := geb anomaly_score (threshold D);
            confidence := _calculate_confidence D anomaly_score;
            feature_contributions :=
              _calculate_feature_contributions D X_scaled;
            threshold_used := threshold D |}
  | _, _, _ => Raise RuntimeError
  end.

Definition update_threshold (D : IsolationForestDetector) (new_threshold : Q)
  : result IsolationForestDetector :=
  if negb (Qle_bool 0 new_threshold && Qle_bool new_threshold 1)
  then Raise ValueError
  else
    Ok {| contamination := contamination D;
          n_estimators := n_estimators D;
          threshold := new_threshold;
          model := model D;
          scaler := scaler D;
          feature_names := feature_names D;
          is_trained := is_trained D |}.

Definition predict_proba (D : IsolationForestDetector)
    (features : Aggregator.AggregatedFeatures) : result (Q * Q) :=
  r ← predict D features;
  Ok ((1 - anomaly_score r)%Q, anomaly_score r).

End IsolationForest.

(** ** Protocol filter ([models/protocol_filter.py]) *)

Module ProtocolFilter.

Inductive Protocol :=
| P_UNKNOWN
| UNISWAP_V2 | UNISWAP_V3 | SUSHISWAP | CURVE | BALANCER
| AAVE_V2 | AAVE_V3 | COMPOUND | MAKER
| ONE_INCH | PARASWAP | COWSWAP
| STARGATE | HOP | ACROSS
| YEARN | CONVEX | LIDO.

Inductive OperationType :=
| O_UNKNOWN
| SWAP | ADD_LIQUIDITY | REMOVE_LIQUIDITY
| DEPOSIT | WITHDRAW | BORROW | REPAY | LIQUIDATE
| FLASH_LOAN_ARBITRAGE | FLASH_LOAN_COLLATERAL_SWAP
| STAKE | UNSTAKE | CLAIM_REWARDS | GOVERNANCE | BRIDGE.

#[global] Instance Protocol_eq_dec : EqDecision Protocol.
Proof. solve_decision. Defined.
#[global] Instance OperationType_eq_dec : EqDecision OperationType.
Proof. solve_decision. Defined.

Definition Protocol_value (p : Protocol) : string :=
  match p with
  | P_UNKNOWN => "unknown"
  | UNISWAP_V2 => "uniswap_v2" | UNISWAP_V3 => "uniswap_v3"
  | SUSHISWAP => "sushiswap" | CURVE => "curve" | BALANCER => "balancer"
  | AAVE_V2 => "aave_v2" | AAVE_V3 => "aave_v3" | COMPOUND => "compound"
  | MAKER => "maker" | ONE_INCH => "1inch" | PARASWAP => "paraswap"
  | COWSWAP => "cowswap" | STARGATE => "stargate" | HOP => "hop"
  | ACROSS => "across" | YEARN => "yearn" | CONVEX => "convex"
  | LIDO => "lido"
  end.

Definition OperationType_value (o : OperationType) : string :=
  match o with
  | O_UNKNOWN => "unknown"
  | SWAP => "swap" | ADD_LIQUIDITY => "add_liquidity"
  | REMOVE_LIQUIDITY => "remove_liquidity" | DEPOSIT => "deposit"
  | WITHDRAW => "withdraw" | BORROW => "borrow" | REPAY => "repay"
  | LIQUIDATE => "liquidate"
  | FLASH_LOAN_ARBITRAGE => "flash_loan_arbitrage"
  | FLASH_LOAN_COLLATERAL_SWAP => "flash_loan_collateral_swap"
  | STAKE => "stake" | UNSTAKE => "unstake"
  | CLAIM_REWARDS => "claim_rewards" | GOVERNANCE => "governance"
  | BRIDGE => "bridge"
  end.

Definition PROTOCOL_ADDRESSES : list (string * Protocol) :=
  [ ("0x7a250d5630b4cf539739df2c5dacb4c659f2488d", UNISWAP_V2);
    ("0xe592427a0aece92de3edee1f18e0157c05861564", UNISWAP_V3);
    ("0x68b3465833fb72a70ecdf485e0e4c7bd8665fc45", UNISWAP_V3);
    ("0x000000000022d473030f116ddee9f6b43ac78ba3", UNISWAP_V3);
    ("0x3fc91a3afd70395cd496c647d5a6cc9d4b2b7fad", UNISWAP_V3);
    ("0xd9e1ce17f2641f24ae83637ab66a2cca9c378b9f", SUSHISWAP);
    ("0x99a58482bd75cbab83b27ec03ca68ff489b5788f", CURVE);
    ("0xba12222222228d8ba445958a75a0704d566bf2c8", BALANCER);
    ("0x7d2768de32b0b80b7a3454c06bdac94a69ddc7a9", AAVE_V2);
    ("0x87870bca3f3fd6335c3f4ce8392d69350b4fa4e2", AAVE_V3);
    ("0x3d9819210a31b4961b30ef54be2aed79b9c9cd3b", COMPOUND);
    ("0x1111111254eeb25477b68fb85ed929f73a960582", ONE_INCH);
    ("0x111111125421ca6dc452d289314280a0f8842a65", ONE_INCH);
    ("0xae7ab96520de3a18e5e111b5eaab095312d7fe84", LIDO);
    ("0x5ef30b9986345249bc32d8928b7ee64de9435e39", MAKER) ].

Definition OPERATION_SELECTORS : list (string * OperationType) :=
  [ ("0x38ed1739", SWAP); ("0x8803dbee", SWAP); ("0x7ff36ab5", SWAP);
    ("0x18cbafe5", SWAP); ("0x5c11d795", SWAP); ("0xb6f9de95", SWAP);
    ("0x791ac947", SWAP); ("0x04e45aaf", SWAP); ("0xc04b8d59", SWAP);
    ("0x472b43f3", SWAP); ("0x3593564c", SWAP); ("0x12aa3caf", SWAP);
    ("0xe449022e", SWAP);
    ("0xe8e33700", ADD_LIQUIDITY); ("0xf305d719", ADD_LIQUIDITY);
    ("0xbaa2abde", REMOVE_LIQUIDITY); ("0x02751cec", REMOVE_LIQUIDITY);
    ("0xe8eda9df", DEPOSIT); ("0x617ba037", DEPOSIT);
    ("0x69328dec", WITHDRAW); ("0xa415bcad", BORROW);
    ("0x573ade81", REPAY); ("0x00a718a9", LIQUIDATE);
    ("0xa0712d68", DEPOSIT); ("0xdb006a75", WITHDRAW);
    ("0xc5ebeaec", BORROW); ("0x0e752702", REPAY);
    ("0xa694fc3a", STAKE); ("0x2e1a7d4d", UNSTAKE);
    ("0x3d18b912", CLAIM_REWARDS); ("0xe9fad8ee", UNSTAKE);
    ("0x15373e3d", GOVERNANCE); ("0x56781388", GOVERNANCE) ].

(** The entries of [OPERATION_BOUNDS] that [check_bounds] reads. *)
Record Bounds := {
  max_value_usd : option Z;
  max_gas : option Z;
  max_contracts : option Z
}.

Definition OPERATION_BOUNDS (o : OperationType) : option Bounds :=
  match o with
  | SWAP =>
      Some {| max_value_usd := Some 10000000; max_gas := Some 1000000;
              max_contracts := Some 15 |}
  | ADD_LIQUIDITY =>
      Some {| max_value_usd := Some 50000000; max_gas := Some 500000;
              max_contracts := Some 10 |}
  | DEPOSIT =>
      Some {| max_value_usd := Some 100000000; max_gas := Some 500000;
              max_contracts := Some 10 |}
  | BORROW =>
      Some {| max_value_usd := Some 50000000; max_gas := Some 800000;
              max_contracts := Some 15 |}
  | FLASH_LOAN_ARBITRAGE =>
      Some {| max_value_usd := None; max_gas := Some 2000000;
              max_contracts := None |}
  | _ => None
  end.

(** The violation tags, kept with the bound they are formatted from. *)
Inductive Violation :=
| gas_exceeds (max_gas : Z)
| contracts_exceed (max_contracts : Z)
| value_exceeds (max_value : Z).

Record ProtocolContext := {
  protocol : Protocol;
  operation : OperationType;
  is_known_protocol : bool;
  is_known_operation : bool;
  within_bounds : bool;
  bound_violations : list Violation;
  risk_adjustment : Q
}.

(** The parts joined into the explanation text. *)
Inductive ExplanationPart :=
| known_protocol (p : string)
| unknown_protocol
| operation_part (o : string)
| violations_part (vs : list Violation)
| risk_changed (reduced : bool) (amount : Q).

Record FilterResult := {
  context : ProtocolContext;
  adjusted_risk_score : Q;
  original_risk_score : Q;
  explanation : list ExplanationPart;
  should_alert : bool
}.

Record ProtocolFilter := {
  protocol_addresses : gmap string Protocol;
  operation_selectors : gmap string OperationType;
  enable_bounds_check : bool
}.

(** [ProtocolFilter()] *)
Definition default_filter : ProtocolFilter :=
  {| protocol_addresses :=
       list_to_map (map (fun kv => (lower kv.1, kv.2)) PROTOCOL_ADDRESSES);
     operation_selectors := list_to_map OPERATION_SELECTORS;
     enable_bounds_check := true |}.

Definition identify_protocol (F : ProtocolFilter) (to : option string)
  : Protocol :=
  match to with
  | Some a =>
      if truthy a then default P_UNKNOWN (protocol_addresses F !! lower a)
      else P_UNKNOWN
  | None => P_UNKNOWN
  end.

Definition identify_operation (F : ProtocolFilter) (input : string)
  : OperationType :=
  if strlen input <? 10 then O_UNKNOWN
  else default O_UNKNOWN (operation_selectors F !! lower (slice 0 10 input)).

(** [if b and x > b] for an optional, non-zero bound [b]. *)
Definition exceeds (bound : option Z) (p : Z -> bool) : option Z :=
  match bound with
  | Some b => if negb (b =? 0) && p b then Some b else None
  | None => None
  end.

Definition check_bounds (F : ProtocolFilter) (op : OperationType)
    (features : Aggregator.AggregatedFeatures) : bool * list Violation :=
  if negb (enable_bounds_check F) then (true, [])
  else
    match OPERATION_BOUNDS op with
    | None => (true, [])
    | Some bounds =>
        let md := Aggregator.metadata features in
        let sv := Aggregator.state_variance features in
        let eth_price := 2000%Q in
        let value_usd :=
          (float (StateVariance.max_value_delta sv) / 1e18 * eth_price)%Q in
        let violations :=
          from_option (fun b => [gas_exceeds b]) []
            (exceeds (max_gas bounds)
               (fun b => b <? default 0 (Aggregator.md_gas_used md)))
          ++ from_option (fun b => [contracts_exceed b]) []
               (exceeds (max_contracts bounds)
                  (fun b => b <? StateVariance.unique_contracts_modified sv))
          ++ from_option (fun b => [value_exceeds b]) []
               (exceeds (max_value_usd bounds)
                  (fun b => gtb value_usd (float b))) in
        (bool_decide (violations = []), violations)
    end.

Definition _calculate_risk_adjustment
    (protocol : Protocol) (operation : OperationType)
    (is_known_protocol is_known_operation within_bounds : bool)
    (features : Aggregator.AggregatedFeatures) : Q :=
  let has_flash_loan :=
    FlashLoan.has_flash_loan (Aggregator.flash_loan features) in
  let adjustment := 0%Q in
  let adjustment :=
    if is_known_protocol && is_known_operation then
      let adjustment := (adjustment - 0.20)%Q in
      if within_bounds then (adjustment - 0.10)%Q
      else (adjustment + 0.25)%Q
    else if negb is_known_protocol && negb is_known_operation then
      adjustment
    else
      let adjustment :=
        if is_known_protocol then (adjustment - 0.05)%Q else adjustment in
      if is_known_operation then (adjustment - 0.05)%Q else adjustment in
  let adjustment :=
    if has_flash_loan
       && negb (bool_decide
                  (operation ∈ [FLASH_LOAN_ARBITRAGE;
                                FLASH_LOAN_COLLATERAL_SWAP; LIQUIDATE]))
    then (adjustment + 0.35)%Q else adjustment in
  let safe_operations :=
    [SWAP; ADD_LIQUIDITY; DEPOSIT; STAKE; CLAIM_REWARDS; GOVERNANCE] in
  let adjustment :=
    if is_known_protocol && bool_decide (operation ∈ safe_operations)
       && within_bounds && negb has_flash_loan
    then (adjustment - 0.10)%Q else adjustment in
  fmax (-0.5)%Q (fmin 0.5%Q adjustment).

Definition get_context (F : ProtocolFilter)
    (features : Aggregator.AggregatedFeatures)
    (to : option string) (input : string) : ProtocolContext :=
  let protocol := identify_protocol F to in
  let operation := identify_operation F input in
  let is_known_protocol := negb (bool_decide (protocol = P_UNKNOWN)) in
  let is_known_operation := negb (bool_decide (operation = O_UNKNOWN)) in
  let '(within_bounds, violations) := check_bounds F operation features in
  {| protocol := protocol;
     operation := operation;
     is_known_protocol := is_known_protocol;
     is_known_operation := is_known_operation;
     within_bounds := within_bounds;
     bound_violations := violations;
     risk_adjustment :=
       _calculate_risk_adjustment protocol operation is_known_protocol
         is_known_operation within_bounds features |}.

Definition _generate_explanation (context : ProtocolContext)
    (original adjusted : Q) : list ExplanationPart :=
  [ if is_known_protocol context
    then known_protocol (Protocol_value (protocol context))
    else unknown_protocol ]
  ++ (if is_known_operation context
      then [operation_part (OperationType_value (operation context))]
      else [])
  ++ (if negb (within_bounds context)
      then [violations_part (bound_violations context)] else [])
  ++ (if gtb (fabs (adjusted - original)%Q) 0.01
      then [risk_changed (ltb adjusted original)
              (fabs (adjusted - original)%Q)]
      else []).

Definition filter (F : ProtocolFilter)
    (features : Aggregator.AggregatedFeatures) (original_risk_score : Q)
    (to : option string) (input : string) : FilterResult :=
  let context := get_context F features to input in
  let adjusted_score :=
    (original_risk_score + risk_adjustment context * original_risk_score)%Q in
  let adjusted_score := fmax 0%Q (fmin 1%Q adjusted_score) in
  {| context := context;
     adjusted_risk_score := adjusted_score;
     original_risk_score := original_risk_score;
     explanation :=
       _generate_explanation context original_risk_score adjusted_score;
     should_alert := geb adjusted_score 0.5 |}.

Definition add_protocol (F : ProtocolFilter) (address : string)
    (p : Protocol) : ProtocolFilter :=
  {| protocol_addresses := <[ lower address := p ]> (protocol_addresses F);
     operation_selectors := operation_selectors F;
     enable_bounds_check := enable_bounds_check F |}.

Definition add_operation (F : ProtocolFilter) (selector : string)
    (o : OperationType) : ProtocolFilter :=
  {| protocol_addresses := protocol_addresses F;
     operation_selectors := <[ lower selector := o ]> (operation_selectors F);
     enable_bounds_check := enable_bounds_check F |}.

End ProtocolFilter.

(** ** Signal engine ([inference/signal.py]) *)

Module Signal.

Inductive RiskLevel := SAFE | LOW | MEDIUM | HIGH | CRITICAL.

Definition RiskLevel_value (l : RiskLevel) : string :=
  match l with
  | SAFE => "safe" | LOW => "low" | MEDIUM => "medium"
  | HIGH => "high" | CRITICAL => "critical"
  end.

(** The clauses joined into the explanation text, with their arguments. *)
Inductive Clause :=
| protocol_clause (protocol operation : string)
| flash_loan_clause (amount : Q) (providers : list string)
| large_movements_clause (changes : Z)
| extreme_movement_clause (delta : Q)
| deep_stack_clause (levels : Z)
| high_variance_clause
| ml_anomaly_clause (score : Q)
| appears_normal
| minor_anomalies.

Record RiskSignal := {
  tx_hash : string;
  timestamp : Q;
  risk_level : RiskLevel;
  risk_score : Q;
  confidence : Q;
  ml_score : Q;
  ml_confidence : Q;
  heuristic_result : string;
  heuristic_confidence : Q;
  risk_indicators : list string;
  protocol : string;
  operation : string;
  raw_risk_score : Q;
  risk_adjustment : Q;
  has_flash_loan : bool;
  flash_loan_amount : Q;
  unique_contracts : Z;
  transfer_count : Z;
  max_value_delta : Q;
  call_depth : Z;
  recommended_action : string;
  explanation : list Clause;
  latency_ms : Q;
  model_version : string
}.

(** The keyword arguments of a call [RiskSignal(...)]; [None] is an
    argument that the call does not pass. *)
Record RiskSignalArgs := {
  a_tx_hash : option string;
  a_timestamp : option Q;
  a_risk_level : option RiskLevel;
  a_risk_score : option Q;
  a_confidence : option Q;
  a_ml_score : option Q;
  a_ml_confidence : option Q;
  a_heuristic_result : option string;
  a_heuristic_confidence : option Q;
  a_risk_indicators : option (list string);
  a_protocol : option string;
  a_operation : option string;
  a_raw_risk_score : option Q;
  a_risk_adjustment : option Q;
  a_has_flash_loan : option bool;
  a_flash_loan_amount : option Q;
  a_unique_contracts : option Z;
  a_transfer_count : option Z;
  a_max_value_delta : option Q;
  a_call_depth : option Z;
  a_recommended_action : option string;
  a_explanation : option (list Clause);
  a_latency_ms : option Q;
  a_model_version : option string
}.

(** A field without a default: a missing argument is a [TypeError]. *)
Definition required {A} (o : option A) : result A :=
  match o with
  | Some a => Ok a
  | None => Raise TypeError
  end.

(** The generated [__init__] of the dataclass: every field but
    [model_version] is required. *)
Definition RiskSignal_init (a : RiskSignalArgs) : result RiskSignal :=
  v1 ← required (a_tx_hash a);
  v2 ← required (a_timestamp a);
  v3 ← required (a_risk_level a);
  v4 ← required (a_risk_score a);
  v5 ← required (a_confidence a);
  v6 ← required (a_ml_score a);
  v7 ← required (a_ml_confidence a);
  v8 ← required (a_heuristic_result a);
  v9 ← required (a_heuristic_confidence a);
  v10 ← required (a_risk_indicators a);
  v11 ← required (a_protocol a);
  v12 ← required (a_operation a);
  v13 ← required (a_raw_risk_score a);
  v14 ← required (a_risk_adjustment a);
  v15 ← required (a_has_flash_loan a);
  v16 ← required (a_flash_loan_amount a);
  v17 ← required (a_unique_contracts a);
  v18 ← required (a_transfer_count a);
  v19 ← required (a_max_value_delta a);
  v20 ← required (a_call_depth a);
  v21 ← required (a_recommended_action a);
  v22 ← required (a_explanation a);
  v23 ← required (a_latency_ms a);
  Ok {| tx_hash := v1; timestamp := v2; risk_level := v3;
        risk_score := v4; confidence := v5; ml_score := v6;
        ml_confidence := v7; heuristic_result := v8;
        heuristic_confidence := v9; risk_indicators := v10;
        protocol := v11; operation := v12; raw_risk_score := v13;
        risk_adjustment := v14; has_flash_loan := v15;
        flash_loan_amount := v16; unique_contracts := v17;
        transfer_count := v18; max_value_delta := v19; call_depth := v20;
        recommended_action := v21; explanation := v22; latency_ms := v23;
        model_version := default "v2.1" (a_model_version a) |}.

Record Stats := {
  total_analyzed : Z;
  n_safe : Z;
  n_low : Z;
  n_medium : Z;
  n_high : Z;
  n_critical : Z;
  total_latency_ms : Q;
  protocol_adjustments : Z
}.

Definition AlertCallback := RiskSignal -> result unit.

Record SignalEngine := {
  feature_aggregator : Aggregator.FeatureAggregator;
  heuristic_filter : Heuristics.HeuristicFilter;
  protocol_filter : option ProtocolFilter.ProtocolFilter;
  alert_callbacks : list AlertCallback;
  min_alert_level : RiskLevel;
  ml_detector : option IsolationForest.IsolationForestDetector;
  _stats : Stats
}.

Definition with_stats (E : SignalEngine) (s : Stats) : SignalEngine :=
  {| feature_aggregator := feature_aggregator E;
     heuristic_filter := heuristic_filter E;
     protocol_filter := protocol_filter E;
     alert_callbacks := alert_callbacks E;
     min_alert_level := min_alert_level E;
     ml_detector := ml_detector E;
     _stats := s |}.

Definition _score_to_level (risk_score : Q)
    (heuristic : Heuristics.HeuristicResult)
    (ml_result : option IsolationForest.DetectionResult) : RiskLevel :=
  if geb risk_score 0.7 then CRITICAL
  else if geb risk_score 0.5 then HIGH
  else if geb risk_score 0.35 then MEDIUM
  else if geb risk_score 0.2 then LOW
  else SAFE.

Definition _compute_risk (heuristic : Heuristics.HeuristicResult)
    (ml_result : option IsolationForest.DetectionResult)
  : RiskLevel * Q * Q :=
  let n := len (Heuristics.risk_indicators heuristic) in
  let heuristic_score := (float n / 10)%Q in
  let suspicious :=
    Heuristics.FilterResult_eqb (Heuristics.result heuristic)
      Heuristics.SUSPICIOUS in
  let '(risk_score, confidence) :=
    match ml_result with
    | Some ml =>
        ((0.4 * heuristic_score + 0.6 * IsolationForest.anomaly_score ml)%Q,
         (0.4 * Heuristics.confidence heuristic
          + 0.6 * IsolationForest.confidence ml)%Q)
    | None => (heuristic_score, Heuristics.confidence heuristic)
    end in
  let anomalous :=
    match ml_result with
    | Some ml => IsolationForest.is_anomaly ml
    | None => false
    end in
  let risk_level :=
    if suspicious && gtb (Heuristics.confidence heuristic) 0.9 then CRITICAL
    else if suspicious && anomalous then HIGH
    else if suspicious then MEDIUM
    else if anomalous then
      match ml_result with
      | Some ml =>
          if gtb (IsolationForest.confidence ml) 0.7 then MEDIUM else LOW
      | None => LOW
      end
    else if 2 <=? n then LOW
    else SAFE in
  (risk_level, fmin risk_score 1%Q, fmin confidence 1%Q).

Definition _get_recommendation (l : RiskLevel) : string :=
  match l with
  | SAFE => "No action required"
  | LOW => "Log and monitor"
  | MEDIUM => "Alert security team for review"
  | HIGH => "Immediate review required - consider manual pause"
  | CRITICAL =>
      "URGENT: Likely attack in progress - activate incident response"
  end.

Definition _generate_explanation (features : Aggregator.AggregatedFeatures)
    (heuristic : Heuristics.HeuristicResult)
    (ml_result : option IsolationForest.DetectionResult)
    (risk_level : RiskLevel) : list Clause :=
  let fl := Aggregator.flash_loan features in
  let sv := Aggregator.state_variance features in
  let op := Aggregator.opcode features in
  let explanations :=
    (if FlashLoan.has_flash_loan fl
     then [flash_loan_clause (float (FlashLoan.total_borrowed fl) / 1e18)%Q
             (FlashLoan.flash_loan_providers fl)]
     else [])
    ++ (if 3 <? StateVariance.large_value_changes sv
        then [large_movements_clause (StateVariance.large_value_changes sv)]
        else [])
    ++ (if 10 ^ 22 <? StateVariance.max_value_delta sv
        then [extreme_movement_clause
                (float (StateVariance.max_value_delta sv) / 1e18)%Q]
        else [])
    ++ (if 5 <? Opcode.call_depth op
        then [deep_stack_clause (Opcode.call_depth op)] else [])
    ++ (if gtb (StateVariance.variance_ratio sv) 0.5
        then [high_variance_clause] else [])
    ++ match ml_result with
       | Some ml =>
           if IsolationForest.is_anomaly ml
           then [ml_anomaly_clause (IsolationForest.anomaly_score ml)]
           else []
       | None => []
       end in
  match explanations with
  | [] =>
      match risk_level with
      | SAFE => [appears_normal]
      | _ => [minor_anomalies]
      end
  | _ => explanations
  end.

Definition risk_priority (l : RiskLevel) : Z :=
  match l with
  | SAFE => 0 | LOW => 1 | MEDIUM => 2 | HIGH => 3 | CRITICAL => 4
  end.

(** The callbacks [_emit_alerts] calls; what they raise is caught and
    logged. *)
Definition _emit_alerts (E : SignalEngine) (signal : RiskSignal)
  : list (result unit) :=
  if risk_priority (min_alert_level E) <=? risk_priority (risk_level signal)
  then map (fun callback => callback signal) (alert_callbacks E)
  else [].

Definition count_level (s : Stats) (l : RiskLevel) : Stats :=
  {| total_analyzed := total_analyzed s;
     n_safe := n_safe s + (if l is SAFE then 1 else 0);
     n_low := n_low s + (if l is LOW then 1 else 0);
     n_medium := n_medium s + (if l is MEDIUM then 1 else 0);
     n_high := n_high s + (if l is HIGH then 1 else 0);
     n_critical := n_critical s + (if l is CRITICAL then 1 else 0);
     total_latency_ms := total_latency_ms s;
     protocol_adjustments := protocol_adjustments s |}.

Definition update_stats (s : Stats) (l : RiskLevel) (latency : Q)
    (adjusted : bool) : Stats :=
  let s := count_level s l in
  {| total_analyzed := total_analyzed s + 1;
     n_safe := n_safe s; n_low := n_low s; n_medium := n_medium s;
     n_high := n_high s; n_critical := n_critical s;
     total_latency_ms := (total_latency_ms s + latency)%Q;
     protocol_adjustments :=
       protocol_adjustments s + (if adjusted then 1 else 0) |}.

(** [_stats[level.value]] *)
Definition level_count (s : Stats) (l : RiskLevel) : Z :=
  match l with
  | SAFE => n_safe s
  | LOW => n_low s
  | MEDIUM => n_medium s
  | HIGH => n_high s
  | CRITICAL => n_critical s
  end.

(** The two wall-clock readings of one analysis. *)
Record Clock := {
  now : Q;
  latency : Q
}.

Definition run_detector (E : SignalEngine)
    (features : Aggregator.AggregatedFeatures)
  : result (option IsolationForest.DetectionResult) :=
  match ml_detector E with
  | Some D => r ← IsolationForest.predict D features; Ok (Some r)
  | None => Ok None
  end.

Section WithRuntime.
Context `{RT : PyRuntime}.

(** The synchronous entry point; it runs the extraction to completion on
    the event loop and builds the signal without the protocol fields. *)
Definition analyze (E : SignalEngine) (trace : TransactionTrace)
    (clock : Clock) : result (RiskSignal * SignalEngine) :=
  features ←
    Aggregator.extract_from_trace (feature_aggregator E) trace;
  let heuristic := Heuristics.filter_with_features features in
  ml_result ← run_detector E features;
  let '(risk_level, risk_score, confidence) :=
    _compute_risk heuristic ml_result in
  let explanation :=
    _generate_explanation features heuristic ml_result risk_level in
  let fl := Aggregator.flash_loan features in
  let sv := Aggregator.state_variance features in
  signal ← RiskSignal_init
    {| a_tx_hash := Some (Trace.tx_hash trace);
       a_timestamp := Some (now clock);
       a_risk_level := Some risk_level;
       a_risk_score := Some risk_score;
       a_confidence := Some confidence;
       a_ml_score :=
         Some (from_option IsolationForest.anomaly_score 0%Q ml_result);
       a_ml_confidence :=
         Some (from_option IsolationForest.confidence 0%Q ml_result);
       a_heuristic_result :=
         Some (Heuristics.FilterResult_value (Heuristics.result heuristic));
       a_heuristic_confidence := Some (Heuristics.confidence heuristic);
       a_risk_indicators := Some (Heuristics.risk_indicators heuristic);
       a_protocol := None;
       a_operation := None;
       a_raw_risk_score := None;
       a_risk_adjustment := None;
       a_has_flash_loan := Some (FlashLoan.has_flash_loan fl);
       a_flash_loan_amount :=
         Some (float (FlashLoan.total_borrowed fl) / 1e18)%Q;
       a_unique_contracts :=
         Some (StateVariance.unique_contracts_modified sv);
       a_transfer_count := Some (StateVariance.total_storage_changes sv);
       a_max_value_delta :=
         Some (float (StateVariance.max_value_delta sv) / 1e18)%Q;
       a_call_depth :=
         Some (Opcode.call_depth (Aggregator.opcode features));
       a_recommended_action := Some (_get_recommendation risk_level);
       a_explanation := Some explanation;
       a_latency_ms := Some (latency clock);
       a_model_version := None |};
  let stats := update_stats (_stats E) risk_level (latency clock) false in
  Ok (signal, with_stats E stats).

(** The asynchronous entry point, with the protocol filter applied when
    the engine has one. *)
Definition analyze_async (E : SignalEngine) (trace : TransactionTrace)
    (clock : Clock) : result (RiskSignal * SignalEngine) :=
  features ←
    Aggregator.extract_from_trace (feature_aggregator E) trace;
  let heuristic := Heuristics.filter_with_features features in
  ml_result ← run_detector E features;
  let '(risk_level, raw_risk_score, confidence) :=
    _compute_risk heuristic ml_result in
  let '(protocol_name, operation_name, risk_adjustment, risk_score,
        risk_level) :=
    match protocol_filter E with
    | Some F =>
        let filter_result :=
          ProtocolFilter.filter F features raw_risk_score
            (to_address trace) (input_data trace) in
        let ctx := ProtocolFilter.context filter_result in
        let risk_score := ProtocolFilter.adjusted_risk_score filter_result in
        (ProtocolFilter.Protocol_value (ProtocolFilter.protocol ctx),
         ProtocolFilter.OperationType_value (ProtocolFilter.operation ctx),
         ProtocolFilter.risk_adjustment ctx,
         risk_score,
         _score_to_level risk_score heuristic ml_result)
    | None => ("unknown", "unknown", 0%Q, raw_risk_score, risk_level)
    end in
  let explanation :=
    _generate_explanation features heuristic ml_result risk_level in
  let explanation :=
    if negb (String.eqb protocol_name "unknown")
    then protocol_clause protocol_name operation_name :: explanation
    else explanation in
  let fl := Aggregator.flash_loan features in
  let sv := Aggregator.state_variance features in
  signal ← RiskSignal_init
    {| a_tx_hash := Some (Trace.tx_hash trace);
       a_timestamp := Some (now clock);
       a_risk_level := Some risk_level;
       a_risk_score := Some risk_score;
       a_confidence := Some confidence;
       a_ml_score :=
         Some (from_option IsolationForest.anomaly_score 0%Q ml_result);
       a_ml_confidence :=
         Some (from_option IsolationForest.confidence 0%Q ml_result);
       a_heuristic_result :=
         Some (Heuristics.FilterResult_value (Heuristics.result heuristic));
       a_heuristic_confidence := Some (Heuristics.confidence heuristic);
       a_risk_indicators := Some (Heuristics.risk_indicators heuristic);
       a_protocol := Some protocol_name;
       a_operation := Some operation_name;
       a_raw_risk_score := Some raw_risk_score;
       a_risk_adjustment := Some risk_adjustment;
       a_has_flash_loan := Some (FlashLoan.has_flash_loan fl);
       a_flash_loan_amount :=
         Some (float (FlashLoan.total_borrowed fl) / 1e18)%Q;
       a_unique_contracts :=
         Some (StateVariance.unique_contracts_modified sv);
       a_transfer_count := Some (StateVariance.total_storage_changes sv);
       a_max_value_delta :=
         Some (float (StateVariance.max_value_delta sv) / 1e18)%Q;
       a_call_depth :=
         Some (Opcode.call_depth (Aggregator.opcode features));
       a_recommended_action := Some (_get_recommendation risk_level);
       a_explanation := Some explanation;
       a_latency_ms := Some (latency clock);
       a_model_version := None |};
  let adjusted :=
    bool_decide (is_Some (protocol_filter E))
    && negb (Qeq_bool risk_adjustment 0) in
  let stats :=
    update_stats (_stats E) risk_level (latency clock) adjusted in
  Ok (signal, with_stats E stats).

End WithRuntime.

(** The signal a call hands back to its caller, if it returns. *)
Definition emitted (r : result (RiskSignal * SignalEngine))
  : option RiskSignal :=
  match r with
  | Ok (signal, _) => Some signal
  | Raise _ => None
  end.

End Signal.

(** ** Inference engine ([inference/engine.py]) *)

Module Inference.

Record InferenceResult := {
  tx_hash : string;
  is_suspicious : bool;
  anomaly_score : Q;
  confidence : Q;
  heuristic_result : Heuristics.HeuristicResult;
  ml_result : option IsolationForest.DetectionResult;
  features : option Aggregator.AggregatedFeatures;
  latency_ms : Q;
  risk_level : string;
  risk_indicators : list string;
  recommendation : string
}.

Record InferenceEngine := {
  enable_simulation : bool;
  simulation_timeout_ms : Z;
  anomaly_threshold : Q;
  heuristic_filter : Heuristics.HeuristicFilter;
  feature_aggregator : Aggregator.FeatureAggregator;
  ml_detector : option IsolationForest.IsolationForestDetector
}.

(** What awaiting [_simulate_transaction] under [wait_for] gives: the
    deadline passes, or the replayer answers with a trace or [None]
    (its own failures are caught and give [None]). *)
Inductive Simulation :=
| timed_out
| replayed (trace : option TransactionTrace).

Definition _make_decision (heuristic : Heuristics.HeuristicResult)
    (ml_result : option IsolationForest.DetectionResult)
    (simulation_timeout : bool) : bool * string * string :=
  let suspicious :=
    Heuristics.FilterResult_eqb (Heuristics.result heuristic)
      Heuristics.SUSPICIOUS in
  let ml_is p := from_option p false ml_result in
  let n := len (Heuristics.risk_indicators heuristic) in
  if suspicious && gtb (Heuristics.confidence heuristic) 0.9
  then (true, "critical", "block")
  else if ml_is (fun ml => IsolationForest.is_anomaly ml
                           && gtb (IsolationForest.confidence ml) 0.8)
  then (true, "high", "block")
  else if suspicious then
    if ml_is (fun ml => gtb (IsolationForest.anomaly_score ml) 0.5)
    then (true, "high", "block")
    else (true, "medium", "flag")
  else if simulation_timeout
          && ml_is (fun ml => gtb (IsolationForest.anomaly_score ml) 0.3)
  then (true, "medium", "flag")
  else if simulation_timeout && (1 <=? n)
  then (true, "medium", "flag")
  else if ml_is IsolationForest.is_anomaly then
    if Heuristics.FilterResult_eqb (Heuristics.result heuristic)
         Heuristics.UNKNOWN
    then (true, "medium", "flag")
    else (false, "low", "monitor")
  else if 2 <=? n then (false, "low", "monitor")
  else (false, "low", "allow").

Definition _calculate_overall_confidence
    (heuristic : Heuristics.HeuristicResult)
    (ml_result : option IsolationForest.DetectionResult) : Q :=
  match ml_result with
  | None => Heuristics.confidence heuristic
  | Some ml =>
      (Heuristics.confidence heuristic * 0.4
       + IsolationForest.confidence ml * 0.6)%Q
  end.

Definition run_detector (E : InferenceEngine)
    (features : Aggregator.AggregatedFeatures)
  : result (option IsolationForest.DetectionResult) :=
  match ml_detector E with
  | Some D => r ← IsolationForest.predict D features; Ok (Some r)
  | None => Ok None
  end.

Section WithRuntime.
Context `{RT : PyRuntime}.

(** The [try] block of [analyze]: the features after the simulation
    and the two flags [simulation_timeout], [simulation_error]. *)
Definition simulate (E : InferenceEngine) (sim : Simulation)
    (features : Aggregator.AggregatedFeatures)
  : Aggregator.AggregatedFeatures * bool * bool :=
  if enable_simulation E then
    match sim with
    | timed_out => (features, true, false)
    | replayed None => (features, false, false)
    | replayed (Some trace) =>
        match Aggregator.extract_from_trace (feature_aggregator E) trace
        with
        | Ok features' => (features', false, false)
        | Raise _ => (features, false, true)
        end
    end
  else (features, false, false).

(** [all_indicators] of [analyze]. *)
Definition all_indicators (h1 h2 : list string)
    (simulation_timeout simulation_error : bool) : list string :=
  set_iter (list_to_set (h1 ++ h2))
  ++ Heuristics.flag simulation_timeout "simulation_timeout"
  ++ Heuristics.flag simulation_error "simulation_error".

Definition analyze (E : InferenceEngine) (tx : Mempool.PendingTransaction)
    (sim : Simulation) (latency : Q) : result InferenceResult :=
  let heuristic_result := Heuristics.filter (heuristic_filter E) tx in
  if Heuristics.FilterResult_eqb (Heuristics.result heuristic_result)
       Heuristics.SAFE
     && negb (Heuristics.should_analyze heuristic_result)
  then
    Ok {| tx_hash := Mempool.hash tx;
          is_suspicious := false;
          anomaly_score := 0%Q;
          confidence := Heuristics.confidence heuristic_result;
          heuristic_result := heuristic_result;
          ml_result := None;
          features := None;
          latency_ms := latency;
          risk_level := "low";
          risk_indicators := [];
          recommendation := "allow" |}
  else
    features ←
      Aggregator.extract_from_pending (feature_aggregator E) tx;
    let '(features, simulation_timeout, simulation_error) :=
      simulate E sim features in
    let heuristic_with_features :=
      Heuristics.filter_with_features features in
    ml_result ← run_detector E features;
    let '(is_suspicious, risk_level, recommendation) :=
      _make_decision heuristic_with_features ml_result simulation_timeout in
    Ok {| tx_hash := Mempool.hash tx;
          is_suspicious := is_suspicious;
          anomaly_score :=
            from_option IsolationForest.anomaly_score 0%Q ml_result;
          confidence :=
            _calculate_overall_confidence heuristic_with_features ml_result;
          heuristic_result := heuristic_with_features;
          ml_result := ml_result;
          features := Some features;
          latency_ms := latency;
          risk_level := risk_level;
          risk_indicators :=
            all_indicators (Heuristics.risk_indicators heuristic_result)
              (Heuristics.risk_indicators heuristic_with_features)
              simulation_timeout simulation_error;
          recommendation := recommendation |}.

Definition analyze_trace (E : InferenceEngine) (trace : TransactionTrace)
    (latency : Q) : result InferenceResult :=
  features ←
    Aggregator.extract_from_trace (feature_aggregator E) trace;
  let heuristic_result := Heuristics.filter_with_features features in
  ml_result ← run_detector E features;
  let '(is_suspicious, risk_level, recommendation) :=
    _make_decision heuristic_result ml_result false in
  Ok {| tx_hash := Trace.tx_hash trace;
        is_suspicious := is_suspicious;
        anomaly_score :=
          from_option IsolationForest.anomaly_score 0%Q ml_result;
        confidence :=
          _calculate_overall_confidence heuristic_result ml_result;
        heuristic_result := heuristic_result;
        ml_result := ml_result;
        features := Some features;
        latency_ms := latency;
        risk_level := risk_level;
        risk_indicators := Heuristics.risk_indicators heuristic_result;
        recommendation := recommendation |}.

(** The indicators of the two heuristic passes and the simulation
    tags in the order in which the checks that produce them run, along
    the path [analyze] takes. *)
Definition indicators_in_check_order (E : InferenceEngine)
    (tx : Mempool.PendingTransaction) (sim : Simulation) : list string :=
  let heuristic_result := Heuristics.filter (heuristic_filter E) tx in
  if Heuristics.FilterResult_eqb (Heuristics.result heuristic_result)
       Heuristics.SAFE
     && negb (Heuristics.should_analyze heuristic_result)
  then []
  else
    match Aggregator.extract_from_pending (feature_aggregator E) tx with
    | Raise _ => []
    | Ok features =>
        let '(features, simulation_timeout, simulation_error) :=
          simulate E sim features in
        match run_detector E features with
        | Raise _ => []
        | Ok _ =>
            Heuristics.risk_indicators heuristic_result
            ++ Heuristics.risk_indicators
                 (Heuristics.filter_with_features features)
            ++ Heuristics.flag simulation_timeout "simulation_timeout"
            ++ Heuristics.flag simulation_error "simulation_error"
        end
    end.

End WithRuntime.

(** The indicator list a call hands back, empty when it raises. *)
Definition emitted_indicators (r : result InferenceResult) : list string :=
  match r with
  | Ok r => risk_indicators r
  | Raise _ => []
  end.

End Inference.

(** ** A reference run time

    Used to run the model on concrete inputs.  [hex_int] agrees with
    [int(s, 16)] on strings of hexadecimal digits with an optional [0x]
    prefix, which is what the inputs below contain, and answers [None]
    elsewhere; [approx_sqrt] is the square root rounded down to twelve
    decimals; sets are iterated in the order of [elements]. *)

Module Reference.

Definition hex_digit (c : ascii) : option Z :=
  let n := Z.of_nat (nat_of_ascii c) in
  if (48 <=? n) && (n <=? 57) then Some (n - 48)
  else if (97 <=? n) && (n <=? 102) then Some (n - 87)
  else if (65 <=? n) && (n <=? 70) then Some (n - 55)
  else None.

Fixpoint hex_digits (s : string) (acc : Z) : option Z :=
  match s with
  | EmptyString => Some acc
  | String c s' =>
      match hex_digit c with
      | Some d => hex_digits s' (16 * acc + d)
      | None => None
      end
  end.

Definition hex_int (s : string) : option Z :=
  let digits :=
    if startswith "0x" s || startswith "0X" s
    then substring 2 (String.length s) s else s in
  match digits with
  | EmptyString => None
  | _ => hex_digits digits 0
  end.

Definition approx_sqrt (q : Q) : Q :=
  let scale := 10 ^ 12 in
  Qmake (Z.sqrt (Qnum q * Zpos (Qden q) * scale * scale))
        (Qden q * Z.to_pos scale).

Definition runtime : PyRuntime :=
  {| int16 := hex_int;
     fsqrt := approx_sqrt;
     set_iter := elements;
     set_iter_NoDup := NoDup_elements;
     set_iter_elem_of := fun X x => elem_of_elements X x |}.

End Reference.

(** ** Concrete engines, traces and transactions *)

Module Examples.

(** The aggregator of an engine that analyses transactions carrying a
    destination address; the analysis of creation payloads is not reached
    on them. *)
Definition aggregator : Aggregator.FeatureAggregator :=
  {| Aggregator.bytecode_extractor :=
       {| Bytecode.analyse_payload := fun _ => Raise ValueError |} |}.

Definition zero_stats : Signal.Stats :=
  {| Signal.total_analyzed := 0; Signal.n_safe := 0; Signal.n_low := 0;
     Signal.n_medium := 0; Signal.n_high := 0; Signal.n_critical := 0;
     Signal.total_latency_ms := 0%Q; Signal.protocol_adjustments := 0 |}.

(** A loaded detector whose fitted scorer answers [d] on every input and
    whose scaler is the identity. *)
Definition detector (d : Q) : IsolationForest.IsolationForestDetector :=
  {| IsolationForest.contamination := 0.1%Q;
     IsolationForest.n_estimators := 100;
     IsolationForest.threshold := 0.65%Q;
     IsolationForest.model :=
       Some {| IsolationForest.decision_function := fun _ => d |};
     IsolationForest.scaler :=
       Some {| IsolationForest.transform := fun x => x;
               IsolationForest.mean_ := repeat 0%Q 43;
               IsolationForest.scale_ := repeat 1%Q 43 |};
     IsolationForest.feature_names := Aggregator.feature_names;
     IsolationForest.is_trained := true |}.

(** [SignalEngine()] *)
Definition engine : Signal.SignalEngine :=
  {| Signal.feature_aggregator := aggregator;
     Signal.heuristic_filter := Heuristics.default_filter;
     Signal.protocol_filter := Some ProtocolFilter.default_filter;
     Signal.alert_callbacks := [];
     Signal.min_alert_level := Signal.MEDIUM;
     Signal.ml_detector := None;
     Signal._stats := zero_stats |}.

(** [SignalEngine(enable_protocol_filter=False)] *)
Definition engine_without_filter : Signal.SignalEngine :=
  {| Signal.feature_aggregator := aggregator;
     Signal.heuristic_filter := Heuristics.default_filter;
     Signal.protocol_filter := None;
     Signal.alert_callbacks := [];
     Signal.min_alert_level := Signal.MEDIUM;
     Signal.ml_detector := None;
     Signal._stats := zero_stats |}.

(** [SignalEngine(model_path=..., enable_protocol_filter=False)] with a
    model scoring [0] on every input. *)
Definition engine_with_detector : Signal.SignalEngine :=
  {| Signal.feature_aggregator := aggregator;
     Signal.heuristic_filter := Heuristics.default_filter;
     Signal.protocol_filter := None;
     Signal.alert_callbacks := [];
     Signal.min_alert_level := Signal.MEDIUM;
     Signal.ml_detector := Some (detector 0%Q);
     Signal._stats := zero_stats |}.

Definition clock : Signal.Clock :=
  {| Signal.now := 1700000000%Q; Signal.latency := 1.5%Q |}.

Definition unknown_contract : string :=
  "0x3333333333333333333333333333333333333333".

Definition aave_v2_pool : string :=
  "0x7d2768de32b0b80b7a3454c06bdac94a69ddc7a9".

Definition empty_trace : TransactionTrace :=
  {| Trace.tx_hash := "0xaa"; block_number := 18000000;
     from_address := "0x1111111111111111111111111111111111111111";
     to_address := Some unknown_contract; value := 0; gas_used := 21000;
     gas_price := 1; input_data := "0x"; status := true; logs := [];
     call_trace := None; storage_changes := []; opcodes := ∅;
     contracts_called := []; created_contracts := [];
     selfdestruct_contracts := [] |}.

(** A flash-loan selector sent to an unknown contract, with one
    DELEGATECALL counted by the tracer. *)
Definition flash_trace : TransactionTrace :=
  {| Trace.tx_hash := "0xbb"; block_number := 18000000;
     from_address := "0x2222222222222222222222222222222222222222";
     to_address := Some unknown_contract; value := 0; gas_used := 300000;
     gas_price := 1; input_data := "0x5cffe9de"; status := true; logs := [];
     call_trace := None; storage_changes := [];
     opcodes := {[ "DELEGATECALL" := 1 ]};
     contracts_called := []; created_contracts := [];
     selfdestruct_contracts := [] |}.

Definition leaf (kind input : string) (depth : Z) : TraceCall :=
  mkTraceCall kind unknown_contract unknown_contract 0 100000 50000
    input "0x" depth [].

(** [2 ** 81] as a 32-byte word: more than [10 ** 24]. *)
Definition big_word : string :=
  "0000000000000000000000000000000000000000000200000000000000000000".

Definition flash_input : string := "0x5cffe9de" +:+ big_word.

(** A chain of [n] nested calls below depth [d], ending in a flash loan. *)
Fixpoint chain (n : nat) (d : Z) : TraceCall :=
  match n with
  | O => leaf "CALL" flash_input d
  | S n' =>
      mkTraceCall "CALL" unknown_contract unknown_contract 0 100000 50000
        "0x" "0x" d [chain n' (d + 1)]
  end.

Definition busy_call_tree : TraceCall :=
  mkTraceCall "CALL" unknown_contract aave_v2_pool 0 5000000 4000000
    flash_input "0x" 0
    ([ leaf "DELEGATECALL" "0x" 1; leaf "CREATE2" "0x" 1 ]
     ++ repeat (leaf "CALL" "0x" 1) 40
     ++ [ chain 10 1 ]).

Definition big_change (slot : string) : StorageChange :=
  {| sc_address := unknown_contract; sc_slot := slot;
     sc_previous_value := "0x0"; sc_new_value := "0x" +:+ big_word |}.

(** A flash loan from the Aave pool with a nested second loan, 54 calls
    down to depth 11, and four storage writes of [2 ** 81] each. *)
Definition busy_trace : TransactionTrace :=
  {| Trace.tx_hash := "0xcc"; block_number := 18000000;
     from_address := "0x2222222222222222222222222222222222222222";
     to_address := Some aave_v2_pool; value := 0; gas_used := 4000000;
     gas_price := 1; input_data := flash_input; status := true; logs := [];
     call_trace := Some busy_call_tree;
     storage_changes :=
       [ big_change "0x10"; big_change "0x11"; big_change "0x12";
         big_change "0x13" ];
     opcodes := ∅; contracts_called := []; created_contracts := [];
     selfdestruct_contracts := [] |}.

(** A contract creation with empty calldata. *)
Definition empty_creation : Mempool.PendingTransaction :=
  {| Mempool.hash := "0xdd";
     Mempool.from_address := "0x1111111111111111111111111111111111111111";
     Mempool.to_address := None; Mempool.value := 0; Mempool.gas := 53000;
     Mempool.gas_price := 1; Mempool.max_fee_per_gas := None;
     Mempool.max_priority_fee_per_gas := None; Mempool.input_data := "0x";
     Mempool.nonce := 0; Mempool.chain_id := Some 1 |}.

(** A flash-loan call to an unknown contract with a high gas limit. *)
Definition flash_pending : Mempool.PendingTransaction :=
  {| Mempool.hash := "0xee";
     Mempool.from_address := "0x2222222222222222222222222222222222222222";
     Mempool.to_address := Some unknown_contract; Mempool.value := 0;
     Mempool.gas := 3000000; Mempool.gas_price := 1;
     Mempool.max_fee_per_gas := None;
     Mempool.max_priority_fee_per_gas := None;
     Mempool.input_data := "0x5cffe9de"; Mempool.nonce := 1;
     Mempool.chain_id := Some 1 |}.

(** The record of a quiet transaction whose bytecode matched a known
    exploit and is old enough not to count as a new contract. *)
Definition exploit_features : Aggregator.AggregatedFeatures :=
  {| Aggregator.flash_loan :=
       FlashLoan.extract_from_input "0x" None;
     Aggregator.state_variance := StateVariance._empty_features;
     Aggregator.bytecode :=
       {| Bytecode.bytecode_length := 1200;
          Bytecode.bytecode_hash := "0x1234567890abcdef";
          Bytecode.is_contract := true; Bytecode.is_proxy := false;
          Bytecode.proxy_type := None;
          Bytecode.contract_age_blocks := 5000;
          Bytecode.is_verified := false;
          Bytecode.matches_known_exploit := true;
          Bytecode.matched_exploit_id := Some "euler_attacker";
          Bytecode.jaccard_similarity := 0%Q;
          Bytecode.has_selfdestruct := false;
          Bytecode.has_delegatecall := false;
          Bytecode.has_create2 := false;
          Bytecode.unique_opcodes := 60 |};
     Aggregator.opcode := Opcode._empty_features;
     Aggregator.metadata :=
       {| Aggregator.md_tx_hash := Some "0xff";
          Aggregator.md_block_number := None; Aggregator.md_from := None;
          Aggregator.md_to := None; Aggregator.md_value := None;
          Aggregator.md_gas_used := None; Aggregator.md_status := None;
          Aggregator.md_contracts_called := None;
          Aggregator.md_created_contracts := None;
          Aggregator.md_gas := None;
          Aggregator.md_is_contract_interaction := None;
          Aggregator.md_is_contract_creation := None;
          Aggregator.md_selector := None |} |}.

(** [InferenceEngine(rpc_url, enable_simulation=False)] *)
Definition inference_engine : Inference.InferenceEngine :=
  {| Inference.enable_simulation := false;
     Inference.simulation_timeout_ms := 200;
     Inference.anomaly_threshold := 0.65%Q;
     Inference.heuristic_filter := Heuristics.default_filter;
     Inference.feature_aggregator := aggregator;
     Inference.ml_detector := None |}.

(** An ERC-20 [transfer] sent to the USDC token with 150 000 gas. *)
Definition token_transfer : Mempool.PendingTransaction :=
  {| Mempool.hash := "0xab";
     Mempool.from_address := "0x1111111111111111111111111111111111111111";
     Mempool.to_address := Some "0xA0b86991c6218b36c1d19d4a2e9eb0ce3606eb48";
     Mempool.value := 0; Mempool.gas := 150000; Mempool.gas_price := 1;
     Mempool.max_fee_per_gas := None;
     Mempool.max_priority_fee_per_gas := None;
     Mempool.input_data :=
       "0xa9059cbb0000000000000000000000002222222222222222222222222222222222222222";
     Mempool.nonce := 7; Mempool.chain_id := Some 1 |}.

End Examples.

(** * Properties *)

(** ** Float comparisons, [min], [max] and [abs] *)

Section FloatFacts.
Local Open Scope Q_scope.

Lemma gtb_true x y : gtb x y = true <-> y < x.
Proof.
  unfold gtb. rewrite negb_true_iff, <- not_true_iff_false, Qle_bool_iff.
  split; [apply Qnot_le_lt | apply Qlt_not_le].
Qed.

Lemma gtb_false x y : gtb x y = false <-> x <= y.
Proof. unfold gtb. rewrite negb_false_iff. apply Qle_bool_iff. Qed.

Lemma geb_true x y : geb x y = true <-> y <= x.
Proof. apply Qle_bool_iff. Qed.

Lemma geb_false x y : geb x y = false <-> x < y.
Proof.
  unfold geb. rewrite <- not_true_iff_false, Qle_bool_iff.
  split; [apply Qnot_le_lt | apply Qlt_not_le].
Qed.

Lemma ltb_true x y : ltb x y = true <-> x < y.
Proof. apply (gtb_true y x). Qed.

Lemma ltb_false x y : ltb x y = false <-> y <= x.
Proof. apply (gtb_false y x). Qed.

Lemma fmin_spec x y : (y < x /\ fmin x y = y) \/ (x <= y /\ fmin x y = x).
Proof.
  unfold fmin. destruct (ltb y x) eqn:E.
  - left. split; [by apply ltb_true | done].
  - right. split; [by apply ltb_false | done].
Qed.

Lemma fmax_spec x y : (x < y /\ fmax x y = y) \/ (y <= x /\ fmax x y = x).
Proof.
  unfold fmax. destruct (gtb y x) eqn:E.
  - left. split; [by apply gtb_true | done].
  - right. split; [by apply gtb_false | done].
Qed.

Lemma fabs_spec x : (x < 0 /\ fabs x = - x) \/ (0 <= x /\ fabs x = x).
Proof.
  unfold fabs. destruct (ltb x 0) eqn:E.
  - left. split; [by apply ltb_true | done].
  - right. split; [by apply ltb_false | done].
Qed.

Lemma fmin_Qmin x y : fmin x y == Qmin x y.
Proof.
  destruct (fmin_spec x y) as [[H ->] | [H ->]].
  - rewrite Q.min_r; [reflexivity | lra].
  - rewrite Q.min_l; [reflexivity | lra].
Qed.

Lemma fmax_Qmax x y : fmax x y == Qmax x y.
Proof.
  destruct (fmax_spec x y) as [[H ->] | [H ->]].
  - rewrite Q.max_r; [reflexivity | lra].
  - rewrite Q.max_l; [reflexivity | lra].
Qed.

Lemma fabs_Qabs x : fabs x == Qabs x.
Proof.
  destruct (fabs_spec x) as [[H ->] | [H ->]].
  - rewrite Qabs_neg; [reflexivity | lra].
  - rewrite Qabs_pos; [reflexivity | lra].
Qed.

(** [max(lo, min(hi, x))] stays between its bounds. *)
Lemma clamp_bounds lo hi x :
  lo <= hi -> lo <= fmax lo (fmin hi x) <= hi.
Proof.
  intros Hb.
  destruct (fmin_spec hi x) as [[H1 E1] | [H1 E1]]; rewrite E1;
    destruct (fmax_spec lo x) as [[H2 E2] | [H2 E2]];
    destruct (fmax_spec lo hi) as [[H3 E3] | [H3 E3]];
    rewrite ?E2, ?E3; lra.
Qed.

Lemma clamp_Qclip lo hi x :
  fmax lo (fmin hi x) == Qmax lo (Qmin hi x).
Proof. rewrite fmax_Qmax. rewrite (fmin_Qmin hi x). reflexivity. Qed.

End FloatFacts.

(** ** Feature vector *)

Lemma to_vector_length (f : Aggregator.AggregatedFeatures) :
  List.length (Aggregator.to_vector f) = 43%nat.
Proof. reflexivity. Qed.

(** C1.  Every feature record serialises to a vector of exactly 43
    numbers, one per feature name, and position by position the vector
    holds the quantity that the artifact contract names there. *)
Theorem to_vector_length_and_order (f : Aggregator.AggregatedFeatures) :
  List.length (Aggregator.to_vector f) = 43%nat
  /\ List.length Aggregator.feature_names = 43%nat
  /\ NoDup Aggregator.feature_names
  /\ zip Aggregator.feature_names (Aggregator.to_vector f)
     = Aggregator.contract_layout f.
Proof.
  split; [apply to_vector_length |].
  split; [reflexivity |].
  split; [| reflexivity].
  apply (bool_decide_unpack _). vm_compute. reflexivity.
Qed.

(** The two extractor paths produce such records. *)
Corollary extract_from_trace_vector `{RT : PyRuntime}
    (A : Aggregator.FeatureAggregator) (trace : TransactionTrace) f :
  Aggregator.extract_from_trace A trace = Ok f ->
  List.length (Aggregator.to_vector f) = 43%nat.
Proof. intros _. apply to_vector_length. Qed.

Corollary extract_from_pending_vector
    (A : Aggregator.FeatureAggregator) (tx : Mempool.PendingTransaction) f :
  Aggregator.extract_from_pending A tx = Ok f ->
  List.length (Aggregator.to_vector f) = 43%nat.
Proof. intros _. apply to_vector_length. Qed.

(** A transaction that carries a destination always yields a record. *)
Lemma extract_from_trace_returns `{RT : PyRuntime}
    (A : Aggregator.FeatureAggregator) (trace : TransactionTrace) :
  is_Some (to_address trace) ->
  exists f, Aggregator.extract_from_trace A trace = Ok f.
Proof.
  intros [a Ha]. unfold Aggregator.extract_from_trace. rewrite Ha.
  eexists. reflexivity.
Qed.

(** ** Protocol filter *)

Lemma calculate_risk_adjustment_bounds protocol operation known_protocol
    known_operation within_bounds features :
  (-0.5 <= ProtocolFilter._calculate_risk_adjustment protocol operation
             known_protocol known_operation within_bounds features
   <= 0.5)%Q.
Proof.
  unfold ProtocolFilter._calculate_risk_adjustment.
  apply clamp_bounds. lra.
Qed.

Lemma context_risk_adjustment_bounds F features to input :
  (-0.5 <= ProtocolFilter.risk_adjustment
             (ProtocolFilter.get_context F features to input)
   <= 0.5)%Q.
Proof.
  unfold ProtocolFilter.get_context.
  destruct (ProtocolFilter.check_bounds _ _ _) as [within violations].
  cbn [ProtocolFilter.risk_adjustment].
  apply calculate_risk_adjustment_bounds.
Qed.

Lemma filter_adjusted_score F features raw to input :
  let r := ProtocolFilter.filter F features raw to input in
  let adjustment :=
    ProtocolFilter.risk_adjustment (ProtocolFilter.context r) in
  (ProtocolFilter.adjusted_risk_score r
   == Qmax 0 (Qmin 1 (raw + adjustment * raw)))%Q
  /\ (0 <= ProtocolFilter.adjusted_risk_score r <= 1)%Q.
Proof.
  cbn. split; [apply clamp_Qclip | apply clamp_bounds; lra].
Qed.

(** C5.  The protocol-filter adjustment lies in [-0.5, 0.5] for every
    input; the filter computes the adjusted score as
    [clip(raw + adjustment * raw, 0, 1)], which lies in [0, 1]. *)
Theorem risk_adjustment_and_adjusted_score_bounds :
  (forall protocol operation known_protocol known_operation within_bounds
          features,
     (-0.5 <= ProtocolFilter._calculate_risk_adjustment protocol operation
               known_protocol known_operation within_bounds features
      <= 0.5)%Q)
  /\ (forall F features raw to input,
        let r := ProtocolFilter.filter F features raw to input in
        let adjustment :=
          ProtocolFilter.risk_adjustment (ProtocolFilter.context r) in
        (-0.5 <= adjustment <= 0.5)%Q
        /\ (ProtocolFilter.adjusted_risk_score r
            == Qmax 0 (Qmin 1 (raw + adjustment * raw)))%Q
        /\ (0 <= ProtocolFilter.adjusted_risk_score r <= 1)%Q).
Proof.
  split; [exact calculate_risk_adjustment_bounds |].
  intros F features raw to input r adjustment.
  split; [apply context_risk_adjustment_bounds |].
  apply filter_adjusted_score.
Qed.

(** ** Heuristic filter *)

(** C7.  When the bytecode record matches a known exploit the heuristic
    filter answers SUSPICIOUS with confidence 0.95 and [should_analyze]
    true, whatever the other indicators are and however many there are. *)
Theorem known_exploit_short_circuit (features : Aggregator.AggregatedFeatures) :
  Bytecode.matches_known_exploit (Aggregator.bytecode features) = true ->
  let r := Heuristics.filter_with_features features in
  Heuristics.result r = Heuristics.SUSPICIOUS
  /\ Heuristics.confidence r = 0.95%Q
  /\ Heuristics.should_analyze r = true
  /\ Heuristics.risk_indicators r
     = Heuristics.indicators_before_exploit features
       ++ ["matches_known_exploit"].
Proof.
  intros H. unfold Heuristics.filter_with_features. rewrite H.
  repeat split.
Qed.

(** A record with the exploit match as its only indicator: the
    indicator-count table would answer UNKNOWN with confidence 0.5. *)
Lemma known_exploit_short_circuit_witness :
  let r := Heuristics.filter_with_features Examples.exploit_features in
  Heuristics.result r = Heuristics.SUSPICIOUS
  /\ Heuristics.confidence r = 0.95%Q
  /\ Heuristics.should_analyze r = true
  /\ Heuristics.risk_indicators r = ["matches_known_exploit"].
Proof.
  exact (known_exploit_short_circuit Examples.exploit_features eq_refl).
Defined.

(** ** Pending transactions *)

(** C8, as the code has it.  A pending transaction is a simple transfer
    exactly when its calldata is empty, that is ["0x"] or the empty
    string; the destination is not looked at. *)
Theorem is_simple_transfer_iff_empty_input (tx : Mempool.PendingTransaction) :
  Mempool.is_simple_transfer tx = true
  <-> Mempool.input_data tx = "0x" \/ Mempool.input_data tx = "".
Proof.
  unfold Mempool.is_simple_transfer.
  rewrite orb_true_iff, !String.eqb_eq. reflexivity.
Qed.

(** A contract creation with empty calldata is a simple transfer although
    it has no destination. *)
Lemma is_simple_transfer_without_destination :
  ~ (Mempool.is_simple_transfer Examples.empty_creation = true
     <-> is_Some (Mempool.to_address Examples.empty_creation)
         /\ (Mempool.input_data Examples.empty_creation = "0x"
             \/ Mempool.input_data Examples.empty_creation = "")).
Proof.
  intros [H _]. destruct (H eq_refl) as [[a Ha] _]. discriminate Ha.
Qed.

(** ** Anomaly detector *)

(** C9.  A loaded detector publishes the score
    [clip(0.5 - d(x)/2, 0, 1)], where [d] is the fitted scorer's decision
    function on the standardised vector; it flags an anomaly exactly when
    the score reaches the threshold; its confidence is
    [min(0.5 + |score - threshold|, 1)]; the default threshold is 0.65. *)
Theorem predict_score_flag_and_confidence
    (D : IsolationForest.IsolationForestDetector)
    (m : IsolationForest.IsolationForest)
    (sc : IsolationForest.StandardScaler)
    (features : Aggregator.AggregatedFeatures) :
  IsolationForest.is_trained D = true ->
  IsolationForest.model D = Some m ->
  IsolationForest.scaler D = Some sc ->
  let d :=
    IsolationForest.decision_function m
      (IsolationForest.transform sc (Aggregator.to_vector features)) in
  exists r,
    IsolationForest.predict D features = Ok r
    /\ (IsolationForest.anomaly_score r == Qmax 0 (Qmin 1 (0.5 - d / 2)))%Q
    /\ (IsolationForest.is_anomaly r = true
        <-> (IsolationForest.threshold D <= IsolationForest.anomaly_score r)%Q)
    /\ (IsolationForest.confidence r
        == Qmin (0.5 + Qabs (IsolationForest.anomaly_score r
                             - IsolationForest.threshold D)) 1)%Q
    /\ IsolationForest.threshold IsolationForest.new_detector = 0.65%Q.
Proof.
  intros Ht Hm Hs d. unfold IsolationForest.predict. rewrite Ht, Hm, Hs.
  eexists. split; [reflexivity |]. cbn.
  split; [apply clamp_Qclip |].
  split; [apply geb_true |].
  split; [| reflexivity].
  unfold IsolationForest._calculate_confidence.
  rewrite fmin_Qmin. rewrite fabs_Qabs. reflexivity.
Qed.

(** A detector whose scorer answers [-0.4]: the score is 0.7, at least the
    default threshold, with confidence 0.55. *)
Lemma predict_score_flag_and_confidence_witness :
  exists r,
    IsolationForest.predict (Examples.detector (-0.4)%Q)
      Examples.exploit_features = Ok r
    /\ (IsolationForest.anomaly_score r == 0.7)%Q
    /\ IsolationForest.is_anomaly r = true
    /\ (IsolationForest.confidence r == 0.55)%Q.
Proof.
  destruct (predict_score_flag_and_confidence (Examples.detector (-0.4)%Q) _ _
              Examples.exploit_features eq_refl eq_refl eq_refl)
    as (r & Hr & Hs & Ha & Hc & _).
  exists r. split; [exact Hr |].
  injection Hr as <-. repeat split; reflexivity.
Defined.

(** ** Flash-loan extractor *)

(** C10.  Whenever a flash-loan signal fires, the extractor also sets
    [has_callback], also when no callback selector was seen. *)
Theorem has_flash_loan_implies_has_callback `{RT : PyRuntime}
    (trace : TransactionTrace) :
  FlashLoan.has_flash_loan (FlashLoan.extract trace) = true ->
  FlashLoan.has_callback (FlashLoan.extract trace) = true.
Proof.
  unfold FlashLoan.extract. cbn [FlashLoan.has_flash_loan FlashLoan.has_callback].
  intros ->. apply orb_true_r.
Qed.

(** A flash-loan selector in the outer calldata, no call tree and no
    callback selector. *)
Lemma has_flash_loan_implies_has_callback_witness :
  let r := FlashLoan.extract (RT := Reference.runtime) Examples.flash_trace in
  FlashLoan.has_flash_loan r = true
  /\ FlashLoan.callback_selectors r = []
  /\ FlashLoan.has_callback r = true.
Proof.
  split; [reflexivity |]. split; [reflexivity |].
  apply (has_flash_loan_implies_has_callback (RT := Reference.runtime)
           Examples.flash_trace).
  reflexivity.
Defined.

(** ** Signal engine *)

(** The dataclass constructor refuses a call that leaves out [protocol]. *)
Lemma RiskSignal_init_without_protocol (a : Signal.RiskSignalArgs) :
  Signal.a_protocol a = None ->
  exists e, Signal.RiskSignal_init a = Raise e.
Proof.
  intros H. unfold Signal.RiskSignal_init. rewrite H.
  repeat match goal with
         | |- context [Signal.required ?o] =>
             destruct o; cbn; try (eexists; reflexivity)
         end.
Qed.

(** C2.  The synchronous [analyze] builds its signal without the four
    protocol fields of the dataclass, so the constructor raises
    [TypeError]: on the plain transfer trace, and on every other input,
    the call hands no signal back. *)
Theorem analyze_never_returns_a_signal :
  Signal.analyze (RT := Reference.runtime) Examples.engine
    Examples.empty_trace Examples.clock = Raise TypeError
  /\ forall (RT : PyRuntime) E trace clock,
       Signal.emitted (Signal.analyze E trace clock) = None.
Proof.
  split; [vm_compute; reflexivity |].
  intros RT E trace clock. unfold Signal.analyze.
  destruct (Aggregator.extract_from_trace _ _) as [features | e];
    [| reflexivity].
  cbn [mbind result_bind Py.bind].
  destruct (Signal.run_detector E features) as [ml | e]; [| reflexivity].
  cbn [mbind result_bind Py.bind].
  destruct (Signal._compute_risk _ ml) as [[level score] confidence].
  match goal with
  | |- context [Signal.RiskSignal_init ?a] =>
      destruct (RiskSignal_init_without_protocol a eq_refl) as [e ->]
  end.
  reflexivity.
Qed.

(** The score returned by [_compute_risk]: the weighted sum, with the
    heuristic term [#indicators / 10] left as it is, cut at 1. *)
Lemma compute_risk_score heuristic ml_result :
  let n := len (Heuristics.risk_indicators heuristic) in
  let score := (Signal._compute_risk heuristic ml_result).1.2 in
  (score ==
   Qmin match ml_result with
        | Some ml =>
            0.4 * (float n / 10) + 0.6 * IsolationForest.anomaly_score ml
        | None => float n / 10
        end 1)%Q
  /\ (score <= 1)%Q.
Proof.
  intros n score. subst score. unfold Signal._compute_risk. fold n.
  clearbody n.
  destruct ml_result as [ml |]; cbn [fst snd];
    (split; [apply fmin_Qmin |]);
    match goal with
    | |- (fmin ?x 1 <= 1)%Q =>
        destruct (fmin_spec x 1) as [[H ->] | [H ->]]; lra
    end.
Qed.

(** With at most ten indicators and a sub-score of at most 1 the score is
    the plain weighted sum. *)
Lemma compute_risk_score_up_to_ten heuristic ml :
  let n := len (Heuristics.risk_indicators heuristic) in
  n <= 10 ->
  (IsolationForest.anomaly_score ml <= 1)%Q ->
  ((Signal._compute_risk heuristic (Some ml)).1.2
   == 0.4 * (float (Z.min n 10) / 10)
      + 0.6 * IsolationForest.anomaly_score ml)%Q.
Proof.
  intros n Hn Hs. rewrite Z.min_l by exact Hn.
  destruct (compute_risk_score heuristic (Some ml)) as [-> _]. fold n.
  clearbody n.
  assert (float n <= 10)%Q.
  { unfold float. change 10%Q with (inject_Z 10). by rewrite <- Zle_Qle. }
  apply Q.min_l. unfold Qdiv. change (/ 10)%Q with (1 # 10)%Q. lra.
Qed.

(** C3, at an input where the code departs from it.  On the busy trace
    the heuristic filter reports eleven indicators and the detector a
    sub-score of 0.5; signal fusion returns 0.4 * 1.1 + 0.6 * 0.5 = 0.74,
    not 0.4 * (min(11, 10) / 10) + 0.6 * 0.5 = 0.70. *)
Theorem compute_risk_heuristic_term_not_capped :
  match Signal.emitted
          (Signal.analyze_async (RT := Reference.runtime)
             Examples.engine_with_detector Examples.busy_trace Examples.clock)
  with
  | Some s =>
      len (Signal.risk_indicators s) = 11
      /\ (Signal.ml_score s == 0.5)%Q
      /\ (Signal.raw_risk_score s == 0.74)%Q
      /\ ~ (Signal.raw_risk_score s
            == 0.4 * (float (Z.min (len (Signal.risk_indicators s)) 10) / 10)
               + 0.6 * Signal.ml_score s)%Q
  | None => False
  end.
Proof.
  vm_compute. repeat split; try reflexivity. intros H. discriminate H.
Qed.

(** The five bands of [_score_to_level]. *)
Lemma score_to_level_bands score heuristic ml_result :
  let level := Signal._score_to_level score heuristic ml_result in
  ((0.7 <= score)%Q -> level = Signal.CRITICAL)
  /\ ((0.5 <= score < 0.7)%Q -> level = Signal.HIGH)
  /\ ((0.35 <= score < 0.5)%Q -> level = Signal.MEDIUM)
  /\ ((0.2 <= score < 0.35)%Q -> level = Signal.LOW)
  /\ ((score < 0.2)%Q -> level = Signal.SAFE).
Proof.
  unfold Signal._score_to_level.
  destruct (geb score 0.7) eqn:E1;
    [apply geb_true in E1 | apply geb_false in E1];
    (destruct (geb score 0.5) eqn:E2;
       [apply geb_true in E2 | apply geb_false in E2]);
    (destruct (geb score 0.35) eqn:E3;
       [apply geb_true in E3 | apply geb_false in E3]);
    (destruct (geb score 0.2) eqn:E4;
       [apply geb_true in E4 | apply geb_false in E4]);
    repeat split; intros; first [reflexivity | lra].
Qed.

(** What [analyze_async] hands back when the protocol filter is enabled. *)
Lemma analyze_async_with_filter `{RT : PyRuntime} E F trace clock s E' :
  Signal.protocol_filter E = Some F ->
  Signal.analyze_async E trace clock = Ok (s, E') ->
  exists features heuristic ml_result,
    let r :=
      ProtocolFilter.filter F features (Signal.raw_risk_score s)
        (to_address trace) (input_data trace) in
    Signal.risk_score s = ProtocolFilter.adjusted_risk_score r
    /\ Signal.risk_adjustment s
       = ProtocolFilter.risk_adjustment (ProtocolFilter.context r)
    /\ Signal.risk_level s
       = Signal._score_to_level (Signal.risk_score s) heuristic ml_result.
Proof.
  intros HF. unfold Signal.analyze_async. rewrite HF.
  destruct (Aggregator.extract_from_trace _ _) as [features | e];
    [| discriminate].
  cbn [mbind result_bind Py.bind].
  destruct (Signal.run_detector E features) as [ml | e]; [| discriminate].
  cbn [mbind result_bind Py.bind].
  destruct (Signal._compute_risk _ ml) as [[level raw] confidence].
  cbn. intros [= <- _].
  exists features, (Heuristics.filter_with_features features), ml.
  cbn. repeat split.
Qed.

(** What it hands back when the filter is disabled: the level chosen by
    the cascade of [_compute_risk] and the raw score. *)
Lemma analyze_async_without_filter `{RT : PyRuntime} E trace clock s E' :
  Signal.protocol_filter E = None ->
  Signal.analyze_async E trace clock = Ok (s, E') ->
  exists heuristic ml_result,
    Signal.risk_level s = (Signal._compute_risk heuristic ml_result).1.1
    /\ Signal.risk_score s = (Signal._compute_risk heuristic ml_result).1.2
    /\ Signal.risk_score s = Signal.raw_risk_score s.
Proof.
  intros HF. unfold Signal.analyze_async. rewrite HF.
  destruct (Aggregator.extract_from_trace _ _) as [features | e];
    [| discriminate].
  cbn [mbind result_bind Py.bind].
  destruct (Signal.run_detector E features) as [ml | e]; [| discriminate].
  cbn [mbind result_bind Py.bind].
  destruct (Signal._compute_risk _ ml) as [[level raw] confidence] eqn:HC.
  cbn. intros [= <- _].
  exists (Heuristics.filter_with_features features), ml.
  rewrite HC. cbn. repeat split.
Qed.

Lemma emitted_Some r s :
  Signal.emitted r = Some s -> exists E', r = Ok (s, E').
Proof.
  destruct r as [[s0 E'] | e]; cbn; [| discriminate].
  intros [= ->]. by exists E'.
Qed.

(** C4, as the code has it.  When the protocol filter is enabled, the
    signal's score is [clip(raw + adjustment * raw, 0, 1)] and its level
    is read off that score: at least 0.70 CRITICAL, at least 0.50 HIGH,
    at least 0.35 MEDIUM, at least 0.20 LOW, otherwise SAFE. *)
Theorem final_level_from_adjusted_score `{RT : PyRuntime}
    (E : Signal.SignalEngine) (F : ProtocolFilter.ProtocolFilter)
    (trace : TransactionTrace) (clock : Signal.Clock)
    (s : Signal.RiskSignal) :
  Signal.protocol_filter E = Some F ->
  Signal.emitted (Signal.analyze_async E trace clock) = Some s ->
  let score := Signal.risk_score s in
  let level := Signal.risk_level s in
  (score == Qmax 0 (Qmin 1 (Signal.raw_risk_score s
                            + Signal.risk_adjustment s
                              * Signal.raw_risk_score s)))%Q
  /\ ((0.7 <= score)%Q -> level = Signal.CRITICAL)
  /\ ((0.5 <= score < 0.7)%Q -> level = Signal.HIGH)
  /\ ((0.35 <= score < 0.5)%Q -> level = Signal.MEDIUM)
  /\ ((0.2 <= score < 0.35)%Q -> level = Signal.LOW)
  /\ ((score < 0.2)%Q -> level = Signal.SAFE).
Proof.
  intros HF HA score level.
  apply emitted_Some in HA as [E' HA].
  destruct (analyze_async_with_filter E F trace clock s E' HF HA)
    as (features & heuristic & ml & Hs & Ha & Hl).
  split.
  - subst score. rewrite Hs, Ha.
    apply (filter_adjusted_score F features (Signal.raw_risk_score s)).
  - subst level. rewrite Hl. apply score_to_level_bands.
Qed.

(** The flash-loan trace under the default engine: no protocol or
    operation is recognised, the flash loan raises the raw 0.3 by 35 %
    to 0.405, which reads MEDIUM. *)
Lemma final_level_from_adjusted_score_witness :
  exists s,
    Signal.emitted
      (Signal.analyze_async (RT := Reference.runtime) Examples.engine
         Examples.flash_trace Examples.clock) = Some s
    /\ (Signal.raw_risk_score s == 0.3)%Q
    /\ (Signal.risk_adjustment s == 0.35)%Q
    /\ (Signal.risk_score s == 0.405)%Q
    /\ Signal.risk_level s = Signal.MEDIUM.
Proof.
  eexists.
  split; [vm_compute; reflexivity |].
  split; [reflexivity |]. split; [reflexivity |]. split; [reflexivity |].
  eapply (final_level_from_adjusted_score (RT := Reference.runtime)
            Examples.engine ProtocolFilter.default_filter
            Examples.flash_trace Examples.clock).
  - reflexivity.
  - vm_compute; reflexivity.
  - split; [intros H; vm_compute in H; discriminate H | reflexivity].
Defined.

(** C4 fails with the protocol filter disabled: the flash-loan trace gets
    the raw score 0.3, in the LOW band, and the level MEDIUM chosen by the
    cascade (heuristic SUSPICIOUS alone). *)
Lemma final_level_without_protocol_filter :
  match Signal.emitted
          (Signal.analyze_async (RT := Reference.runtime)
             Examples.engine_without_filter Examples.flash_trace
             Examples.clock)
  with
  | Some s =>
      (0.2 <= Signal.risk_score s < 0.35)%Q
      /\ Signal.risk_level s = Signal.MEDIUM
      /\ Signal.risk_level s <> Signal.LOW
  | None => False
  end.
Proof.
  vm_compute. repeat split; try reflexivity; intros H; discriminate H.
Qed.

(** ** Risk indicators *)

Lemma flag_sublist_cons c s (l k : list string) :
  l `sublist_of` k -> Heuristics.flag c s ++ l `sublist_of` s :: k.
Proof.
  intros H. destruct c; cbn; [by apply sublist_skip | by apply sublist_cons].
Qed.

Lemma flag_sublist_last c s (k : list string) :
  Heuristics.flag c s `sublist_of` s :: k.
Proof.
  destruct c; cbn; [apply sublist_skip |]; apply sublist_nil_l.
Qed.

Ltac flags_in_order :=
  repeat first
    [ apply sublist_nil_l
    | apply flag_sublist_last
    | apply flag_sublist_cons
    | apply sublist_skip
    | apply sublist_cons ].

Lemma indicators_before_exploit_in_order features :
  Heuristics.indicators_before_exploit features
  `sublist_of` take 7 Heuristics.feature_check_order.
Proof.
  unfold Heuristics.indicators_before_exploit.
  destruct (FlashLoan.has_flash_loan _);
    cbn [app take Heuristics.feature_check_order];
    rewrite <- ?app_assoc; cbn [app]; flags_in_order.
Qed.

Lemma indicators_after_exploit_in_order features :
  Heuristics.indicators_after_exploit features
  `sublist_of` drop 8 Heuristics.feature_check_order.
Proof.
  unfold Heuristics.indicators_after_exploit.
  cbn [drop Heuristics.feature_check_order].
  flags_in_order.
Qed.

(** The indicators of [filter_with_features] follow the order of its
    checks. *)
Lemma filter_with_features_in_order features :
  Heuristics.risk_indicators (Heuristics.filter_with_features features)
  `sublist_of` Heuristics.feature_check_order.
Proof.
  change Heuristics.feature_check_order
    with (take 7 Heuristics.feature_check_order
          ++ ["matches_known_exploit"]
          ++ drop 8 Heuristics.feature_check_order).
  unfold Heuristics.filter_with_features.
  destruct (Bytecode.matches_known_exploit _); cbn [Heuristics.risk_indicators].
  - apply sublist_app; [apply indicators_before_exploit_in_order |].
    apply sublist_inserts_r. reflexivity.
  - destruct (len _ =? 0); cbn [Heuristics.risk_indicators];
      [apply sublist_nil_l |].
    assert (Heuristics.indicators_before_exploit features
            ++ Heuristics.indicators_after_exploit features
            `sublist_of` take 7 Heuristics.feature_check_order
                         ++ ["matches_known_exploit"]
                         ++ drop 8 Heuristics.feature_check_order).
    { apply sublist_app; [apply indicators_before_exploit_in_order |].
      apply sublist_cons, indicators_after_exploit_in_order. }
    destruct (3 <=? len _); exact H.
Qed.

(** So do the indicators of [filter]. *)
Lemma filter_in_order H tx :
  Heuristics.risk_indicators (Heuristics.filter H tx)
  `sublist_of` Heuristics.pending_check_order.
Proof.
  unfold Heuristics.filter.
  destruct (Mempool.is_simple_transfer tx); [apply sublist_nil_l |].
  match goal with
  | |- context [bool_decide (?l = [])] =>
      assert (Hl : l `sublist_of` Heuristics.pending_check_order)
  end.
  { unfold Heuristics.pending_check_order. flags_in_order. }
  destruct (_ && _); [apply sublist_nil_l |].
  destruct (2 <=? _); exact Hl.
Qed.

Lemma check_orders_NoDup :
  NoDup (Heuristics.pending_check_order ++ Heuristics.feature_check_order
         ++ ["simulation_timeout"; "simulation_error"]).
Proof. apply (bool_decide_unpack _). vm_compute. reflexivity. Qed.

Lemma set_iter_list_to_set `{RT : PyRuntime} (l : list string) :
  NoDup l -> set_iter (list_to_set l) ≡ₚ l.
Proof.
  intros Hl. apply NoDup_Permutation; [apply set_iter_NoDup | exact Hl |].
  intros x. rewrite set_iter_elem_of. apply elem_of_list_to_set.
Qed.

(** [all_indicators] holds the tags of the two passes and the simulation
    tags, each once, in an order that the set decides. *)
Lemma all_indicators_permutation `{RT : PyRuntime} H tx features t e :
  let h1 := Heuristics.risk_indicators (Heuristics.filter H tx) in
  let h2 :=
    Heuristics.risk_indicators (Heuristics.filter_with_features features) in
  let ordered :=
    h1 ++ h2 ++ Heuristics.flag t "simulation_timeout"
    ++ Heuristics.flag e "simulation_error" in
  NoDup ordered /\ Inference.all_indicators h1 h2 t e ≡ₚ ordered.
Proof.
  intros h1 h2 ordered.
  assert (Hord : NoDup ordered).
  { eapply sublist_NoDup; [apply check_orders_NoDup |].
    subst ordered. apply sublist_app; [apply filter_in_order |].
    apply sublist_app; [apply filter_with_features_in_order |].
    flags_in_order. }
  split; [exact Hord |].
  unfold Inference.all_indicators. subst ordered.
  rewrite app_assoc in Hord. apply NoDup_app in Hord as [Hh _].
  rewrite (set_iter_list_to_set _ Hh), <- app_assoc. reflexivity.
Qed.

Lemma feature_check_order_NoDup : NoDup Heuristics.feature_check_order.
Proof.
  pose proof check_orders_NoDup as H.
  apply NoDup_app in H as (_ & _ & H). by apply NoDup_app in H as (H & _).
Qed.

(** C6, as the code has it.  Every emitted indicator list is free of
    duplicates.  The list of [filter_with_features], which a trace
    analysis hands back unchanged, follows the fixed order of the checks.
    The list of a pending-transaction analysis holds the tags of both
    heuristic passes and the simulation tags, each once: it is a
    rearrangement of the list in check order, the order of the heuristic
    tags being the one in which the run time iterates a set. *)
Theorem risk_indicators_duplicate_free `{RT : PyRuntime} :
  (forall features,
     Heuristics.risk_indicators (Heuristics.filter_with_features features)
     `sublist_of` Heuristics.feature_check_order)
  /\ (forall E trace latency,
        let l :=
          Inference.emitted_indicators
            (Inference.analyze_trace E trace latency) in
        NoDup l /\ l `sublist_of` Heuristics.feature_check_order)
  /\ (forall E tx sim latency,
        let l :=
          Inference.emitted_indicators (Inference.analyze E tx sim latency) in
        NoDup l /\ l ≡ₚ Inference.indicators_in_check_order E tx sim).
Proof.
  split; [exact filter_with_features_in_order |]. split.
  - intros E trace latency l.
    assert (Hl : l `sublist_of` Heuristics.feature_check_order).
    { subst l. unfold Inference.analyze_trace.
      destruct (Aggregator.extract_from_trace _ _) as [features | e];
        [| apply sublist_nil_l].
      cbn [mbind result_bind Py.bind].
      destruct (Inference.run_detector E features) as [ml | e];
        [| apply sublist_nil_l].
      cbn [mbind result_bind Py.bind].
      destruct (Inference._make_decision _ _ _) as [[? ?] ?].
      apply filter_with_features_in_order. }
    split; [| exact Hl].
    eapply sublist_NoDup; [apply feature_check_order_NoDup | exact Hl].
  - intros E tx sim latency l. subst l.
    unfold Inference.analyze, Inference.indicators_in_check_order.
    destruct (_ && _); [split; [constructor | reflexivity] |].
    destruct (Aggregator.extract_from_pending _ _) as [features | e];
      [| split; [constructor | reflexivity]].
    cbn [mbind result_bind Py.bind].
    destruct (Inference.simulate E sim features) as [[features' t] e].
    destruct (Inference.run_detector E features') as [ml | err];
      [| split; [constructor | reflexivity]].
    cbn [mbind result_bind Py.bind].
    destruct (Inference._make_decision _ _ _) as [[? ?] ?].
    cbn [Inference.emitted_indicators Inference.risk_indicators].
    destruct (all_indicators_permutation (Inference.heuristic_filter E) tx
                features' t e) as [Hnd Hperm].
    split; [by rewrite Hperm | exact Hperm].
Qed.

(** C6 fails on the order: for the flash-loan transaction the two passes
    produce [suspicious_selector; high_gas_limit] and
    [flash_loan_detected; new_contract], and the emitted list is the
    iteration order of the set built from them, which the reference run
    time does not keep in check order. *)
Lemma risk_indicators_not_in_check_order :
  ~ (forall RT : PyRuntime,
       Inference.emitted_indicators
         (Inference.analyze (RT := RT) Examples.inference_engine
            Examples.flash_pending (Inference.replayed None) 1%Q)
       = Inference.indicators_in_check_order (RT := RT)
           Examples.inference_engine Examples.flash_pending
           (Inference.replayed None)).
Proof.
  intros H. specialize (H Reference.runtime).
  vm_compute in H. discriminate H.
Qed.

(** * Further properties of the code *)

(** ** Pending transactions *)

Lemma length_substring_prefix (n : nat) (s : string) :
  String.length (substring 0 n s) = Nat.min n (String.length s).
Proof.
  revert s. induction n as [| n IH]; intros [| c s]; cbn; try reflexivity.
  by rewrite IH.
Qed.

(** X1.  The derived predicates of a pending transaction: a simple
    transfer is neither a contract interaction nor a contract creation and
    has no selector; interaction and creation exclude each other; a
    selector, when there is one, is the first ten characters of the
    calldata. *)
Theorem pending_predicates_exclusive (tx : Mempool.PendingTransaction) :
  (Mempool.is_simple_transfer tx = true ->
   Mempool.is_contract_interaction tx = false
   /\ Mempool.is_contract_creation tx = false
   /\ Mempool.selector tx = None)
  /\ (Mempool.is_contract_interaction tx = true ->
      Mempool.is_contract_creation tx = false)
  /\ (forall s, Mempool.selector tx = Some s ->
      String.length s = 10%nat
      /\ s = substring 0 10 (Mempool.input_data tx)
      /\ Mempool.is_simple_transfer tx = false).
Proof.
  unfold Mempool.is_simple_transfer, Mempool.is_contract_interaction,
    Mempool.is_contract_creation, Mempool.selector, strlen, slice.
  repeat split.
  - apply orb_true_iff in H as [H | H]; apply String.eqb_eq in H;
      rewrite H; cbn; apply andb_false_r.
  - apply orb_true_iff in H as [H | H]; apply String.eqb_eq in H;
      rewrite H; cbn; apply andb_false_r.
  - apply orb_true_iff in H as [H | H]; apply String.eqb_eq in H;
      rewrite H; reflexivity.
  - intros H. apply andb_true_iff in H as [H _].
    apply bool_decide_eq_true in H as [a Ha]. rewrite Ha. reflexivity.
  - destruct (10 <=? _) eqn:E; [| discriminate]. injection H as <-.
    apply Z.leb_le in E. rewrite length_substring_prefix. lia.
  - destruct (10 <=? _); [| discriminate]. by injection H as <-.
  - destruct (10 <=? _) eqn:E; [| discriminate]. apply Z.leb_le in E.
    apply orb_false_iff. split; apply String.eqb_neq; intros Heq;
      rewrite Heq in E; cbn in E; lia.
Qed.

(** ** Heuristic filter *)

Lemma flag_length c s : len (Heuristics.flag c s) = if c then 1 else 0.
Proof. by destruct c. Qed.

Lemma len_app {A} (l k : list A) : len (l ++ k) = len l + len k.
Proof. unfold len. rewrite length_app. lia. Qed.

Lemma sublist_len {A} (l k : list A) : l `sublist_of` k -> len l <= len k.
Proof. intros H. apply sublist_length in H. unfold len. lia. Qed.

(** The first pass skips the analysis exactly for a SAFE verdict, whose
    confidence is 0.99 or 0.9. *)
Lemma filter_safe_iff H tx :
  let r := Heuristics.filter H tx in
  (Heuristics.result r = Heuristics.SAFE ->
   Heuristics.should_analyze r = false)
  /\ (Heuristics.result r = Heuristics.SAFE ->
      Heuristics.confidence r = 0.99%Q \/ Heuristics.confidence r = 0.9%Q).
Proof.
  cbv zeta. unfold Heuristics.filter.
  destruct (Mempool.is_simple_transfer tx); [cbn; by auto |].
  destruct (_ && _); [cbn; by auto |].
  destruct (2 <=? _); cbn; split; discriminate.
Qed.

(** X2.  The verdict of [filter] on a pending transaction: analysis is
    skipped exactly for SAFE; a SAFE verdict carries no indicator, a
    SUSPICIOUS one between two and four, an UNKNOWN one at most one; the
    confidence is 0.99 or 0.9 for SAFE, 0.7 for SUSPICIOUS and 0.5 for
    UNKNOWN. *)
Theorem filter_verdict_invariants (H : Heuristics.HeuristicFilter)
    (tx : Mempool.PendingTransaction) :
  let r := Heuristics.filter H tx in
  let n := len (Heuristics.risk_indicators r) in
  (Heuristics.should_analyze r = false <-> Heuristics.result r = Heuristics.SAFE)
  /\ match Heuristics.result r with
     | Heuristics.SAFE =>
         Heuristics.risk_indicators r = []
         /\ (Heuristics.confidence r = 0.99%Q \/ Heuristics.confidence r = 0.9%Q)
     | Heuristics.SUSPICIOUS =>
         2 <= n <= 4 /\ Heuristics.confidence r = 0.7%Q
     | Heuristics.UNKNOWN =>
         n <= 1 /\ Heuristics.confidence r = 0.5%Q
     end.
Proof.
  pose proof (filter_in_order H tx) as Hsub. apply sublist_len in Hsub.
  change (len Heuristics.pending_check_order) with 4 in Hsub.
  revert Hsub. unfold Heuristics.filter.
  destruct (Mempool.is_simple_transfer tx); [cbn; intuition |].
  destruct (_ && _); [cbn; intuition |].
  destruct (2 <=? _) eqn:E; cbn [Heuristics.risk_indicators Heuristics.result
    Heuristics.should_analyze Heuristics.confidence]; intros Hsub.
  - apply Z.leb_le in E. intuition; discriminate.
  - apply Z.leb_gt in E. intuition; try discriminate; lia.
Qed.

(** X3.  [quick_filter] never asks for the analysis of a transaction that
    [filter] declares SAFE. *)
Theorem quick_filter_agrees_with_safe (H : Heuristics.HeuristicFilter)
    (tx : Mempool.PendingTransaction) :
  Heuristics.result (Heuristics.filter H tx) = Heuristics.SAFE ->
  Heuristics.quick_filter H tx = false.
Proof.
  unfold Heuristics.filter, Heuristics.quick_filter.
  destruct (Mempool.is_simple_transfer tx); [reflexivity |].
  destruct (Mempool.gas tx <? Heuristics.max_safe_gas H); [reflexivity |].
  cbn [andb Heuristics.flag app].
  set (w := match Mempool.to_address tx with Some _ => _ | None => _ end).
  set (s := match Mempool.selector tx with
            | Some s => truthy s && bool_decide (s ∈ Heuristics.safe_selectors H)
            | None => false
            end).
  destruct w, s; cbn [Heuristics.flag app andb]; try reflexivity;
    match goal with
    | |- context [2 <=? len ?l] =>
        match l with
        | context [Heuristics.flag] => fail 1
        | _ => change (2 <=? len l) with false
        end
    end;
    cbn [andb]; destruct (2 <=? _); cbn [Heuristics.result]; discriminate.
Qed.

(** A call to a whitelisted token with a safe selector and plenty of gas. *)
Lemma quick_filter_agrees_with_safe_witness :
  Heuristics.result
    (Heuristics.filter Heuristics.default_filter Examples.token_transfer)
  = Heuristics.SAFE
  /\ Heuristics.quick_filter Heuristics.default_filter Examples.token_transfer
     = false.
Proof.
  split; [vm_compute; reflexivity |].
  apply quick_filter_agrees_with_safe. vm_compute. reflexivity.
Defined.

(** X4.  The verdict of [filter_with_features]: SAFE exactly when no
    indicator fired, and only then is analysis skipped; SUSPICIOUS needs
    three indicators or a known-exploit match; UNKNOWN has one or two;
    there are at most fourteen indicators; the confidence lies between
    0.5 and 0.95. *)
Theorem filter_with_features_invariants
    (features : Aggregator.AggregatedFeatures) :
  let r := Heuristics.filter_with_features features in
  let n := len (Heuristics.risk_indicators r) in
  (Heuristics.result r = Heuristics.SAFE <-> Heuristics.risk_indicators r = [])
  /\ (Heuristics.should_analyze r = false
      <-> Heuristics.result r = Heuristics.SAFE)
  /\ (Heuristics.result r = Heuristics.SUSPICIOUS ->
      3 <= n
      \/ Bytecode.matches_known_exploit (Aggregator.bytecode features) = true)
  /\ (Heuristics.result r = Heuristics.UNKNOWN -> 1 <= n <= 2)
  /\ n <= 14
  /\ (0.5 <= Heuristics.confidence r <= 0.95)%Q.
Proof.
  pose proof (indicators_before_exploit_in_order features) as Hb.
  pose proof (indicators_after_exploit_in_order features) as Ha.
  apply sublist_len in Hb, Ha.
  change (len (take 7 Heuristics.feature_check_order)) with 7 in Hb.
  change (len (drop 8 Heuristics.feature_check_order)) with 7 in Ha.
  unfold Heuristics.filter_with_features.
  destruct (Bytecode.matches_known_exploit _).
  - cbn [Heuristics.risk_indicators Heuristics.result
      Heuristics.should_analyze Heuristics.confidence].
    rewrite len_app. change (len ["matches_known_exploit"]) with 1.
    repeat split; try discriminate; try (by right); try lra; try lia.
    intros H%app_eq_nil. destruct H as [_ H]. discriminate.
  - set (l := Heuristics.indicators_before_exploit features
              ++ Heuristics.indicators_after_exploit features).
    assert (Hl : 0 <= len l <= 14).
    { subst l. rewrite len_app. unfold len in *. lia. }
    destruct (len l =? 0) eqn:E0.
    + cbn. repeat split; try discriminate; try lra; try lia.
    + apply Z.eqb_neq in E0.
      assert (Hnil : l <> []) by (intros ->; by apply E0).
      destruct (3 <=? len l) eqn:E3;
        [apply Z.leb_le in E3 | apply Z.leb_gt in E3];
        cbn [Heuristics.risk_indicators Heuristics.result
          Heuristics.should_analyze Heuristics.confidence].
      * repeat split; try discriminate; try (by left); try lia;
          try (intros; contradiction).
        -- destruct (fmin_spec (0.5 + float (len l) * 0.1) 0.95)
             as [[? ->] | [? ->]]; [lra |].
           assert (3 <= float (len l))%Q.
           { unfold float. change 3%Q with (inject_Z 3).
             by rewrite <- Zle_Qle. }
           lra.
        -- destruct (fmin_spec (0.5 + float (len l) * 0.1) 0.95)
             as [[? ->] | [? ->]]; lra.
      * repeat split; try discriminate; try lra; try lia;
          try (intros; contradiction).
Qed.

Lemma float_nonneg n : 0 <= n -> (0 <= float n)%Q.
Proof.
  intros H. unfold float. change 0%Q with (inject_Z 0). by rewrite <- Zle_Qle.
Qed.

Lemma float_le n m : n <= m -> (float n <= float m)%Q.
Proof. intros H. unfold float. by rewrite <- Zle_Qle. Qed.

Lemma len_nonneg {A} (l : list A) : 0 <= len l.
Proof. unfold len. lia. Qed.

(** The confidence of [filter_with_features] and its value from five
    indicators on. *)
Lemma filter_with_features_confidence features :
  let r := Heuristics.filter_with_features features in
  (0.5 <= Heuristics.confidence r <= 0.95)%Q
  /\ (5 <= len (Heuristics.risk_indicators r) ->
      Heuristics.result r = Heuristics.SUSPICIOUS
      /\ Heuristics.confidence r = 0.95%Q)
  /\ (Bytecode.matches_known_exploit (Aggregator.bytecode features) = true ->
      Heuristics.result r = Heuristics.SUSPICIOUS
      /\ Heuristics.confidence r = 0.95%Q).
Proof.
  cbv zeta. unfold Heuristics.filter_with_features.
  destruct (Bytecode.matches_known_exploit _).
  { cbn [Heuristics.risk_indicators Heuristics.result Heuristics.confidence].
    split; [lra |]. split; intros; split; reflexivity. }
  set (l := Heuristics.indicators_before_exploit features
            ++ Heuristics.indicators_after_exploit features).
  pose proof (len_nonneg l) as Hl. clearbody l.
  destruct (len l =? 0) eqn:E0.
  { cbn [Heuristics.risk_indicators Heuristics.result Heuristics.confidence].
    split; [lra |]. split; [intros H; unfold len in H; simpl in H; lia | discriminate]. }
  destruct (3 <=? len l) eqn:E3;
    [apply Z.leb_le in E3 | apply Z.leb_gt in E3];
    cbn [Heuristics.risk_indicators Heuristics.result Heuristics.confidence].
  - pose proof (float_le 3 (len l) E3) as H3. change (float 3) with 3%Q in H3.
    destruct (fmin_spec (0.5 + float (len l) * 0.1) 0.95)
      as [[Hc Ec] | [Hc Ec]]; rewrite Ec.
    + split; [lra |]. split; [intros _; by split | discriminate].
    + split; [lra |]. split; [| discriminate]. intros H5.
      pose proof (float_le 5 (len l) H5) as H5'.
      change (float 5) with 5%Q in H5'. lra.
  - split; [lra |]. split; [intros H; lia | discriminate].
Qed.

(** [filter_with_features] reports at most fourteen indicators. *)
Lemma filter_with_features_count features :
  len (Heuristics.risk_indicators (Heuristics.filter_with_features features))
  <= 14.
Proof.
  pose proof (indicators_before_exploit_in_order features) as Hb.
  pose proof (indicators_after_exploit_in_order features) as Ha.
  apply sublist_len in Hb, Ha.
  change (len (take 7 Heuristics.feature_check_order)) with 7 in Hb.
  change (len (drop 8 Heuristics.feature_check_order)) with 7 in Ha.
  unfold Heuristics.filter_with_features.
  destruct (Bytecode.matches_known_exploit _).
  { cbn [Heuristics.risk_indicators]. rewrite len_app.
    change (len ["matches_known_exploit"]) with 1. lia. }
  destruct (len _ =? 0) eqn:E0; [by vm_compute |].
  destruct (3 <=? len _); cbn [Heuristics.risk_indicators];
    rewrite len_app; lia.
Qed.

(** X5.  Five or more indicators, or a known-exploit match, make the
    pre-adjustment level of signal fusion CRITICAL, whatever the detector
    says. *)
Theorem many_indicators_are_critical
    (features : Aggregator.AggregatedFeatures)
    (ml_result : option IsolationForest.DetectionResult) :
  5 <= len (Heuristics.risk_indicators
              (Heuristics.filter_with_features features))
  \/ Bytecode.matches_known_exploit (Aggregator.bytecode features) = true ->
  (Signal._compute_risk (Heuristics.filter_with_features features)
     ml_result).1.1 = Signal.CRITICAL.
Proof.
  intros H.
  destruct (filter_with_features_confidence features) as (_ & H5 & Hx).
  assert (Hs : Heuristics.result (Heuristics.filter_with_features features)
               = Heuristics.SUSPICIOUS
               /\ Heuristics.confidence
                    (Heuristics.filter_with_features features) = 0.95%Q)
    by (destruct H; auto).
  destruct Hs as [Hr Hc]. unfold Signal._compute_risk. rewrite Hr, Hc.
  destruct ml_result; reflexivity.
Qed.

(** A record whose only indicator is the exploit match. *)
Lemma many_indicators_are_critical_witness :
  (Signal._compute_risk
     (Heuristics.filter_with_features Examples.exploit_features) None).1.1
  = Signal.CRITICAL.
Proof.
  apply many_indicators_are_critical. right. reflexivity.
Defined.

(** ** Signal engine, further *)

Lemma normalize_score_range raw :
  (0 <= IsolationForest._normalize_score raw <= 1)%Q.
Proof. unfold IsolationForest._normalize_score. apply clamp_bounds. lra. Qed.

Lemma calculate_confidence_range D score :
  (0.5 <= IsolationForest._calculate_confidence D score <= 1)%Q.
Proof.
  unfold IsolationForest._calculate_confidence.
  set (d := (score - IsolationForest.threshold D)%Q). clearbody d.
  destruct (fabs_spec d) as [[Hd ->] | [Hd ->]];
    match goal with
    | |- (_ <= fmin ?x 1 <= _)%Q =>
        destruct (fmin_spec x 1) as [[H ->] | [H ->]]; lra
    end.
Qed.

Lemma predict_ranges D features r :
  IsolationForest.predict D features = Ok r ->
  (0 <= IsolationForest.anomaly_score r <= 1)%Q
  /\ (0.5 <= IsolationForest.confidence r <= 1)%Q.
Proof.
  unfold IsolationForest.predict.
  destruct (IsolationForest.is_trained D); [| discriminate].
  destruct (IsolationForest.model D); [| discriminate].
  destruct (IsolationForest.scaler D); [| discriminate].
  intros [= <-]. cbn [IsolationForest.anomaly_score IsolationForest.confidence].
  split; [apply normalize_score_range | apply calculate_confidence_range].
Qed.

Lemma run_detector_ranges E features ml :
  Signal.run_detector E features = Ok (Some ml) ->
  (0 <= IsolationForest.anomaly_score ml <= 1)%Q
  /\ (0.5 <= IsolationForest.confidence ml <= 1)%Q.
Proof.
  unfold Signal.run_detector. destruct (Signal.ml_detector E) as [D |];
    [| discriminate].
  destruct (IsolationForest.predict D features) as [r |] eqn:HP;
    [| discriminate].
  cbn. intros [= <-]. by apply (predict_ranges D features).
Qed.

(** The raw score and the confidence of signal fusion, on the verdict of
    [filter_with_features] and a result of the detector. *)
Lemma compute_risk_ranges features ml_result :
  match ml_result with
  | Some ml =>
      (0 <= IsolationForest.anomaly_score ml <= 1)%Q
      /\ (0.5 <= IsolationForest.confidence ml <= 1)%Q
  | None => True
  end ->
  let r := Signal._compute_risk
             (Heuristics.filter_with_features features) ml_result in
  (0 <= r.1.2 <= 1)%Q /\ (0.5 <= r.2 <= 1)%Q.
Proof.
  intros Hml.
  destruct (filter_with_features_confidence features) as (Hc & _ & _).
  cbv zeta in Hc. cbv zeta. unfold Signal._compute_risk.
  set (h := Heuristics.filter_with_features features) in *.
  pose proof (float_nonneg _ (len_nonneg (Heuristics.risk_indicators h)))
    as Hn.
  set (n := float (len (Heuristics.risk_indicators h))) in *.
  set (c := Heuristics.confidence h) in *. clearbody n c.
  destruct ml_result as [ml |]; cbn [fst snd].
  - destruct Hml as [Hs Hm].
    set (a := IsolationForest.anomaly_score ml) in *.
    set (b := IsolationForest.confidence ml) in *. clearbody a b.
    unfold Qdiv. change (/ 10)%Q with (1 # 10)%Q.
    split;
      match goal with
      | |- (_ <= fmin ?x 1 <= _)%Q =>
          destruct (fmin_spec x 1) as [[H ->] | [H ->]]; lra
      end.
  - unfold Qdiv. change (/ 10)%Q with (1 # 10)%Q.
    split;
      match goal with
      | |- (_ <= fmin ?x 1 <= _)%Q =>
          destruct (fmin_spec x 1) as [[H ->] | [H ->]]; lra
      end.
Qed.

(** What a call of [analyze_async] that returns has computed. *)
Lemma analyze_async_inv `{RT : PyRuntime} E trace clock s E' :
  Signal.analyze_async E trace clock = Ok (s, E') ->
  exists features ml_result,
    Aggregator.extract_from_trace (Signal.feature_aggregator E) trace
    = Ok features
    /\ Signal.run_detector E features = Ok ml_result
    /\ let heuristic := Heuristics.filter_with_features features in
       let fused := Signal._compute_risk heuristic ml_result in
       Signal.tx_hash s = Trace.tx_hash trace
       /\ Signal.risk_indicators s = Heuristics.risk_indicators heuristic
       /\ Signal.heuristic_result s
          = Heuristics.FilterResult_value (Heuristics.result heuristic)
       /\ Signal.heuristic_confidence s = Heuristics.confidence heuristic
       /\ Signal.ml_score s
          = from_option IsolationForest.anomaly_score 0%Q ml_result
       /\ Signal.raw_risk_score s = fused.1.2
       /\ Signal.confidence s = fused.2
       /\ Signal.recommended_action s
          = Signal._get_recommendation (Signal.risk_level s)
       /\ match Signal.protocol_filter E with
          | Some F =>
              let r := ProtocolFilter.filter F features fused.1.2
                         (to_address trace) (input_data trace) in
              Signal.risk_score s = ProtocolFilter.adjusted_risk_score r
              /\ Signal.risk_adjustment s
                 = ProtocolFilter.risk_adjustment (ProtocolFilter.context r)
          | None =>
              Signal.risk_score s = fused.1.2
              /\ Signal.risk_adjustment s = 0%Q
              /\ Signal.risk_level s = fused.1.1
          end
       /\ E' = Signal.with_stats E
                 (Signal.update_stats (Signal._stats E) (Signal.risk_level s)
                    (Signal.latency clock)
                    (bool_decide (is_Some (Signal.protocol_filter E))
                     && negb (Qeq_bool (Signal.risk_adjustment s) 0))).
Proof.
  unfold Signal.analyze_async.
  destruct (Aggregator.extract_from_trace _ _) as [features | e];
    [| discriminate].
  cbn [mbind result_bind Py.bind].
  destruct (Signal.run_detector E features) as [ml | e] eqn:HD;
    [| discriminate].
  cbn [mbind result_bind Py.bind].
  destruct (Signal._compute_risk _ ml) as [[level raw] confidence] eqn:HC.
  destruct (Signal.protocol_filter E) as [F |]; cbn; intros [= <- <-];
    exists features, ml; rewrite HC; cbn; repeat split; exact HD.
Qed.

(** The adjustment never reaches the clamp at 0.5: it stays within
    [-0.4, 0.4], is positive for a flash loan outside the flash-loan
    operations, and is not positive without a flash loan and within
    bounds. *)
Lemma calculate_risk_adjustment_cases protocol operation known_protocol
    known_operation within_bounds features :
  let a := ProtocolFilter._calculate_risk_adjustment protocol operation
             known_protocol known_operation within_bounds features in
  let fl := FlashLoan.has_flash_loan (Aggregator.flash_loan features) in
  (-0.4 <= a <= 0.4)%Q
  /\ (fl = true ->
      operation ∉ [ProtocolFilter.FLASH_LOAN_ARBITRAGE;
                   ProtocolFilter.FLASH_LOAN_COLLATERAL_SWAP;
                   ProtocolFilter.LIQUIDATE] ->
      (0.05 <= a)%Q)
  /\ (fl = false -> within_bounds = true -> (a <= 0)%Q)
  /\ (known_protocol = false -> known_operation = false -> fl = false ->
      a = 0%Q).
Proof.
  unfold ProtocolFilter._calculate_risk_adjustment.
  destruct (FlashLoan.has_flash_loan _), known_protocol, known_operation,
    within_bounds, operation;
    (split; [by vm_compute |]);
    (split; [first [discriminate | intros _ Hn; first
       [by vm_compute | exfalso; apply Hn; set_solver]] |]);
    (split; [first [discriminate | intros _; first
       [discriminate | intros _; by vm_compute]] |]);
    first [discriminate | intros _; first [discriminate | intros _;
      first [discriminate | intros _; reflexivity]]].
Qed.

(** A record with the empty bytecode features reads as a new contract:
    its verdict carries [new_contract] and is not SAFE. *)
Lemma empty_bytecode_is_new_contract features :
  Aggregator.bytecode features = Bytecode._empty_features ->
  let r := Heuristics.filter_with_features features in
  "new_contract" ∈ Heuristics.risk_indicators r
  /\ Heuristics.result r <> Heuristics.SAFE
  /\ Heuristics.should_analyze r = true.
Proof.
  intros Hb. cbv zeta. unfold Heuristics.filter_with_features.
  rewrite Hb. cbn [Bytecode.matches_known_exploit Bytecode._empty_features].
  set (l0 := Heuristics.indicators_before_exploit features
             ++ Heuristics.indicators_after_exploit features).
  assert (Hin : ("new_contract" ∈ l0)).
  { apply elem_of_app. right. unfold Heuristics.indicators_after_exploit.
    rewrite Hb.
    cbn [Bytecode.contract_age_blocks Bytecode._empty_features].
    apply elem_of_app. right. apply elem_of_app. left.
    change (0 <? 100) with true. apply list_elem_of_singleton. reflexivity. }
  clearbody l0.
  assert (Hlen : (len l0 =? 0) = false).
  { apply Z.eqb_neq. destruct l0; [by apply elem_of_nil in Hin |].
    unfold len. cbn. lia. }
  rewrite Hlen. destruct (3 <=? len l0); cbn; by repeat split.
Qed.

(** X6.  Without a chain handle a trace that has a destination gets the
    empty bytecode record, whose contract age 0 reads as a new contract:
    its verdict always carries the indicator [new_contract], so it is never
    SAFE and always goes on to analysis. *)
Theorem trace_with_destination_is_never_safe `{RT : PyRuntime}
    (A : Aggregator.FeatureAggregator) (trace : TransactionTrace) :
  is_Some (to_address trace) ->
  exists features,
    Aggregator.extract_from_trace A trace = Ok features
    /\ let r := Heuristics.filter_with_features features in
       "new_contract" ∈ Heuristics.risk_indicators r
       /\ Heuristics.result r <> Heuristics.SAFE
       /\ Heuristics.should_analyze r = true.
Proof.
  intros [a Ha]. unfold Aggregator.extract_from_trace. rewrite Ha.
  eexists. split; [reflexivity |].
  by apply empty_bytecode_is_new_contract.
Qed.

(** The trace without calldata, calls or storage writes. *)
Lemma trace_with_destination_is_never_safe_witness :
  exists features,
    Aggregator.extract_from_trace (RT := Reference.runtime)
      Examples.aggregator Examples.empty_trace = Ok features
    /\ let r := Heuristics.filter_with_features features in
       "new_contract" ∈ Heuristics.risk_indicators r
       /\ Heuristics.result r <> Heuristics.SAFE
       /\ Heuristics.should_analyze r = true.
Proof.
  apply trace_with_destination_is_never_safe. eexists. reflexivity.
Defined.



Lemma generate_explanation_nonempty features heuristic ml_result level :
  Signal._generate_explanation features heuristic ml_result level <> [].
Proof.
  unfold Signal._generate_explanation.
  destruct (_ ++ _); [by destruct level | discriminate].
Qed.

(** X8.  The ranges of an emitted signal: both scores and the detector's
    sub-score lie in [0, 1], the confidence in [0.5, 1], the heuristic
    confidence in [0.5, 0.95], the adjustment in [-0.4, 0.4]; there are at
    most fourteen indicators; the recommendation is the one of the final
    level; the explanation is not empty. *)
Theorem emitted_signal_ranges `{RT : PyRuntime}
    (E : Signal.SignalEngine) (trace : TransactionTrace)
    (clock : Signal.Clock) (s : Signal.RiskSignal) :
  Signal.emitted (Signal.analyze_async E trace clock) = Some s ->
  (0 <= Signal.risk_score s <= 1)%Q
  /\ (0 <= Signal.raw_risk_score s <= 1)%Q
  /\ (0 <= Signal.ml_score s <= 1)%Q
  /\ (0.5 <= Signal.confidence s <= 1)%Q
  /\ (0.5 <= Signal.heuristic_confidence s <= 0.95)%Q
  /\ (-0.4 <= Signal.risk_adjustment s <= 0.4)%Q
  /\ len (Signal.risk_indicators s) <= 14
  /\ Signal.recommended_action s
     = Signal._get_recommendation (Signal.risk_level s)
  /\ Signal.tx_hash s = Trace.tx_hash trace.
Proof.
  intros HA. apply emitted_Some in HA as [E' HA].
  apply analyze_async_inv in HA
    as (features & ml & _ & HD & Hx & Hi & _ & Hhc & Hml & Hraw & Hc & Hrec
        & HF & _).
  cbv zeta in HF.
  assert (Hmlr : match ml with
                 | Some ml =>
                     (0 <= IsolationForest.anomaly_score ml <= 1)%Q
                     /\ (0.5 <= IsolationForest.confidence ml <= 1)%Q
                 | None => True
                 end).
  { destruct ml as [ml |]; [| done]. by apply (run_detector_ranges E features). }
  destruct (compute_risk_ranges features ml Hmlr) as [Hr1 Hr2].
  destruct (filter_with_features_confidence features) as (Hh & _ & _).
  cbv zeta in Hh.
  rewrite Hraw, Hc, Hhc, Hml, Hi.
  assert (Hn : len (Heuristics.risk_indicators
                      (Heuristics.filter_with_features features)) <= 14).
  { apply filter_with_features_count. }
  repeat match goal with |- _ /\ _ => split end;
    try tauto; try done.
  - destruct (Signal.protocol_filter E) as [F |].
    + destruct HF as [-> _]. apply filter_adjusted_score.
    + destruct HF as [-> _]. tauto.
  - destruct (Signal.protocol_filter E) as [F |].
    + destruct HF as [-> _]. apply filter_adjusted_score.
    + destruct HF as [-> _]. tauto.
  - destruct ml as [ml |]; cbn; [tauto | lra].
  - destruct ml as [ml |]; cbn; [tauto | lra].
  - destruct (Signal.protocol_filter E) as [F |].
    + destruct HF as [_ ->]. unfold ProtocolFilter.filter.
      cbn [ProtocolFilter.context]. unfold ProtocolFilter.get_context.
      destruct (ProtocolFilter.check_bounds _ _ _) as [within violations].
      cbn [ProtocolFilter.risk_adjustment].
      apply calculate_risk_adjustment_cases.
    + destruct HF as (_ & -> & _). lra.
  - destruct (Signal.protocol_filter E) as [F |].
    + destruct HF as [_ ->]. unfold ProtocolFilter.filter.
      cbn [ProtocolFilter.context]. unfold ProtocolFilter.get_context.
      destruct (ProtocolFilter.check_bounds _ _ _) as [within violations].
      cbn [ProtocolFilter.risk_adjustment].
      apply calculate_risk_adjustment_cases.
    + destruct HF as (_ & -> & _). lra.
Qed.

(** The flash-loan trace under the default engine. *)
Lemma emitted_signal_ranges_witness :
  exists s,
    Signal.emitted
      (Signal.analyze_async (RT := Reference.runtime) Examples.engine
         Examples.flash_trace Examples.clock) = Some s
    /\ (0 <= Signal.risk_score s <= 1)%Q
    /\ (0 <= Signal.raw_risk_score s <= 1)%Q
    /\ (0 <= Signal.ml_score s <= 1)%Q
    /\ (0.5 <= Signal.confidence s <= 1)%Q
    /\ (0.5 <= Signal.heuristic_confidence s <= 0.95)%Q
    /\ (-0.4 <= Signal.risk_adjustment s <= 0.4)%Q
    /\ len (Signal.risk_indicators s) <= 14
    /\ Signal.recommended_action s
       = Signal._get_recommendation (Signal.risk_level s)
    /\ Signal.tx_hash s = Trace.tx_hash Examples.flash_trace.
Proof.
  eexists. split; [vm_compute; reflexivity |].
  apply (emitted_signal_ranges (RT := Reference.runtime) Examples.engine
           Examples.flash_trace Examples.clock).
  vm_compute. reflexivity.
Defined.

(** X9.  The counters after a call of [analyze_async] that returns: the
    total and the counter of the signal's final level go up by one, the
    other level counters stay, so the level counters keep summing to the
    total; the latency is added; the adjustment counter goes up exactly
    when a protocol filter is present and the adjustment is not zero; the
    configuration of the engine is untouched. *)
Theorem analyze_async_updates_stats `{RT : PyRuntime}
    (E : Signal.SignalEngine) (trace : TransactionTrace)
    (clock : Signal.Clock) :
  match Signal.analyze_async E trace clock with
  | Ok (s, E') =>
      let st := Signal._stats E in
      let st' := Signal._stats E' in
      Signal.total_analyzed st' = Signal.total_analyzed st + 1
      /\ Signal.level_count st' (Signal.risk_level s)
         = Signal.level_count st (Signal.risk_level s) + 1
      /\ (forall l, l <> Signal.risk_level s ->
          Signal.level_count st' l = Signal.level_count st l)
      /\ Signal.n_safe st' + Signal.n_low st' + Signal.n_medium st'
         + Signal.n_high st' + Signal.n_critical st'
         - Signal.total_analyzed st'
         = Signal.n_safe st + Signal.n_low st + Signal.n_medium st
           + Signal.n_high st + Signal.n_critical st
           - Signal.total_analyzed st
      /\ Signal.total_latency_ms st'
         = (Signal.total_latency_ms st + Signal.latency clock)%Q
      /\ Signal.protocol_adjustments st'
         = Signal.protocol_adjustments st
           + (if bool_decide (is_Some (Signal.protocol_filter E))
                 && negb (Qeq_bool (Signal.risk_adjustment s) 0)
              then 1 else 0)
      /\ Signal.feature_aggregator E' = Signal.feature_aggregator E
      /\ Signal.protocol_filter E' = Signal.protocol_filter E
      /\ Signal.ml_detector E' = Signal.ml_detector E
      /\ Signal.min_alert_level E' = Signal.min_alert_level E
      /\ Signal.alert_callbacks E' = Signal.alert_callbacks E
  | Raise _ => True
  end.
Proof.
  destruct (Signal.analyze_async E trace clock) as [[s E'] | e] eqn:HA;
    [| exact I].
  apply analyze_async_inv in HA as (features & ml & _ & _ & H).
  cbv zeta in H. destruct H as (_ & _ & _ & _ & _ & _ & _ & _ & _ & ->).
  cbv zeta. cbn [Signal._stats Signal.with_stats Signal.feature_aggregator
    Signal.protocol_filter Signal.ml_detector Signal.min_alert_level
    Signal.alert_callbacks].
  unfold Signal.update_stats, Signal.count_level.
  cbn [Signal.total_analyzed Signal.n_safe Signal.n_low Signal.n_medium
    Signal.n_high Signal.n_critical Signal.total_latency_ms
    Signal.protocol_adjustments].
  repeat match goal with |- _ /\ _ => split end; try reflexivity.
  - destruct (Signal.risk_level s); cbn; lia.
  - intros l Hl. destruct l, (Signal.risk_level s); cbn;
      first [lia | contradiction].
  - destruct (Signal.risk_level s); cbn; lia.
Qed.

(** X10.  [_score_to_level] is monotone in the score, whatever verdict
    and detector result it is handed: a higher score never gets a lower
    level. *)
Theorem score_to_level_monotone (s1 s2 : Q)
    (h1 h2 : Heuristics.HeuristicResult)
    (m1 m2 : option IsolationForest.DetectionResult) :
  (s1 <= s2)%Q ->
  Signal.risk_priority (Signal._score_to_level s1 h1 m1)
  <= Signal.risk_priority (Signal._score_to_level s2 h2 m2).
Proof.
  intros H. unfold Signal._score_to_level.
  repeat match goal with
    | |- context [geb ?x ?y] =>
        let E := fresh "E" in
        destruct (geb x y) eqn:E;
          [apply geb_true in E | apply geb_false in E]
    end; cbn; first [lia | lra].
Qed.

Lemma score_to_level_monotone_witness :
  Signal.risk_priority
    (Signal._score_to_level 0.3%Q
       (Heuristics.filter_with_features Examples.exploit_features) None)
  <= Signal.risk_priority
       (Signal._score_to_level 0.6%Q
          (Heuristics.filter_with_features Examples.exploit_features) None).
Proof.
  apply score_to_level_monotone. vm_compute. discriminate.
Defined.

(** ** Protocol filter, further *)

Lemma get_context_adjustment F features to input :
  ProtocolFilter.risk_adjustment (ProtocolFilter.get_context F features to input)
  = ProtocolFilter._calculate_risk_adjustment
      (ProtocolFilter.identify_protocol F to)
      (ProtocolFilter.identify_operation F input)
      (negb (bool_decide (ProtocolFilter.identify_protocol F to
                          = ProtocolFilter.P_UNKNOWN)))
      (negb (bool_decide (ProtocolFilter.identify_operation F input
                          = ProtocolFilter.O_UNKNOWN)))
      (ProtocolFilter.check_bounds F
         (ProtocolFilter.identify_operation F input) features).1
      features
    /\ ProtocolFilter.within_bounds
         (ProtocolFilter.get_context F features to input)
       = (ProtocolFilter.check_bounds F
            (ProtocolFilter.identify_operation F input) features).1.
Proof.
  unfold ProtocolFilter.get_context.
  destruct (ProtocolFilter.check_bounds _ _ _) as [within violations].
  split; reflexivity.
Qed.

(** X11.  A transaction whose destination and selector are both unknown
    and that has no flash loan is left alone by the protocol filter: the
    adjustment is 0 and a score in [0, 1] comes back unchanged. *)
Theorem unknown_transaction_not_adjusted (F : ProtocolFilter.ProtocolFilter)
    (features : Aggregator.AggregatedFeatures) (raw : Q)
    (to : option string) (input : string) :
  ProtocolFilter.identify_protocol F to = ProtocolFilter.P_UNKNOWN ->
  ProtocolFilter.identify_operation F input = ProtocolFilter.O_UNKNOWN ->
  FlashLoan.has_flash_loan (Aggregator.flash_loan features) = false ->
  (0 <= raw <= 1)%Q ->
  let r := ProtocolFilter.filter F features raw to input in
  ProtocolFilter.risk_adjustment (ProtocolFilter.context r) = 0%Q
  /\ (ProtocolFilter.adjusted_risk_score r == raw)%Q
  /\ ProtocolFilter.adjusted_risk_score r
     == ProtocolFilter.original_risk_score r.
Proof.
  intros HP HO HFl Hraw. cbv zeta. unfold ProtocolFilter.filter.
  cbn [ProtocolFilter.context ProtocolFilter.adjusted_risk_score
    ProtocolFilter.original_risk_score].
  destruct (get_context_adjustment F features to input) as [-> _].
  rewrite HP, HO. cbn [bool_decide decide_rel negb].
  rewrite !bool_decide_eq_true_2 by reflexivity. cbn [negb].
  match goal with
  | |- context [ProtocolFilter._calculate_risk_adjustment ?p ?o ?a ?b ?w ?f] =>
      destruct (calculate_risk_adjustment_cases p o a b w f)
        as (_ & _ & _ & Hz)
  end.
  cbv zeta in Hz. rewrite (Hz eq_refl eq_refl HFl).
  assert (Hs : (fmax 0 (fmin 1 (raw + 0 * raw)) == raw)%Q).
  { destruct (fmin_spec 1 (raw + 0 * raw)) as [[H ->] | [H ->]];
      match goal with
      | |- (fmax 0 ?x == _)%Q =>
          destruct (fmax_spec 0 x) as [[H' ->] | [H' ->]]; lra
      end. }
  split; [reflexivity |]. split; exact Hs.
Qed.

(** The empty trace sent to a contract no protocol is registered for. *)
Lemma unknown_transaction_not_adjusted_witness :
  match Aggregator.extract_from_trace (RT := Reference.runtime)
          Examples.aggregator Examples.empty_trace
  with
  | Ok features =>
      let r := ProtocolFilter.filter ProtocolFilter.default_filter features
                 0.1%Q (to_address Examples.empty_trace)
                 (input_data Examples.empty_trace) in
      ProtocolFilter.risk_adjustment (ProtocolFilter.context r) = 0%Q
      /\ (ProtocolFilter.adjusted_risk_score r == 0.1)%Q
      /\ ProtocolFilter.adjusted_risk_score r
         == ProtocolFilter.original_risk_score r
  | Raise _ => False
  end.
Proof.
  cbn [Aggregator.extract_from_trace Examples.empty_trace to_address
    mbind result_bind Py.bind Examples.unknown_contract].
  apply unknown_transaction_not_adjusted.
  - vm_compute. reflexivity.
  - vm_compute. reflexivity.
  - vm_compute. reflexivity.
  - vm_compute. split; discriminate.
Defined.






Lemma lower_ascii_idemp c : lower_ascii (lower_ascii c) = lower_ascii c.
Proof. by destruct c as [[] [] [] [] [] [] [] []]. Qed.

Lemma lower_idemp s : lower (lower s) = lower s.
Proof.
  induction s as [| c s IH]; [reflexivity |].
  cbn [lower]. by rewrite lower_ascii_idemp, IH.
Qed.

Lemma truthy_lower s : truthy (lower s) = truthy s.
Proof. by destruct s. Qed.

(** X14.  Registering a protocol: every non-empty address that agrees
    with the registered one up to letter case is identified as that
    protocol, every other address is identified as before, and the
    identification of operations is untouched.  Identification itself
    does not depend on letter case. *)
Theorem add_protocol_round_trip (F : ProtocolFilter.ProtocolFilter)
    (address : string) (p : ProtocolFilter.Protocol) (a : string) :
  truthy a = true ->
  let F' := ProtocolFilter.add_protocol F address p in
  (lower a = lower address ->
   ProtocolFilter.identify_protocol F' (Some a) = p)
  /\ (lower a <> lower address ->
      ProtocolFilter.identify_protocol F' (Some a)
      = ProtocolFilter.identify_protocol F (Some a))
  /\ ProtocolFilter.identify_protocol F (Some (lower a))
     = ProtocolFilter.identify_protocol F (Some a)
  /\ (forall input,
        ProtocolFilter.identify_operation F' input
        = ProtocolFilter.identify_operation F input).
Proof.
  intros Ha. cbv zeta.
  unfold ProtocolFilter.identify_protocol, ProtocolFilter.add_protocol.
  cbn [ProtocolFilter.protocol_addresses]. rewrite truthy_lower, Ha.
  repeat split.
  - intros <-. by rewrite lookup_insert_eq.
  - intros Hne. by rewrite lookup_insert_ne.
  - by rewrite lower_idemp.
Qed.

Lemma add_protocol_round_trip_witness :
  ProtocolFilter.identify_protocol
    (ProtocolFilter.add_protocol ProtocolFilter.default_filter
       "0xABCDEF0000000000000000000000000000000001" ProtocolFilter.YEARN)
    (Some "0xabcdef0000000000000000000000000000000001")
  = ProtocolFilter.YEARN.
Proof.
  apply add_protocol_round_trip; reflexivity.
Defined.

(** X15.  Registering an operation: calldata of at least ten characters
    whose first ten agree with the registered selector up to letter case
    is identified as that operation, other calldata as before; calldata
    shorter than ten characters is never identified; the identification of
    protocols is untouched. *)
Theorem add_operation_round_trip (F : ProtocolFilter.ProtocolFilter)
    (selector : string) (o : ProtocolFilter.OperationType)
    (input : string) :
  let F' := ProtocolFilter.add_operation F selector o in
  (10 <= strlen input ->
   (lower (slice 0 10 input) = lower selector ->
    ProtocolFilter.identify_operation F' input = o)
   /\ (lower (slice 0 10 input) <> lower selector ->
       ProtocolFilter.identify_operation F' input
       = ProtocolFilter.identify_operation F input))
  /\ (strlen input < 10 ->
      ProtocolFilter.identify_operation F' input = ProtocolFilter.O_UNKNOWN)
  /\ (forall to,
        ProtocolFilter.identify_protocol F' to
        = ProtocolFilter.identify_protocol F to).
Proof.
  cbv zeta.
  unfold ProtocolFilter.identify_operation, ProtocolFilter.add_operation.
  cbn [ProtocolFilter.operation_selectors].
  split; [| split].
  - intros Hl. apply Z.ltb_ge in Hl. rewrite Hl. split.
    + intros <-. by rewrite lookup_insert_eq.
    + intros Hne. by rewrite lookup_insert_ne.
  - intros Hl. apply Z.ltb_lt in Hl. by rewrite Hl.
  - reflexivity.
Qed.

Lemma add_operation_round_trip_witness :
  ProtocolFilter.identify_operation
    (ProtocolFilter.add_operation ProtocolFilter.default_filter
       "0xDEADBEEF" ProtocolFilter.BRIDGE)
    "0xdeadbeef00000000000000000000000000000000000000000000000000000001"
  = ProtocolFilter.BRIDGE.
Proof.
  apply add_operation_round_trip; [vm_compute; discriminate | reflexivity].
Defined.

(** ** Anomaly detector, further *)

Lemma normalize_score_value raw :
  (IsolationForest._normalize_score raw == Qmax 0 (Qmin 1 (0.5 - raw / 2)))%Q.
Proof. unfold IsolationForest._normalize_score. apply clamp_Qclip. Qed.

(** X16.  [_normalize_score] turns the scorer's decision value around:
    it is antitone, saturates at 1 for decision values of at most -1 and at
    0 for decision values of at least 1, and is [0.5 - raw / 2] in
    between. *)
Theorem normalize_score_antitone (r1 r2 : Q) :
  (r1 <= r2)%Q ->
  (IsolationForest._normalize_score r2
   <= IsolationForest._normalize_score r1)%Q
  /\ ((r1 <= -1)%Q -> (IsolationForest._normalize_score r1 == 1)%Q)
  /\ ((1 <= r2)%Q -> (IsolationForest._normalize_score r2 == 0)%Q)
  /\ ((-1 <= r1 <= 1)%Q ->
      (IsolationForest._normalize_score r1 == 0.5 - r1 / 2)%Q).
Proof.
  intros H. unfold IsolationForest._normalize_score.
  unfold Qdiv. change (/ 2)%Q with (1 # 2)%Q.
  destruct (fmin_spec 1 (0.5 - r1 * (1 # 2))) as [[H1 ->] | [H1 ->]];
    destruct (fmin_spec 1 (0.5 - r2 * (1 # 2))) as [[H2 ->] | [H2 ->]];
    repeat match goal with
      | |- context [fmax 0 ?x] =>
          let H := fresh "H" in
          destruct (fmax_spec 0 x) as [[H ->] | [H ->]]
      end;
    repeat split; intros; lra.
Qed.

Lemma normalize_score_antitone_witness :
  (IsolationForest._normalize_score 2 <= IsolationForest._normalize_score (-3))%Q.
Proof.
  apply normalize_score_antitone. vm_compute. discriminate.
Defined.

(** X17.  [predict_proba] returns a distribution over (normal, anomaly):
    both entries lie in [0, 1] and add up to 1, the second one being the
    anomaly score of [predict]; it raises [RuntimeError] exactly when
    [predict] does. *)
Theorem predict_proba_distribution (D : IsolationForest.IsolationForestDetector)
    (features : Aggregator.AggregatedFeatures) :
  match IsolationForest.predict D features with
  | Ok r =>
      exists p0 p1,
        IsolationForest.predict_proba D features = Ok (p0, p1)
        /\ p1 = IsolationForest.anomaly_score r
        /\ (0 <= p0 <= 1)%Q /\ (0 <= p1 <= 1)%Q /\ (p0 + p1 == 1)%Q
  | Raise e =>
      e = RuntimeError
      /\ IsolationForest.predict_proba D features = Raise RuntimeError
  end.
Proof.
  unfold IsolationForest.predict_proba.
  destruct (IsolationForest.predict D features) as [r | e] eqn:HP.
  - destruct (predict_ranges D features r HP) as [Hs _].
    eexists _, _. split; [reflexivity |]. split; [reflexivity |].
    repeat split; lra.
  - revert HP. unfold IsolationForest.predict.
    destruct (IsolationForest.is_trained D), (IsolationForest.model D),
      (IsolationForest.scaler D); intros [= <-]; by split.
Qed.

(** X18.  [update_threshold] raises [ValueError] exactly for a threshold
    outside [0, 1] and otherwise changes nothing but the threshold: the
    detector then scores every record as before and flags it exactly when
    the score reaches the new threshold, so lowering the threshold never
    clears a flag. *)
Theorem update_threshold_effect (D : IsolationForest.IsolationForestDetector)
    (t : Q) (features : Aggregator.AggregatedFeatures) :
  ((t < 0 \/ 1 < t)%Q ->
   IsolationForest.update_threshold D t = Raise ValueError)
  /\ ((0 <= t <= 1)%Q ->
      exists D',
        IsolationForest.update_threshold D t = Ok D'
        /\ IsolationForest.threshold D' = t
        /\ match IsolationForest.predict D features,
                 IsolationForest.predict D' features with
           | Ok r, Ok r' =>
               IsolationForest.anomaly_score r'
               = IsolationForest.anomaly_score r
               /\ IsolationForest.threshold_used r' = t
               /\ (IsolationForest.is_anomaly r' = true
                   <-> (t <= IsolationForest.anomaly_score r)%Q)
               /\ ((t <= IsolationForest.threshold D)%Q ->
                   IsolationForest.is_anomaly r = true ->
                   IsolationForest.is_anomaly r' = true)
           | Raise e, Raise e' => e = e'
           | _, _ => False
           end).
Proof.
  unfold IsolationForest.update_threshold. split.
  - intros H.
    destruct (Qle_bool 0 t) eqn:E0; [| reflexivity].
    destruct (Qle_bool t 1) eqn:E1; [| reflexivity].
    apply Qle_bool_iff in E0, E1. lra.
  - intros [H0 H1].
    apply Qle_bool_iff in H0 as E0. apply Qle_bool_iff in H1 as E1.
    rewrite E0, E1. cbn [andb negb]. eexists. split; [reflexivity |].
    cbn [IsolationForest.threshold]. split; [reflexivity |].
    unfold IsolationForest.predict.
    cbn [IsolationForest.is_trained IsolationForest.model
      IsolationForest.scaler IsolationForest.threshold].
    destruct (IsolationForest.is_trained D); [| reflexivity].
    destruct (IsolationForest.model D) as [m |]; [| reflexivity].
    destruct (IsolationForest.scaler D) as [sc |]; [| reflexivity].
    cbn [IsolationForest.anomaly_score IsolationForest.threshold_used
      IsolationForest.is_anomaly].
    split; [reflexivity |]. split; [reflexivity |].
    split; [apply geb_true |].
    intros Ht Ha. apply geb_true in Ha. apply geb_true. lra.
Qed.

Lemma update_threshold_effect_witness :
  IsolationForest.update_threshold (Examples.detector 0) 2
  = Raise ValueError.
Proof.
  apply (update_threshold_effect (Examples.detector 0) 2
           Examples.exploit_features).
  right. vm_compute. reflexivity.
Defined.

Lemma fold_left_invariant {A B} (P : A -> Prop) (f : A -> B -> A)
    (l : list B) (a : A) :
  P a -> (forall a b, P a -> b ∈ l -> P (f a b)) -> P (fold_left f l a).
Proof.
  revert a. induction l as [| b l IH]; intros a Ha Hf; [exact Ha |].
  cbn. apply IH.
  - apply Hf; [exact Ha | left].
  - intros a' b' Ha' Hb'. apply Hf; [exact Ha' | by right].
Qed.

Lemma dict_set_keys d k v :
  (IsolationForest.dict_set d k v).*1
  = if bool_decide (k ∈ d.*1) then d.*1 else d.*1 ++ [k].
Proof.
  induction d as [| [k' v'] d IH]; [reflexivity |].
  cbn [IsolationForest.dict_set fmap list_fmap fst].
  destruct (String.eqb k k') eqn:E.
  - apply String.eqb_eq in E as ->. cbn.
    rewrite bool_decide_eq_true_2 by left. reflexivity.
  - apply String.eqb_neq in E. cbn. fold (fmap (M := list) (@fst string Q) d).
    fold (fmap (M := list) (@fst string Q) (IsolationForest.dict_set d k v)).
    rewrite IH. destruct (bool_decide (k ∈ d.*1)) eqn:Hd.
    + apply bool_decide_eq_true in Hd.
      rewrite bool_decide_eq_true_2 by (by right). reflexivity.
    + apply bool_decide_eq_false in Hd.
      rewrite bool_decide_eq_false_2; [reflexivity |].
      intros [? | ?]%elem_of_cons; [by apply E | by apply Hd].
Qed.

Lemma dict_set_NoDup d k v :
  NoDup d.*1 -> NoDup (IsolationForest.dict_set d k v).*1.
Proof.
  intros H. rewrite dict_set_keys. destruct (bool_decide _) eqn:E; [exact H |].
  apply bool_decide_eq_false in E. apply NoDup_app. split; [exact H |].
  split; [| apply NoDup_singleton].
  intros x Hx ->%list_elem_of_singleton. by apply E.
Qed.

Lemma dict_set_Forall (P : string * Q -> Prop) d k v :
  Forall P d -> P (k, v) -> Forall P (IsolationForest.dict_set d k v).
Proof.
  intros Hd Hk. induction Hd as [| [k' v'] d Hx Hd IH];
    [by repeat constructor |].
  cbn. destruct (String.eqb k k'); by constructor.
Qed.

Lemma insert_desc_perm x l : IsolationForest.insert_desc x l ≡ₚ x :: l.
Proof.
  induction l as [| y l IH]; [reflexivity |]. cbn.
  destruct (ltb y.2 x.2); [reflexivity |]. rewrite IH. apply Permutation_swap.
Qed.

Lemma sorted_desc_perm l : IsolationForest.sorted_desc l ≡ₚ l.
Proof.
  unfold IsolationForest.sorted_desc.
  assert (H : forall acc, fold_left
                (fun acc x => IsolationForest.insert_desc x acc) l acc
              ≡ₚ l ++ acc).
  { induction l as [| x l IH]; intros acc; [reflexivity |].
    cbn. rewrite IH, insert_desc_perm. by rewrite Permutation_middle. }
  rewrite H. by rewrite app_nil_r.
Qed.

Lemma map_keys (g : string * Q -> string * Q) (d : list (string * Q)) :
  (forall kv, (g kv).1 = kv.1) -> (map g d).*1 = d.*1.
Proof.
  intros Hg. induction d as [| kv d IH]; [reflexivity |].
  cbn. by rewrite Hg, <- IH.
Qed.

(** Insertion keeps a list in decreasing order of value. *)
Lemma insert_desc_sorted x l :
  StronglySorted (fun a b : string * Q => (b.2 <= a.2)%Q) l ->
  StronglySorted (fun a b : string * Q => (b.2 <= a.2)%Q)
    (IsolationForest.insert_desc x l).
Proof.
  induction 1 as [| y l Hs IH Hy]; [repeat constructor |].
  cbn. destruct (ltb y.2 x.2) eqn:E.
  - apply ltb_true in E. constructor; [by constructor |].
    constructor; [cbn beta; lra |].
    eapply Forall_impl; [exact Hy |]. cbn beta. intros z Hz. lra.
  - apply ltb_false in E. constructor; [exact IH |].
    rewrite insert_desc_perm. constructor; [exact E | exact Hy].
Qed.

Lemma sorted_desc_sorted l :
  StronglySorted (fun a b : string * Q => (b.2 <= a.2)%Q)
    (IsolationForest.sorted_desc l).
Proof.
  unfold IsolationForest.sorted_desc.
  apply (fold_left_invariant
           (StronglySorted (fun a b : string * Q => (b.2 <= a.2)%Q)));
    [constructor |].
  intros acc x Hacc _. by apply insert_desc_sorted.
Qed.

(** X19.  The contributions reported with a prediction: at most ten
    entries, with distinct feature names, no negative value, in decreasing
    order of value; they are empty when the detector has no model or no
    scaler. *)
Theorem feature_contributions_sorted
    (D : IsolationForest.IsolationForestDetector) (x : list Q) :
  let c := IsolationForest._calculate_feature_contributions D x in
  len c <= 10
  /\ NoDup c.*1
  /\ Forall (fun kv => (0 <= kv.2)%Q) c
  /\ StronglySorted (fun a b => (b.2 <= a.2)%Q) c
  /\ (IsolationForest.model D = None \/ IsolationForest.scaler D = None ->
      c = []).
Proof.
  cbv zeta. unfold IsolationForest._calculate_feature_contributions.
  destruct (IsolationForest.model D) as [m |];
    [| by repeat split; try constructor; try (by vm_compute)].
  destruct (IsolationForest.scaler D) as [sc |];
    [| by repeat split; try constructor; try (by vm_compute)].
  set (d := fold_left _ _ []).
  assert (Hd : NoDup d.*1 /\ Forall (fun kv => (0 <= kv.2)%Q) d).
  { subst d.
    apply (fold_left_invariant
             (fun d => NoDup d.*1 /\ Forall (fun kv => (0 <= kv.2)%Q) d)).
    - split; constructor.
    - intros a b [Ha1 Ha2] _. split; [by apply dict_set_NoDup |].
      apply dict_set_Forall; [exact Ha2 |]. cbn.
      destruct (fabs_spec b.2) as [[? ->] | [? ->]]; lra. }
  clearbody d. destruct Hd as [Hk Hv].
  set (total := fold_left Qplus d.*2 0%Q). clearbody total.
  set (c := if gtb total 0 then _ else d).
  assert (Hc : NoDup c.*1 /\ Forall (fun kv => (0 <= kv.2)%Q) c).
  { subst c. destruct (gtb total 0) eqn:E; [| by split].
    apply gtb_true in E. split.
    - rewrite map_keys; [exact Hk | by intros []].
    - apply Forall_map. eapply Forall_impl; [exact Hv |].
      intros [k v] Hkv. cbn in *. apply Qle_shift_div_l; lra. }
  clearbody c. destruct Hc as [Hck Hcv].
  pose proof (sorted_desc_perm c) as Hp.
  pose proof (sorted_desc_sorted c) as Hs.
  set (s := IsolationForest.sorted_desc c) in *. clearbody s.
  repeat split.
  - unfold len. rewrite length_take. lia.
  - rewrite fmap_take. apply (sublist_NoDup _ (s.*1)); [| apply sublist_take].
    by rewrite Hp.
  - apply Forall_take. by rewrite Hp.
  - rewrite <- (take_drop 10 s) in Hs. by apply StronglySorted_app_1_l in Hs.
  - intros [? | ?]; discriminate.
Qed.

(** An invariant of a left fold that may mention the part of the list
    already folded. *)
Lemma fold_left_invariant_prefix {A B} (P : list B -> A -> Prop)
    (f : A -> B -> A) (l : list B) (a : A) :
  P [] a ->
  (forall done b a, P done a -> P (done ++ [b]) (f a b)) ->
  P l (fold_left f l a).
Proof.
  intros Ha Hf.
  assert (H : forall done a, P done a -> P (done ++ l) (fold_left f l a)).
  { induction l as [| b l IH]; intros done a' Ha'.
    - by rewrite app_nil_r.
    - cbn [fold_left]. rewrite (cons_middle b done l), app_assoc.
      apply IH. by apply Hf. }
  apply (H [] a Ha).
Qed.

(** ** Call trees *)

(** Induction on a call tree, with the hypothesis on every child. *)
Lemma TraceCall_children_ind (P : TraceCall -> Prop) :
  (forall call, Forall P (call_children call) -> P call) ->
  forall call, P call.
Proof.
  intros H. fix IH 1. intros [t f to v g gu i o d children]. apply H. cbn.
  induction children as [| c cs IHcs]; constructor; [apply IH | exact IHcs].
Qed.

Lemma opcode_analyze_call_tree_unfold call depth :
  Opcode._analyze_call_tree call depth
  = Opcode.set_gas_ratio
      (fold_left
         (fun s child =>
            Opcode.merge_child s (Opcode._analyze_call_tree child (depth + 1)))
         (call_children call) (Opcode.node_stats call depth)).
Proof.
  by destruct call.
Qed.

Lemma get0_add_counts d e k :
  Opcode.get0 (Opcode.add_counts d e) k = Opcode.get0 d k + Opcode.get0 e k.
Proof.
  unfold Opcode.get0, Opcode.add_counts. rewrite lookup_union_with.
  destruct (d !! k), (e !! k); cbn; lia.
Qed.

Lemma get0_singleton (ct k : string) :
  Opcode.get0 {[ ct := 1 ]} k = if bool_decide (ct = k) then 1 else 0.
Proof.
  unfold Opcode.get0. destruct (bool_decide (ct = k)) eqn:E.
  - apply bool_decide_eq_true in E as ->. by rewrite lookup_singleton_eq.
  - apply bool_decide_eq_false in E. by rewrite lookup_singleton_ne.
Qed.

(** The counters of a call tree analysed from depth [depth]. *)
Lemma opcode_analyze_call_tree_counters call : forall depth,
  let s := Opcode._analyze_call_tree call depth in
  let types := Opcode.st_call_types s in
  1 <= Opcode.st_total_calls s
  /\ Opcode.st_internal_calls s + Opcode.st_external_calls s
     = Opcode.st_total_calls s
  /\ depth <= Opcode.st_max_depth s
     <= depth + Opcode.st_total_calls s - 1
  /\ Opcode.st_reverts s = 0
  /\ 0 <= Opcode.st_value_transfers s <= Opcode.st_total_calls s
  /\ (forall k, 0 <= Opcode.get0 types k)
  /\ Opcode.get0 types "CALL" + Opcode.get0 types "STATICCALL"
     + Opcode.get0 types "DELEGATECALL" + Opcode.get0 types "CALLCODE"
     = Opcode.st_external_calls s
  /\ Opcode.get0 types "CREATE" + Opcode.get0 types "CREATE2"
     + Opcode.get0 types "SELFDESTRUCT" <= Opcode.st_internal_calls s.
Proof.
  induction call as [call IH] using TraceCall_children_ind. intros depth.
  cbv zeta. rewrite opcode_analyze_call_tree_unfold.
  unfold Opcode.set_gas_ratio.
  cbn [Opcode.st_total_calls Opcode.st_internal_calls
    Opcode.st_external_calls Opcode.st_max_depth Opcode.st_reverts
    Opcode.st_value_transfers Opcode.st_call_types].
  apply (fold_left_invariant
    (fun s =>
       1 <= Opcode.st_total_calls s
       /\ Opcode.st_internal_calls s + Opcode.st_external_calls s
          = Opcode.st_total_calls s
       /\ depth <= Opcode.st_max_depth s
          <= depth + Opcode.st_total_calls s - 1
       /\ Opcode.st_reverts s = 0
       /\ 0 <= Opcode.st_value_transfers s <= Opcode.st_total_calls s
       /\ (forall k, 0 <= Opcode.get0 (Opcode.st_call_types s) k)
       /\ Opcode.get0 (Opcode.st_call_types s) "CALL"
          + Opcode.get0 (Opcode.st_call_types s) "STATICCALL"
          + Opcode.get0 (Opcode.st_call_types s) "DELEGATECALL"
          + Opcode.get0 (Opcode.st_call_types s) "CALLCODE"
          = Opcode.st_external_calls s
       /\ Opcode.get0 (Opcode.st_call_types s) "CREATE"
          + Opcode.get0 (Opcode.st_call_types s) "CREATE2"
          + Opcode.get0 (Opcode.st_call_types s) "SELFDESTRUCT"
          <= Opcode.st_internal_calls s)).
  - unfold Opcode.node_stats.
    cbn [Opcode.st_total_calls Opcode.st_internal_calls
      Opcode.st_external_calls Opcode.st_max_depth Opcode.st_reverts
      Opcode.st_value_transfers Opcode.st_call_types].
    rewrite !get0_singleton. unfold mem.
    set (ct := upper (call_type call)). clearbody ct.
    repeat split; try lia.
    + destruct (bool_decide (ct ∈ _)); lia.
    + destruct (0 <? call_value call); lia.
    + destruct (0 <? call_value call); lia.
    + intros k. rewrite get0_singleton. destruct (bool_decide _); lia.
    + destruct (bool_decide (ct ∈ _)) eqn:E.
      * apply bool_decide_eq_true in E.
        repeat (apply elem_of_cons in E as [-> | E]);
          [reflexivity .. | by apply elem_of_nil in E].
      * apply bool_decide_eq_false in E.
        rewrite !bool_decide_eq_false_2; [reflexivity | ..];
          intros ->; apply E; set_solver.
    + destruct (bool_decide (ct ∈ _)) eqn:E.
      * apply bool_decide_eq_true in E.
        repeat (apply elem_of_cons in E as [-> | E]);
          [reflexivity .. | by apply elem_of_nil in E].
      * repeat case_bool_decide; subst; try discriminate; lia.
  - intros s child Hs Hin.
    rewrite Forall_forall in IH. specialize (IH child Hin (depth + 1)).
    cbv zeta in IH. unfold Opcode.merge_child.
    cbn [Opcode.st_total_calls Opcode.st_internal_calls
      Opcode.st_external_calls Opcode.st_max_depth Opcode.st_reverts
      Opcode.st_value_transfers Opcode.st_call_types].
    rewrite !get0_add_counts.
    destruct Hs as (H1 & H2 & H3 & H4 & H5 & H6 & H7 & H8).
    destruct IH as (C1 & C2 & C3 & C4 & C5 & C6 & C7 & C8).
    repeat split; try lia.
    intros k. rewrite get0_add_counts. specialize (H6 k).
    specialize (C6 k). lia.
Qed.

(** X20.  The counters read off a call tree: at least one call, every
    call counted as internal or external, a depth of at most the number of
    calls minus one, CALL, STATICCALL and DELEGATECALL counts within the
    external calls, CREATE, CREATE2 and SELFDESTRUCT counts within the
    internal ones, at most one value transfer per call, and a revert count
    that is always 0 (the tree walk never adds to it). *)
Theorem call_tree_counters (trace : TransactionTrace) (root : TraceCall) :
  call_trace trace = Some root ->
  let f := Opcode.extract trace in
  1 <= Opcode.total_calls f
  /\ Opcode.internal_calls f + Opcode.external_calls f = Opcode.total_calls f
  /\ 0 <= Opcode.call_depth f <= Opcode.total_calls f - 1
  /\ 0 <= Opcode.call_count f /\ 0 <= Opcode.staticcall_count f
  /\ 0 <= Opcode.delegatecall_count f
  /\ Opcode.call_count f + Opcode.staticcall_count f
     + Opcode.delegatecall_count f <= Opcode.external_calls f
  /\ Opcode.create_count f + Opcode.create2_count f
     + Opcode.selfdestruct_count f <= Opcode.internal_calls f
  /\ 0 <= Opcode.call_value_transfers f <= Opcode.total_calls f
  /\ Opcode.revert_count f = 0.
Proof.
  intros Hroot. cbv zeta. unfold Opcode.extract. rewrite Hroot.
  cbn [Opcode.total_calls Opcode.internal_calls Opcode.external_calls
    Opcode.call_depth Opcode.call_count Opcode.staticcall_count
    Opcode.delegatecall_count Opcode.create_count Opcode.create2_count
    Opcode.selfdestruct_count Opcode.call_value_transfers
    Opcode.revert_count].
  destruct (opcode_analyze_call_tree_counters root 0)
    as (H1 & H2 & H3 & H4 & H5 & H6 & H7 & H8).
  pose proof (H6 "CALL"). pose proof (H6 "STATICCALL").
  pose proof (H6 "DELEGATECALL"). pose proof (H6 "CALLCODE").
  repeat split; lia.
Qed.

(** The busy trace: 54 calls down to depth 11. *)
Lemma call_tree_counters_witness :
  let f := Opcode.extract Examples.busy_trace in
  1 <= Opcode.total_calls f
  /\ Opcode.internal_calls f + Opcode.external_calls f = Opcode.total_calls f
  /\ 0 <= Opcode.call_depth f <= Opcode.total_calls f - 1
  /\ 0 <= Opcode.call_count f /\ 0 <= Opcode.staticcall_count f
  /\ 0 <= Opcode.delegatecall_count f
  /\ Opcode.call_count f + Opcode.staticcall_count f
     + Opcode.delegatecall_count f <= Opcode.external_calls f
  /\ Opcode.create_count f + Opcode.create2_count f
     + Opcode.selfdestruct_count f <= Opcode.internal_calls f
  /\ 0 <= Opcode.call_value_transfers f <= Opcode.total_calls f
  /\ Opcode.revert_count f = 0.
Proof.
  apply (call_tree_counters Examples.busy_trace Examples.busy_call_tree).
  reflexivity.
Defined.

Lemma elem_of_flag c s (tag : string) :
  tag ∈ Heuristics.flag c s <-> c = true /\ tag = s.
Proof.
  destruct c; cbn.
  - rewrite list_elem_of_singleton. tauto.
  - rewrite elem_of_nil. split; [tauto | intros [? _]; discriminate].
Qed.

Lemma size_list_to_set_le (l : list string) :
  Z.of_nat (size (list_to_set (C := gset string) l)) <= len l.
Proof.
  unfold len. induction l as [| x l IH]; [cbn; by rewrite size_empty |].
  cbn [list_to_set foldr length].
  pose proof (size_union_alt (C := gset string) {[ x ]} (list_to_set l)) as H.
  rewrite size_singleton in H.
  assert (H' : (size (list_to_set (C := gset string) l ∖ {[ x ]})
                <= size (list_to_set (C := gset string) l))%nat).
  { apply subseteq_size. by apply subseteq_difference_l. }
  lia.
Qed.

(** X21.  A trace without a call tree and without opcode counts gets
    estimated or empty call features: the depth is at most 10, the number
    of calls at most the number of logs, and no DELEGATECALL, CREATE2 or
    SELFDESTRUCT is counted; so the verdict of [filter_with_features]
    never carries [uses_delegatecall], [uses_create2], [deep_call_stack]
    or [selfdestruct_opcode] for it. *)
Theorem log_estimate_never_flags_structure `{RT : PyRuntime}
    (A : Aggregator.FeatureAggregator) (trace : TransactionTrace)
    (a : string) :
  call_trace trace = None ->
  opcodes trace = ∅ ->
  to_address trace = Some a ->
  match Aggregator.extract_from_trace A trace with
  | Ok features =>
      let op := Aggregator.opcode features in
      0 <= Opcode.call_depth op <= 10
      /\ 0 <= Opcode.total_calls op <= len (logs trace)
      /\ Opcode.delegatecall_count op = 0
      /\ Opcode.create2_count op = 0
      /\ Opcode.selfdestruct_count op = 0
      /\ (forall tag,
            tag ∈ ["uses_delegatecall"; "uses_create2"; "deep_call_stack";
                   "selfdestruct_opcode"] ->
            tag ∉ Heuristics.risk_indicators
                    (Heuristics.filter_with_features features))
  | Raise _ => False
  end.
Proof.
  intros Hc Ho Ha. unfold Aggregator.extract_from_trace. rewrite Ha.
  cbn [mbind result_bind Py.bind Aggregator.opcode].
  assert (Hop : let op := Opcode.extract trace in
                0 <= Opcode.call_depth op <= 10
                /\ 0 <= Opcode.total_calls op <= len (logs trace)
                /\ Opcode.delegatecall_count op = 0
                /\ Opcode.create2_count op = 0
                /\ Opcode.selfdestruct_count op = 0).
  { cbv zeta. unfold Opcode.extract. rewrite Hc, Ho.
    rewrite bool_decide_eq_false_2 by (intros H; by apply H).
    destruct (logs trace) as [| l ls] eqn:Hl;
      [cbn; unfold len; cbn; lia |].
    unfold Opcode._estimate_from_logs.
    cbn [Opcode.call_depth Opcode.total_calls Opcode.delegatecall_count
      Opcode.create2_count Opcode.selfdestruct_count].
    pose proof (size_list_to_set_le
                  (map (fun l => lower (log_address l)) (l :: ls))) as Hs.
    unfold len in Hs. rewrite length_map in Hs. fold (len (l :: ls)) in Hs.
    set (n := Z.of_nat (size _)) in *.
    assert (0 <= n) by (subst n; lia). clearbody n.
    repeat split; try lia; destruct (3 <? n) eqn:E; try lia;
      apply Z.ltb_lt in E;
      pose proof (Z.div_pos n 3 ltac:(lia) ltac:(lia)); lia. }
  cbv zeta in Hop. destruct Hop as (Hd & Ht & Hdc & Hc2 & Hsd).
  cbv zeta. repeat (split; [assumption || lia |]).
  intros tag Htag. unfold Heuristics.filter_with_features.
  cbn [Aggregator.bytecode Bytecode.matches_known_exploit
    Bytecode._empty_features Heuristics.risk_indicators].
  match goal with
  | |- context [Heuristics.indicators_before_exploit ?f] =>
      set (features := f)
  end.
  assert (Hnot : (tag ∉ Heuristics.indicators_before_exploit features)
                 /\ (tag ∉ Heuristics.indicators_after_exploit features)).
  { unfold Heuristics.indicators_before_exploit,
      Heuristics.indicators_after_exploit. subst features.
    cbn [Aggregator.flash_loan Aggregator.state_variance Aggregator.bytecode
      Aggregator.opcode Bytecode._empty_features Bytecode.has_selfdestruct
      Bytecode.jaccard_similarity Bytecode.contract_age_blocks].
    rewrite Hdc, Hc2.
    assert (E : (10 <? Opcode.call_depth (Opcode.extract trace)) = false)
      by (apply Z.ltb_ge; lia).
    rewrite E. clear E.
    split.
    - destruct (FlashLoan.has_flash_loan _);
        rewrite ?elem_of_app, ?elem_of_cons, ?elem_of_flag, ?elem_of_nil;
        repeat (apply elem_of_cons in Htag as [-> | Htag]);
        try (by apply elem_of_nil in Htag);
        intros H'; decompose [and or] H'; cbn in *; congruence.
    - rewrite ?elem_of_app, ?elem_of_flag.
      repeat (apply elem_of_cons in Htag as [-> | Htag]);
        try (by apply elem_of_nil in Htag);
        intros H'; decompose [and or] H'; cbn in *; congruence. }
  destruct Hnot as [Hb Haf].
  match goal with
  | |- context [len ?l =? 0] => destruct (len l =? 0)
  end; [cbn; apply not_elem_of_nil |].
  match goal with
  | |- context [3 <=? len ?l] => destruct (3 <=? len l)
  end; cbn [Heuristics.risk_indicators]; rewrite elem_of_app; tauto.
Qed.

Lemma log_estimate_never_flags_structure_witness :
  match Aggregator.extract_from_trace (RT := Reference.runtime)
          Examples.aggregator Examples.empty_trace
  with
  | Ok features =>
      let op := Aggregator.opcode features in
      0 <= Opcode.call_depth op <= 10
      /\ 0 <= Opcode.total_calls op <= len (logs Examples.empty_trace)
      /\ Opcode.delegatecall_count op = 0
      /\ Opcode.create2_count op = 0
      /\ Opcode.selfdestruct_count op = 0
      /\ (forall tag,
            tag ∈ ["uses_delegatecall"; "uses_create2"; "deep_call_stack";
                   "selfdestruct_opcode"] ->
            tag ∉ Heuristics.risk_indicators
                    (Heuristics.filter_with_features features))
  | Raise _ => False
  end.
Proof.
  apply (log_estimate_never_flags_structure (RT := Reference.runtime)
           Examples.aggregator Examples.empty_trace
           Examples.unknown_contract); reflexivity.
Defined.

(** X22.  [analyze_call_pattern]: the risk score lies in [0, 1]; without
    a call tree the pattern is [simple] with score 0; a SELFDESTRUCT in
    the tree always gives the pattern [destructive] and a score of at
    least 0.4, and the pattern [destructive] is given for nothing else; a
    depth of 15 or more gives the score 1. *)
Theorem analyze_call_pattern_score (trace : TransactionTrace) :
  let r := Opcode.analyze_call_pattern trace in
  (0 <= Opcode.risk_score r <= 1)%Q
  /\ (call_trace trace = None ->
      Opcode.pattern r = "simple" /\ Opcode.risk_score r = 0%Q
      /\ Opcode.pattern_stats r = None)
  /\ (forall root, call_trace trace = Some root ->
      let stats := Opcode._analyze_call_tree root 0 in
      Opcode.pattern_stats r = Some stats
      /\ (Opcode.pattern r = "destructive"
          <-> 0 < Opcode.get0 (Opcode.st_call_types stats) "SELFDESTRUCT")
      /\ (0 < Opcode.get0 (Opcode.st_call_types stats) "SELFDESTRUCT" ->
          (0.4 <= Opcode.risk_score r)%Q)
      /\ (15 <= Opcode.st_max_depth stats -> (Opcode.risk_score r == 1)%Q)).
Proof.
  cbv zeta. unfold Opcode.analyze_call_pattern.
  destruct (call_trace trace) as [root |];
    [| cbn; repeat split; try lra; discriminate].
  cbn [Opcode.risk_score Opcode.pattern Opcode.pattern_stats].
  set (stats := Opcode._analyze_call_tree root 0).
  set (types := Opcode.st_call_types stats).
  assert (Hdepth : (5 <? Opcode.st_max_depth stats) = true ->
                   (0.1 <= 0.1 * float (Opcode.st_max_depth stats - 5))%Q
                   /\ (15 <= Opcode.st_max_depth stats ->
                       (1 <= 0.1 * float (Opcode.st_max_depth stats - 5))%Q)).
  { intros E. apply Z.ltb_lt in E. split.
    - pose proof (float_le 1 (Opcode.st_max_depth stats - 5) ltac:(lia)) as H.
      change (float 1) with 1%Q in H. lra.
    - intros H15.
      pose proof (float_le 10 (Opcode.st_max_depth stats - 5) ltac:(lia))
        as H.
      change (float 10) with 10%Q in H. lra. }
  set (deep := (0.1 * float (Opcode.st_max_depth stats - 5))%Q) in *.
  clearbody deep.
  assert (Hpat : Opcode._classify_pattern stats = "destructive"
                 <-> 0 < Opcode.get0 types "SELFDESTRUCT").
  { unfold Opcode._classify_pattern. fold types.
    destruct (0 <? Opcode.get0 types "SELFDESTRUCT") eqn:E.
    - apply Z.ltb_lt in E. tauto.
    - apply Z.ltb_ge in E.
      split; [| lia].
      repeat match goal with
        | |- context [if ?c then _ else _] => destruct c
        end; discriminate. }
  split; [| split; [discriminate |]].
  - destruct (0 <? Opcode.get0 types "DELEGATECALL"),
      (0 <? Opcode.get0 types "CREATE2"),
      (0 <? Opcode.get0 types "SELFDESTRUCT"),
      (5 <? Opcode.st_max_depth stats) eqn:E5,
      (20 <? Opcode.st_total_calls stats);
      try (destruct (Hdepth eq_refl) as [Hd _]);
      match goal with
      | |- (_ <= fmin ?x 1 <= _)%Q =>
          destruct (fmin_spec x 1) as [[H ->] | [H ->]]; lra
      end.
  - intros root' [= <-]. cbv zeta. fold stats. fold types.
    split; [reflexivity |]. split; [exact Hpat |].
    split.
    + intros Hs. apply Z.ltb_lt in Hs. rewrite Hs.
      destruct (0 <? Opcode.get0 types "DELEGATECALL"),
        (0 <? Opcode.get0 types "CREATE2"),
        (5 <? Opcode.st_max_depth stats) eqn:E5,
        (20 <? Opcode.st_total_calls stats);
        try (destruct (Hdepth eq_refl) as [Hd _]);
        match goal with
        | |- (_ <= fmin ?x 1)%Q =>
            destruct (fmin_spec x 1) as [[H ->] | [H ->]]; lra
        end.
    + intros H15.
      assert (E5 : (5 <? Opcode.st_max_depth stats) = true)
        by (apply Z.ltb_lt; lia).
      rewrite E5. destruct (Hdepth E5) as [_ Hd]. specialize (Hd H15).
      destruct (0 <? Opcode.get0 types "DELEGATECALL"),
        (0 <? Opcode.get0 types "CREATE2"),
        (0 <? Opcode.get0 types "SELFDESTRUCT"),
        (20 <? Opcode.st_total_calls stats);
        match goal with
        | |- (fmin ?x 1 == _)%Q =>
            destruct (fmin_spec x 1) as [[H ->] | [H ->]]; lra
        end.
Qed.

(** ** Flash-loan extractor *)

Lemma flash_analyze_call_tree_unfold `{RT : PyRuntime} call depth a :
  FlashLoan._analyze_call_tree call depth a
  = fold_left
      (fun a child => FlashLoan._analyze_call_tree child (depth + 1) a)
      (call_children call) (FlashLoan.visit call depth a).
Proof. by destruct call. Qed.

(** A property of the accumulators that every visit keeps is kept by the
    walk over a whole tree. *)
Lemma flash_analyze_call_tree_invariant `{RT : PyRuntime}
    (P : FlashLoan.Acc -> Prop) :
  (forall call depth a, P a -> P (FlashLoan.visit call depth a)) ->
  forall call depth a, P a -> P (FlashLoan._analyze_call_tree call depth a).
Proof.
  intros Hvisit call.
  induction call as [call IH] using TraceCall_children_ind.
  intros depth a Ha. rewrite flash_analyze_call_tree_unfold.
  apply fold_left_invariant; [by apply Hvisit |].
  intros a' child Ha' Hin. rewrite Forall_forall in IH. by apply IH.
Qed.

Lemma fold_add_ge (l : list Z) (acc : Z) :
  Forall (fun a => 0 < a) l ->
  acc <= fold_left Z.add l acc
  /\ (l <> [] -> acc < fold_left Z.add l acc).
Proof.
  intros H. revert acc. induction H as [| x l Hx Hl IH]; intros acc.
  - cbn. split; [lia | done].
  - cbn. destruct (IH (acc + x)) as [H1 _]. split; [lia | intros _; lia].
Qed.

Lemma detect_nested_needs_two calls :
  FlashLoan._detect_nested_flash_loans calls = true -> 2 <= len calls.
Proof.
  unfold FlashLoan._detect_nested_flash_loans.
  destruct (len calls <=? 1) eqn:E; [discriminate |].
  apply Z.leb_gt in E. lia.
Qed.

Lemma fold_add_log_flash_loan lfl a :
  Forall (fun a => 0 < a) (FlashLoan.amounts a) ->
  let a2 := fold_left FlashLoan.add_log_flash_loan lfl a in
  Forall (fun a => 0 < a) (FlashLoan.amounts a2)
  /\ len (FlashLoan.amounts a2) <= len (FlashLoan.amounts a) + len lfl
  /\ FlashLoan.callback_calls a2 = FlashLoan.callback_calls a
  /\ FlashLoan.flash_loan_calls a2 = FlashLoan.flash_loan_calls a
  /\ (lfl = [] -> FlashLoan.amounts a2 = FlashLoan.amounts a).
Proof.
  revert a. induction lfl as [| fl lfl IH]; intros a Ha; cbv zeta.
  - cbn. unfold len. repeat split; try done; lia.
  - cbn [fold_left].
    destruct (IH (FlashLoan.add_log_flash_loan a fl)) as (I1 & I2 & I3 & I4 & _).
    + unfold FlashLoan.add_log_flash_loan. cbn.
      destruct (0 <? FlashLoan.lfl_amount fl) eqn:E; [| exact Ha].
      apply Z.ltb_lt in E. rewrite Forall_app, Forall_singleton. tauto.
    + cbv zeta in I1, I2, I3, I4. repeat split; try done.
      revert I2. unfold FlashLoan.add_log_flash_loan.
      cbn [FlashLoan.amounts FlashLoan.flash_loan_calls].
      destruct (0 <? FlashLoan.lfl_amount fl); rewrite ?len_app;
        unfold len; cbn [length]; lia.
Qed.

(** X23.  The flash-loan record of a trace: every recorded amount is
    positive, so the total borrowed is not negative and is 0 exactly when
    no amount was recorded; a positive count or a recorded amount implies
    the flag; there are at most two amounts per counted loan; nested loans
    need a count of at least two; every callback selector is one of the
    known callback signatures and makes [has_callback] true; the providers
    are listed without repetition. *)
Theorem flash_loan_extract_invariants `{RT : PyRuntime}
    (trace : TransactionTrace) :
  let f := FlashLoan.extract trace in
  Forall (fun a => 0 < a) (FlashLoan.flash_loan_amounts f)
  /\ 0 <= FlashLoan.total_borrowed f
  /\ (FlashLoan.total_borrowed f = 0 <-> FlashLoan.flash_loan_amounts f = [])
  /\ 0 <= FlashLoan.flash_loan_count f
  /\ (0 < FlashLoan.flash_loan_count f -> FlashLoan.has_flash_loan f = true)
  /\ (FlashLoan.flash_loan_amounts f <> [] ->
      FlashLoan.has_flash_loan f = true)
  /\ len (FlashLoan.flash_loan_amounts f) <= 2 * FlashLoan.flash_loan_count f
  /\ (FlashLoan.nested_flash_loans f = true ->
      2 <= FlashLoan.flash_loan_count f)
  /\ Forall (fun s => s ∈ FlashLoan.callback_sigs)
       (FlashLoan.callback_selectors f)
  /\ (FlashLoan.callback_selectors f <> [] -> FlashLoan.has_callback f = true)
  /\ NoDup (FlashLoan.flash_loan_providers f).
Proof.
  cbv zeta. unfold FlashLoan.extract.
  cbn [FlashLoan.flash_loan_amounts FlashLoan.total_borrowed
    FlashLoan.flash_loan_count FlashLoan.has_flash_loan
    FlashLoan.nested_flash_loans FlashLoan.callback_selectors
    FlashLoan.has_callback FlashLoan.flash_loan_providers].
  set (a0 := {| FlashLoan.flash_loan_calls := []; FlashLoan.callback_calls := [];
                FlashLoan.providers := ∅; FlashLoan.amounts := [] |}).
  set (a1 := match call_trace trace with
             | Some root => FlashLoan._analyze_call_tree root 0 a0
             | None => a0
             end).
  set (lfl := FlashLoan._detect_flash_loans_from_logs (logs trace)).
  set (a2 := fold_left FlashLoan.add_log_flash_loan lfl a1).
  assert (H1 : Forall (fun a => 0 < a) (FlashLoan.amounts a1)
               /\ len (FlashLoan.amounts a1)
                  <= len (FlashLoan.flash_loan_calls a1)
               /\ Forall (fun s => s ∈ FlashLoan.callback_sigs)
                    (FlashLoan.callback_calls a1)).
  { subst a1. destruct (call_trace trace) as [root |];
      [| subst a0; cbn; split; [constructor | split; [reflexivity | constructor]]].
    apply (flash_analyze_call_tree_invariant
             (fun a => Forall (fun a => 0 < a) (FlashLoan.amounts a)
                       /\ len (FlashLoan.amounts a)
                          <= len (FlashLoan.flash_loan_calls a)
                       /\ Forall (fun s => s ∈ FlashLoan.callback_sigs)
                            (FlashLoan.callback_calls a)));
      [| subst a0; cbn; split; [constructor | split; [reflexivity | constructor]]].
    intros call depth a (Ha & Hl & Hc). unfold FlashLoan.visit.
    set (sel := FlashLoan.selector_of (call_input_data call)).
    destruct (mem sel FlashLoan.flash_loan_sigs);
      destruct (mem sel FlashLoan.callback_sigs) eqn:Ecb;
      cbn [FlashLoan.amounts FlashLoan.flash_loan_calls
        FlashLoan.callback_calls];
      try (destruct (0 <? FlashLoan._extract_amount_from_input _) eqn:Ea;
           [apply Z.ltb_lt in Ea |]);
      rewrite ?len_app; unfold len in *; cbn [length];
      repeat split;
      rewrite ?Forall_app, ?Forall_singleton;
      try (apply bool_decide_eq_true in Ecb); try tauto; try lia. }
  assert (H2 : Forall (fun a => 0 < a) (FlashLoan.amounts a2)
               /\ len (FlashLoan.amounts a2)
                  <= len (FlashLoan.flash_loan_calls a1) + len lfl
               /\ FlashLoan.callback_calls a2 = FlashLoan.callback_calls a1
               /\ FlashLoan.flash_loan_calls a2
                  = FlashLoan.flash_loan_calls a1
               /\ (lfl = [] -> FlashLoan.amounts a2 = FlashLoan.amounts a1)).
  { subst a2. destruct H1 as (Ha & Hl & _).
    destruct (fold_add_log_flash_loan lfl a1 Ha) as (I1 & I2 & I3 & I4 & I5).
    repeat split; try done. lia. }
  destruct H1 as (_ & Hl1 & Hc1).
  destruct H2 as (Ha2 & Hl2 & Ecb & Ecalls & Hnolog).
  rewrite Ecb, Ecalls. clearbody a2 a1 lfl. clear a0.
  destruct (fold_add_ge (FlashLoan.amounts a2) 0 Ha2) as [Hs0 Hs1].
  fold (sumZ (FlashLoan.amounts a2)) in Hs0, Hs1.
  assert (Hcount : 0 <= len (FlashLoan.flash_loan_calls a1) /\ 0 <= len lfl)
    by (unfold len; lia).
  assert (Hne : forall {A} (l : list A), 0 < len l -> l <> [])
    by (intros A [|] Hl; [unfold len in Hl; cbn in Hl; lia | done]).
  assert (Hpos : forall {A} (l : list A), l <> [] -> 0 < len l)
    by (intros A [|] Hl; [done | unfold len; cbn; lia]).
  repeat match goal with |- _ /\ _ => split end.
  - exact Ha2.
  - exact Hs0.
  - split; [| by intros ->].
    intros H0. destruct (FlashLoan.amounts a2) eqn:E; [done |].
    specialize (Hs1 ltac:(done)). lia.
  - lia.
  - intros Hc.
    destruct (Z.max_spec (len (FlashLoan.flash_loan_calls a1)) (len lfl))
      as [[_ Hm] | [_ Hm]]; rewrite Hm in Hc; apply Hne in Hc.
    + rewrite (bool_decide_eq_false_2 (lfl = [])) by exact Hc.
      cbn. apply orb_true_r.
    + by rewrite (bool_decide_eq_false_2 _ Hc).
  - intros Hamts. apply Hpos in Hamts.
    destruct (decide (FlashLoan.flash_loan_calls a1 = [])) as [Ec | Ec].
    + rewrite Ec in Hl2. change (len []) with 0 in Hl2.
      assert (lfl <> []) as Hlf by (apply Hne; lia).
      rewrite (bool_decide_eq_false_2 (lfl = [])) by exact Hlf.
      cbn. apply orb_true_r.
    + by rewrite (bool_decide_eq_false_2 _ Ec).
  - lia.
  - intros Hn. apply detect_nested_needs_two in Hn. lia.
  - exact Hc1.
  - intros Hcb. by rewrite (bool_decide_eq_false_2 _ Hcb).
  - apply set_iter_NoDup.
Qed.

(** X24.  What the calldata of a pending transaction says about flash
    loans, against the record of the executed trace with the same
    calldata and destination: a flash loan seen in the calldata is also
    reported for the trace, with [has_callback] set there.  The record
    from calldata counts at most one loan and one provider, and never
    reports an amount, a callback, nesting or a repayment. *)
Theorem pending_flash_loan_confirmed_by_trace `{RT : PyRuntime}
    (trace : TransactionTrace) :
  let p := FlashLoan.extract_from_input (input_data trace) (to_address trace) in
  let f := FlashLoan.extract trace in
  (FlashLoan.has_flash_loan p = true ->
   FlashLoan.has_flash_loan f = true /\ FlashLoan.has_callback f = true)
  /\ (FlashLoan.flash_loan_count p = 1 <-> FlashLoan.has_flash_loan p = true)
  /\ (FlashLoan.flash_loan_count p = 0 <-> FlashLoan.has_flash_loan p = false)
  /\ len (FlashLoan.flash_loan_providers p) <= 1
  /\ FlashLoan.total_borrowed p = 0
  /\ FlashLoan.has_callback p = false
  /\ FlashLoan.nested_flash_loans p = false
  /\ FlashLoan.repayment_detected p = false.
Proof.
  cbv zeta. unfold FlashLoan.extract_from_input, FlashLoan.extract.
  cbn [FlashLoan.has_flash_loan FlashLoan.has_callback
    FlashLoan.flash_loan_count FlashLoan.flash_loan_providers
    FlashLoan.total_borrowed FlashLoan.nested_flash_loans
    FlashLoan.repayment_detected].
  split.
  { intros ->. rewrite !orb_true_r. by split. }
  destruct (mem _ FlashLoan.flash_loan_sigs);
    repeat split; try done;
    match goal with
    | |- context [truthy ?x] => destruct (truthy x)
    end; by vm_compute.
Qed.

(** ** State-variance extractor *)

Lemma len_omap {A B} (f : A -> option B) (l : list A) :
  len (omap f l) <= len l.
Proof.
  unfold len. induction l as [| x l IH]; [done |].
  cbn. destruct (f x); cbn; lia.
Qed.

Lemma count_range {A} (p : A -> bool) (l : list A) :
  0 <= StateVariance.count p l <= len l.
Proof.
  unfold StateVariance.count, len.
  pose proof (List.filter_length_le p l). lia.
Qed.

Lemma count_disjoint {A} (p q : A -> bool) (l : list A) :
  (forall x, p x && q x = false) ->
  StateVariance.count p l + StateVariance.count q l <= len l.
Proof.
  intros H. unfold StateVariance.count, len.
  induction l as [| x l IH]; [cbn; lia |].
  cbn [List.filter]. specialize (H x).
  destruct (p x), (q x); try discriminate; cbn [length]; lia.
Qed.

Lemma count_pos {A} (p : A -> bool) (l : list A) :
  0 < StateVariance.count p l <-> exists x, x ∈ l /\ p x = true.
Proof.
  unfold StateVariance.count, len. induction l as [| x l IH].
  - cbn. split; [lia | intros (x & Hx & _); by apply elem_of_nil in Hx].
  - cbn [List.filter]. destruct (p x) eqn:E.
    + cbn [length]. split; [intros _; exists x; split; [left | done] | lia].
    + rewrite IH. split.
      * intros (y & Hy & Hp). exists y. split; [by right | done].
      * intros (y & Hy & Hp). apply elem_of_cons in Hy as [-> | Hy];
          [congruence | by exists y].
Qed.

Lemma fold_max_spec (l : list Z) (x : Z) :
  let m := fold_left Z.max l x in
  x <= m /\ Forall (fun y => y <= m) l /\ m ∈ x :: l.
Proof.
  revert x. induction l as [| y l IH]; intros x; cbv zeta.
  - cbn. split; [lia |]. split; [constructor | left].
  - cbn [fold_left]. destruct (IH (Z.max x y)) as (H1 & H2 & H3).
    split; [lia |]. split; [constructor; [lia | exact H2] |].
    apply elem_of_cons in H3 as [H3 | H3]; [| by do 2 right].
    rewrite H3. destruct (Z.max_spec x y) as [[_ ->] | [_ ->]];
      [right; left | left].
Qed.

Lemma maxZ_threshold (l : list Z) (t : Z) :
  0 < t ->
  (t <= match l with [] => 0 | _ => maxZ l end
   <-> exists x, x ∈ l /\ t <= x).
Proof.
  intros Ht. destruct l as [| x l].
  - split; [lia | intros (x & Hx & _); by apply elem_of_nil in Hx].
  - unfold maxZ. destruct (fold_max_spec l x) as (H1 & H2 & H3).
    cbv zeta in H1, H2, H3. split.
    + intros H. by exists (fold_left Z.max l x).
    + intros (y & Hy & Hty). apply elem_of_cons in Hy as [-> | Hy]; [lia |].
      rewrite Forall_forall in H2. specialize (H2 y Hy). lia.
Qed.

Lemma size_list_to_set_pos (l : list string) :
  l <> [] -> 1 <= Z.of_nat (size (list_to_set (C := gset string) l)).
Proof.
  destruct l as [| x l]; [done |]. intros _.
  destruct (size (list_to_set (C := gset string) (x :: l))) eqn:E; [| lia].
  apply size_empty_iff in E.
  assert (x ∈ list_to_set (C := gset string) (x :: l)) as Hx by set_solver.
  rewrite E in Hx. by apply elem_of_empty in Hx.
Qed.

(** X25.  The state-variance record of a trace: the counters of large
    changes, balance-slot changes and distinct slots never exceed the
    total; a change is counted as zero-to-nonzero or nonzero-to-zero but
    not both; a large change is counted exactly when the largest value
    change reaches the threshold [10 ** 18].  With storage changes the
    total is their number, there is at least one and at most that many
    modified contracts and slots, and the largest change is not
    negative. *)
Theorem state_variance_extract_invariants `{RT : PyRuntime}
    (trace : TransactionTrace) :
  let f := StateVariance.extract trace in
  let total := StateVariance.total_storage_changes f in
  0 <= StateVariance.large_value_changes f <= total
  /\ 0 <= StateVariance.balance_slot_changes f <= total
  /\ 0 <= StateVariance.unique_slots_modified f <= total
  /\ 0 <= StateVariance.zero_to_nonzero f
  /\ 0 <= StateVariance.nonzero_to_zero f
  /\ StateVariance.zero_to_nonzero f + StateVariance.nonzero_to_zero f
     <= total
  /\ (0 < StateVariance.large_value_changes f
      <-> 10 ^ 18 <= StateVariance.max_value_delta f)
  /\ (storage_changes trace <> [] ->
      total = len (storage_changes trace)
      /\ 1 <= StateVariance.unique_contracts_modified f <= total
      /\ 1 <= StateVariance.unique_slots_modified f
      /\ 0 <= StateVariance.max_value_delta f).
Proof.
  cbv zeta. unfold StateVariance.extract.
  destruct (storage_changes trace) as [| c cs] eqn:Hc.
  - destruct (logs trace) as [| l ls] eqn:Hl.
    + cbn. repeat split; try lia; done.
    + unfold StateVariance._extract_from_trace_logs.
      cbn [StateVariance.large_value_changes
        StateVariance.total_storage_changes
        StateVariance.balance_slot_changes
        StateVariance.unique_slots_modified StateVariance.zero_to_nonzero
        StateVariance.nonzero_to_zero StateVariance.max_value_delta].
      set (transfers := List.filter StateVariance.is_transfer_log (l :: ls)).
      set (amounts := omap StateVariance.log_amount transfers).
      pose proof (count_range (fun a => StateVariance.large_change_threshold <=? a)
                    amounts) as Hr.
      assert (Hlen : len amounts <= len transfers).
      { apply len_omap. }
      assert (0 <= len transfers) by (unfold len; lia).
      repeat match goal with |- _ /\ _ => split end; try lia; try done.
      rewrite count_pos.
      rewrite (maxZ_threshold amounts (10 ^ 18)) by lia.
      unfold StateVariance.large_change_threshold.
      split; intros (x & Hx & Hp); exists x; (split; [exact Hx |]);
        [by apply Z.leb_le | by apply Z.leb_le].
  - set (changes := c :: cs).
    cbn [StateVariance.large_value_changes
      StateVariance.total_storage_changes
      StateVariance.balance_slot_changes
      StateVariance.unique_slots_modified StateVariance.zero_to_nonzero
      StateVariance.nonzero_to_zero StateVariance.max_value_delta
      StateVariance.unique_contracts_modified].
    set (deltas := map StateVariance.delta_of changes).
    pose proof (count_range (fun d => StateVariance.large_change_threshold <=? d)
                  deltas) as Hr.
    assert (Hd : len deltas = len changes)
      by (unfold len, deltas; by rewrite length_map).
    pose proof (count_range
                  (fun c => StateVariance._is_balance_slot (sc_slot c))
                  changes) as Hb.
    pose proof (size_list_to_set_le
                  (map (fun c => sc_address c +:+ ":" +:+ sc_slot c) changes))
      as Hs.
    pose proof (size_list_to_set_le
                  (map (fun c => lower (sc_address c)) changes)) as Hcn.
    pose proof (size_list_to_set_pos
                  (map (fun c => sc_address c +:+ ":" +:+ sc_slot c) changes)
                  ltac:(done)) as Hs1.
    pose proof (size_list_to_set_pos
                  (map (fun c => lower (sc_address c)) changes)
                  ltac:(done)) as Hcn1.
    unfold len in Hs, Hcn. rewrite length_map in Hs, Hcn.
    fold (len changes) in Hs, Hcn.
    match goal with
    | |- context [StateVariance.count ?p changes
                  + StateVariance.count ?q changes] =>
        pose proof (count_disjoint p q changes) as Hz;
        pose proof (count_range p changes) as Hz1;
        pose proof (count_range q changes) as Hz2
    end.
    assert (Hmax : 0 <= maxZ deltas).
    { unfold maxZ, deltas, changes. cbn [map].
      destruct (fold_max_spec (map StateVariance.delta_of cs)
                  (StateVariance.delta_of c)) as [H _].
      cbv zeta in H. unfold StateVariance.delta_of at 1 in H. lia. }
    repeat match goal with |- _ /\ _ => split end; try lia; try done.
    + apply Hz. intros x.
      by destruct (StateVariance._hex_to_int (sc_previous_value x) =? 0),
        (StateVariance._hex_to_int (sc_new_value x) =? 0).
    + rewrite count_pos.
      pose proof (maxZ_threshold deltas (10 ^ 18) ltac:(lia)) as Hm.
      unfold deltas at 1, changes at 1 in Hm. cbn [map] in Hm.
      fold changes in Hm. change (StateVariance.delta_of c
        :: map StateVariance.delta_of cs) with deltas in Hm.
      rewrite Hm. unfold StateVariance.large_change_threshold.
      split; intros (x & Hx & Hp); exists x; (split; [exact Hx |]);
        [by apply Z.leb_le | by apply Z.leb_le].
Qed.

(** ** Bytecode similarity *)

Lemma gset_intersection_comm (X Y : gset string) : X ∩ Y = Y ∩ X.
Proof. apply leibniz_equiv. apply (comm (∩)). Qed.

Lemma gset_union_comm (X Y : gset string) : X ∪ Y = Y ∪ X.
Proof. apply leibniz_equiv. apply (comm (∪)). Qed.

Lemma gset_intersection_idemp (X : gset string) : X ∩ X = X.
Proof. apply leibniz_equiv. apply (idemp (∩)). Qed.

Lemma gset_union_idemp (X : gset string) : X ∪ X = X.
Proof. apply leibniz_equiv. apply (idemp (∪)). Qed.

Lemma range_by_two_nil stop : Bytecode.range_by_two stop = [] <-> stop <= 0.
Proof.
  unfold Bytecode.range_by_two. split.
  - intros H. apply map_eq_nil in H.
    destruct (Z.to_nat ((stop + 1) / 2)) eqn:E; [| discriminate].
    destruct (Z_le_gt_dec stop 0) as [| Hgt]; [done |].
    assert (1 <= (stop + 1) / 2) by (apply Z.div_le_lower_bound; lia). lia.
  - intros H.
    assert ((stop + 1) / 2 <= 0) as Hd.
    { destruct (Z.eq_dec stop 0) as [-> | Hne]; [done |].
      assert ((stop + 1) / 2 <= 0 / 2)
        by (apply Z.div_le_mono; lia).
      by rewrite Z.div_0_l in H0. }
    by replace (Z.to_nat ((stop + 1) / 2)) with 0%nat by lia.
Qed.

Lemma get_bytecode_chunks_empty bytecode :
  Bytecode._get_bytecode_chunks bytecode = ∅
  <-> strlen (Bytecode.strip_prefix bytecode) < 8.
Proof.
  unfold Bytecode._get_bytecode_chunks.
  set (clean := Bytecode.strip_prefix bytecode).
  pose proof (range_by_two_nil (strlen clean - 8 + 1)) as Hr.
  destruct (Bytecode.range_by_two (strlen clean - 8 + 1)) as [| i l].
  - cbn. split; [intros _ | done].
    destruct Hr as [Hr _]. specialize (Hr eq_refl). lia.
  - split.
    + intros H. exfalso.
      assert (substring i 8 clean
              ∈ list_to_set (C := gset string)
                  (map (fun i => substring i 8 clean) (i :: l)))
        as Hin by (apply elem_of_list_to_set; left).
      rewrite H in Hin. by apply elem_of_empty in Hin.
    + intros H. assert ((i :: l) = []) by (apply Hr; lia). discriminate.
Qed.

Lemma jaccard_ratio_range (i u : nat) :
  (i <= u)%nat -> (0 < u)%nat ->
  (0 <= float (Z.of_nat i) / float (Z.of_nat u) <= 1)%Q.
Proof.
  intros Hiu Hu. unfold float.
  assert (0 < inject_Z (Z.of_nat u))%Q as Hpos.
  { change 0%Q with (inject_Z 0). rewrite <- Zlt_Qlt. lia. }
  split.
  - apply Qle_shift_div_l; [exact Hpos |]. rewrite Qmult_0_l.
    change 0%Q with (inject_Z 0). rewrite <- Zle_Qle. lia.
  - apply Qle_shift_div_r; [exact Hpos |]. rewrite Qmult_1_l.
    rewrite <- Zle_Qle. lia.
Qed.

Lemma jaccard_range b1 b2 :
  (0 <= Bytecode.calculate_jaccard_similarity b1 b2 <= 1)%Q.
Proof.
  unfold Bytecode.calculate_jaccard_similarity.
  destruct (_ || _); [lra |]. destruct (_ || _); [lra |].
  destruct (0 <? _) eqn:E; [| lra]. apply Z.ltb_lt in E.
  apply jaccard_ratio_range; [| lia].
  apply subseteq_size. intros x [Hx _]%elem_of_intersection.
  apply elem_of_union. by left.
Qed.

(** X26.  The Jaccard similarity of two bytecode strings lies in [0, 1]
    and is symmetric; a string whose payload has at least eight
    characters has similarity 1 with itself, a shorter one has similarity
    0 with everything.  The maximum over a registry lies in [0, 1], is at
    least the similarity with every registered bytecode, and is 0 or the
    similarity with one of them. *)
Theorem jaccard_similarity_properties (b1 b2 : string) :
  let j := Bytecode.calculate_jaccard_similarity b1 b2 in
  (0 <= j <= 1)%Q
  /\ Bytecode.calculate_jaccard_similarity b2 b1 = j
  /\ (8 <= strlen (Bytecode.strip_prefix b1) ->
      (Bytecode.calculate_jaccard_similarity b1 b1 == 1)%Q)
  /\ (strlen (Bytecode.strip_prefix b1) < 8 -> j = 0%Q)
  /\ (forall registry,
        let m := Bytecode._calculate_max_jaccard registry b1 in
        (0 <= m <= 1)%Q
        /\ Forall (fun kv =>
                     (Bytecode.calculate_jaccard_similarity b1 kv.2 <= m)%Q)
             registry
        /\ (m = 0%Q
            \/ exists kv, kv ∈ registry
                 /\ m = Bytecode.calculate_jaccard_similarity b1 kv.2)).
Proof.
  cbv zeta. split; [apply jaccard_range |]. split; [| split; [| split]].
  - unfold Bytecode.calculate_jaccard_similarity.
    rewrite (orb_comm (negb (truthy b2))).
    destruct (_ || _); [reflexivity |].
    rewrite (orb_comm (bool_decide (Bytecode._get_bytecode_chunks b2 = ∅))).
    destruct (_ || _); [reflexivity |].
    by rewrite (gset_intersection_comm (Bytecode._get_bytecode_chunks b2)),
      (gset_union_comm (Bytecode._get_bytecode_chunks b2)).
  - intros H8. unfold Bytecode.calculate_jaccard_similarity.
    assert (truthy b1 = true) as ->.
    { destruct b1; [by vm_compute in H8 | reflexivity]. }
    cbn [negb orb].
    assert (Bytecode._get_bytecode_chunks b1 <> ∅) as Hne
      by (rewrite get_bytecode_chunks_empty; lia).
    rewrite (bool_decide_eq_false_2 _ Hne). cbn [orb].
    rewrite gset_intersection_idemp, gset_union_idemp.
    assert (0 < Z.of_nat (size (Bytecode._get_bytecode_chunks b1))) as Hs.
    { destruct (size (Bytecode._get_bytecode_chunks b1)) eqn:E; [| lia].
      apply size_empty_iff in E. exfalso. apply Hne.
      by apply leibniz_equiv. }
    apply Z.ltb_lt in Hs as Hb. rewrite Hb.
    unfold float. apply Qmult_inv_r.
    change 0%Q with (inject_Z 0). rewrite inject_Z_injective. lia.
  - intros H8. apply get_bytecode_chunks_empty in H8.
    unfold Bytecode.calculate_jaccard_similarity.
    destruct (_ || _); [reflexivity |].
    by rewrite (bool_decide_eq_true_2 _ H8).
  - intros registry. unfold Bytecode._calculate_max_jaccard.
    apply (fold_left_invariant_prefix
             (fun done m =>
                (0 <= m <= 1)%Q
                /\ Forall (fun kv =>
                     (Bytecode.calculate_jaccard_similarity b1 kv.2 <= m)%Q)
                     done
                /\ (m = 0%Q
                    \/ exists kv, kv ∈ done
                         /\ m = Bytecode.calculate_jaccard_similarity b1 kv.2))).
    + split; [lra |]. split; [constructor | by left].
    + intros done kv m (Hm & Hall & Harg).
      pose proof (jaccard_range b1 kv.2) as Hj.
      destruct (fmax_spec m (Bytecode.calculate_jaccard_similarity b1 kv.2))
        as [[Hlt ->] | [Hle ->]].
      * split; [exact Hj |]. split.
        -- apply Forall_app. split.
           ++ eapply Forall_impl; [exact Hall |]. cbn. intros; lra.
           ++ apply Forall_singleton. lra.
        -- right. exists kv. split; [| reflexivity].
           apply elem_of_app. right. by apply list_elem_of_singleton.
      * split; [exact Hm |]. split.
        -- apply Forall_app. split; [exact Hall |].
           by apply Forall_singleton.
        -- destruct Harg as [-> | (kv' & Hin & ->)]; [by left |].
           right. exists kv'. split; [| reflexivity].
           apply elem_of_app. by left.
Qed.

(** ** Inference engine *)

(** X27.  The decision table of [_make_decision] is consistent: the
    level is one of [critical], [high], [medium], [low] (never [safe]);
    a transaction is suspicious exactly when its level is not [low];
    [critical] and [high] always come with [block], [medium] always with
    [flag], [low] with [monitor] or [allow]. *)
Theorem make_decision_consistency (heuristic : Heuristics.HeuristicResult)
    (ml_result : option IsolationForest.DetectionResult)
    (simulation_timeout : bool) :
  let d := Inference._make_decision heuristic ml_result simulation_timeout in
  let is_suspicious := d.1.1 in
  let level := d.1.2 in
  let recommendation := d.2 in
  level ∈ ["critical"; "high"; "medium"; "low"]
  /\ (is_suspicious = true <-> level <> "low")
  /\ (recommendation = "block" <-> level = "critical" \/ level = "high")
  /\ (recommendation = "flag" <-> level = "medium")
  /\ (level = "low" <-> recommendation = "monitor" \/ recommendation = "allow")
  /\ recommendation ∈ ["block"; "flag"; "monitor"; "allow"].
Proof.
  cbv zeta. unfold Inference._make_decision.
  repeat match goal with
    | |- context [if ?c then _ else _] => destruct c
    end; cbn [fst snd];
    repeat split; try discriminate; try reflexivity;
    try (intros [? | ?]; discriminate);
    try (intros _; (by left) || (by right));
    try (by intros []);
    repeat constructor.
Qed.

(** X28.  A simulation timeout never makes the decision milder: with the
    timeout flag set the outcome is the one without it, or it is raised
    to a suspicious [medium] with [flag]; the flag changes nothing when
    there is neither an indicator nor a detector result. *)
Theorem simulation_timeout_never_lowers
    (heuristic : Heuristics.HeuristicResult)
    (ml_result : option IsolationForest.DetectionResult) :
  let quiet := Inference._make_decision heuristic ml_result false in
  let late := Inference._make_decision heuristic ml_result true in
  (late = quiet \/ late = (true, "medium", "flag"))
  /\ (quiet.1.1 = true -> late = quiet)
  /\ (late.2 = "allow" -> quiet.2 = "allow")
  /\ (Heuristics.risk_indicators heuristic = [] -> ml_result = None ->
      late = quiet).
Proof.
  cbv zeta. unfold Inference._make_decision. cbn [andb].
  destruct (_ && gtb _ 0.9); [by repeat split; try left |].
  destruct (from_option (fun ml => _ && _) false ml_result);
    [by repeat split; try left |].
  destruct (Heuristics.FilterResult_eqb (Heuristics.result heuristic)
              Heuristics.SUSPICIOUS).
  { destruct (from_option _ false ml_result); by repeat split; try left. }
  destruct (from_option (fun ml => gtb _ 0.3) false ml_result) eqn:E3.
  { split; [by right |]. split; [| split; [discriminate |]].
    - repeat match goal with
        | |- context [if ?c then _ else _] => destruct c
        end; cbn; first [discriminate | reflexivity].
    - intros _ ->. discriminate E3. }
  destruct (1 <=? len (Heuristics.risk_indicators heuristic)) eqn:E1.
  { split; [by right |]. split; [| split; [discriminate |]].
    - repeat match goal with
        | |- context [if ?c then _ else _] => destruct c
        end; cbn; first [discriminate | reflexivity].
    - intros Hnil. rewrite Hnil in E1. discriminate E1. }
  by repeat split; try left.
Qed.

(** X29.  The fast path of [analyze]: a pending transaction the first
    heuristic pass declares SAFE is answered at once with [low] and
    [allow], not suspicious, without features, detector result or
    indicators, whatever the aggregator, the detector and the simulation
    would have done. *)
Theorem safe_verdict_fast_path `{RT : PyRuntime}
    (E : Inference.InferenceEngine) (tx : Mempool.PendingTransaction)
    (sim : Inference.Simulation) (latency : Q) :
  Heuristics.result (Heuristics.filter (Inference.heuristic_filter E) tx)
  = Heuristics.SAFE ->
  exists r,
    Inference.analyze E tx sim latency = Ok r
    /\ Inference.is_suspicious r = false
    /\ Inference.risk_level r = "low"
    /\ Inference.recommendation r = "allow"
    /\ Inference.risk_indicators r = []
    /\ Inference.features r = None
    /\ Inference.ml_result r = None
    /\ Inference.anomaly_score r = 0%Q
    /\ (Inference.confidence r = 0.99%Q \/ Inference.confidence r = 0.9%Q)
    /\ Inference.tx_hash r = Mempool.hash tx.
Proof.
  intros HS. unfold Inference.analyze.
  assert (Hsa : Heuristics.should_analyze
                  (Heuristics.filter (Inference.heuristic_filter E) tx)
                = false
                /\ (Heuristics.confidence
                      (Heuristics.filter (Inference.heuristic_filter E) tx)
                    = 0.99%Q
                    \/ Heuristics.confidence
                         (Heuristics.filter (Inference.heuristic_filter E) tx)
                       = 0.9%Q)).
  { revert HS. unfold Heuristics.filter.
    destruct (Mempool.is_simple_transfer tx); [cbn; by auto |].
    destruct (_ && _); [cbn; by auto |].
    destruct (2 <=? _); cbn; discriminate. }
  destruct Hsa as [Hsa Hc]. rewrite HS, Hsa. cbn [Heuristics.FilterResult_eqb
    andb negb].
  eexists. split; [reflexivity |]. cbn. by repeat split.
Qed.

Lemma safe_verdict_fast_path_witness :
  exists r,
    Inference.analyze (RT := Reference.runtime) Examples.inference_engine
      Examples.token_transfer Inference.timed_out 1 = Ok r
    /\ Inference.is_suspicious r = false
    /\ Inference.risk_level r = "low"
    /\ Inference.recommendation r = "allow"
    /\ Inference.risk_indicators r = []
    /\ Inference.features r = None
    /\ Inference.ml_result r = None
    /\ Inference.anomaly_score r = 0%Q
    /\ (Inference.confidence r = 0.99%Q \/ Inference.confidence r = 0.9%Q)
    /\ Inference.tx_hash r = Mempool.hash Examples.token_transfer.
Proof.
  apply safe_verdict_fast_path. vm_compute. reflexivity.
Defined.


(** X30.  [analyze] on a pending transaction that is not a contract
    creation, by an engine without a detector, always returns: the
    aggregator does not look at bytecode, and nothing else can raise.
    The result carries the transaction's hash, the sub-score 0 and a
    confidence between 0.5 and 0.99; it has no features exactly when the
    first pass was SAFE.  Otherwise, when no simulated trace replaces the
    features, the second verdict carries [new_contract] (the bytecode
    record is empty), so it is never SAFE. *)
Theorem analyze_pending_returns `{RT : PyRuntime}
    (E : Inference.InferenceEngine) (tx : Mempool.PendingTransaction)
    (sim : Inference.Simulation) (latency : Q) :
  Mempool.is_contract_creation tx = false ->
  Inference.ml_detector E = None ->
  exists r,
    Inference.analyze E tx sim latency = Ok r
    /\ Inference.tx_hash r = Mempool.hash tx
    /\ Inference.ml_result r = None
    /\ Inference.anomaly_score r = 0%Q
    /\ (0.5 <= Inference.confidence r <= 0.99)%Q
    /\ (Inference.features r = None
        <-> Heuristics.result
              (Heuristics.filter (Inference.heuristic_filter E) tx)
            = Heuristics.SAFE)
    /\ (Inference.features r <> None ->
        Inference.enable_simulation E = false
        \/ sim = Inference.timed_out \/ sim = Inference.replayed None ->
        "new_contract" ∈ Inference.risk_indicators r
        /\ Heuristics.result (Inference.heuristic_result r)
           <> Heuristics.SAFE).
Proof.
  intros Hcr HD. unfold Inference.analyze.
  pose proof (filter_safe_iff (Inference.heuristic_filter E) tx)
    as (Hsafe & Hconf).
  set (h := Heuristics.filter (Inference.heuristic_filter E) tx) in *.
  destruct (Heuristics.FilterResult_eqb (Heuristics.result h) Heuristics.SAFE
            && negb (Heuristics.should_analyze h)) eqn:Efast.
  - apply andb_true_iff in Efast as [Er _].
    assert (Hr : Heuristics.result h = Heuristics.SAFE)
      by (by destruct (Heuristics.result h)).
    eexists. split; [reflexivity |]. cbn.
    repeat split; try done; destruct (Hconf Hr) as [-> | ->]; lra.
  - assert (Hr : Heuristics.result h <> Heuristics.SAFE).
    { intros Hr. apply Hsafe in Hr as Hsa. rewrite Hr, Hsa in Efast.
      discriminate Efast. }
    unfold Aggregator.extract_from_pending. rewrite Hcr.
    cbn [mbind result_bind Py.bind].
    match goal with
    | |- context [Inference.simulate E sim ?f] => set (features := f)
    end.
    destruct (Inference.simulate E sim features)
      as [[features' t] e] eqn:Es.
    unfold Inference.run_detector. rewrite HD.
    cbn [mbind result_bind Py.bind].
    destruct (Inference._make_decision _ None t) as [[susp level] rec].
    eexists. split; [reflexivity |].
    cbn [Inference.tx_hash Inference.ml_result Inference.anomaly_score
      Inference.confidence Inference.features Inference.risk_indicators
      Inference.heuristic_result from_option
      Inference._calculate_overall_confidence].
    destruct (filter_with_features_confidence features') as (Hc & _ & _).
    cbv zeta in Hc.
    split; [reflexivity |]. split; [reflexivity |]. split; [reflexivity |].
    split; [lra |].
    split; [split; [discriminate | intros Hs; elim (Hr Hs)] |].
    intros _ Hsim.
    assert (features' = features) as ->.
    { revert Es. unfold Inference.simulate.
      destruct Hsim as [-> | [-> | ->]];
        try destruct (Inference.enable_simulation E);
        try destruct sim as [| []];
        try destruct (Aggregator.extract_from_trace _ _);
        by intros [= <- _ _]. }
    destruct (empty_bytecode_is_new_contract features eq_refl)
      as (Hin & Hne & _).
    split; [| exact Hne].
    unfold Inference.all_indicators. apply elem_of_app. left.
    apply set_iter_elem_of, elem_of_list_to_set, elem_of_app. by right.
Qed.

(** The flash-loan call sent to an unknown contract. *)
Lemma analyze_pending_returns_witness :
  exists r,
    Inference.analyze (RT := Reference.runtime) Examples.inference_engine
      Examples.flash_pending Inference.timed_out 1 = Ok r
    /\ Inference.tx_hash r = Mempool.hash Examples.flash_pending
    /\ Inference.ml_result r = None
    /\ Inference.anomaly_score r = 0%Q
    /\ (0.5 <= Inference.confidence r <= 0.99)%Q
    /\ (Inference.features r = None
        <-> Heuristics.result
              (Heuristics.filter
                 (Inference.heuristic_filter Examples.inference_engine)
                 Examples.flash_pending)
            = Heuristics.SAFE)
    /\ (Inference.features r <> None ->
        Inference.enable_simulation Examples.inference_engine = false
        \/ Inference.timed_out = Inference.timed_out
        \/ Inference.timed_out = Inference.replayed None ->
        "new_contract" ∈ Inference.risk_indicators r
        /\ Heuristics.result (Inference.heuristic_result r)
           <> Heuristics.SAFE).
Proof.
  apply (analyze_pending_returns (RT := Reference.runtime)
           Examples.inference_engine Examples.flash_pending
           Inference.timed_out 1).
  - vm_compute. reflexivity.
  - reflexivity.
Defined.
